(** * Pipedrive data sync: a shallow embedding of the extraction and
      reconciliation pipeline, with its specification theorems.

    The Python sources are embedded module by module:
    - [Py]          the fragment of Python values, exceptions and truthiness
                    the sources rely on;
    - [DataModels]  models/data_models.py ([StageStatus]);
    - [Cleaning]    utils/cleaning_data.py (with the [re] fragment it uses);
    - [Effects]     the HTTP server, the document store, the log and the
                    clock, as a state-and-exception monad;
    - [Dal]         db/data_access_layer.py;
    - [Tenacity]    the [@retry] decorator of the tenacity library;
    - [Extraction]  extraction.py;
    - [Mailers], [Purls]  the [search_data] of mailers.py and purls.py;
    - [Datetime], [Digisheet]  digisheet.py;
    - [Examples]    concrete environments and documents.
    The properties follow, one module per subject.

    Python [str] values are Rocq strings read as sequences of code points
    below 256; dictionaries are [gmap string _]; floats are the binary64
    numbers of the standard library's [SpecFloat]. *)

From Stdlib Require Import ZArith Lia Ascii String.
From Stdlib Require Import DecimalString SpecFloat.
From stdpp Require Import base option list gmap strings.

#[local] Set Warnings "-register-all".
#[local] Open Scope string_scope.
#[local] Open Scope Z_scope.

(* ===================================================================== *)
(** * Python values, exceptions, outcomes *)
(* ===================================================================== *)

Module Py.

(** JSON-like Python values: what [response.json()] and a MongoDB document
    can hold.  A float is an IEEE binary64 number, given as the standard
    library specifies them ([spec_float]: a zero, an infinity, NaN, or
    sign, mantissa and exponent), together with the text [repr] gives for
    it, which is not computed here. *)
Inductive pyval : Type :=
  | VNone
  | VBool (b : bool)
  | VInt (z : Z)
  | VStr (s : string)
  | VList (l : list pyval)
  | VDict (d : gmap string pyval)
  | VFloat (f : spec_float) (repr : string).

(** The exception classes that occur.  [CancelledError] stands for the
    classes deriving from [BaseException] only; every other constructor
    derives from [Exception]. *)
Inductive exn : Type :=
  | ReadTimeout
  | HTTPStatusError (status : Z)
  | JSONDecodeError
  | KeyError (k : string)
  | ValueError
  | TypeError
  | AttributeError
  | UnboundLocalError
  | DuplicateKeyError
  | PyMongoError
  | RetryError (last : exn)
  | CancelledError
  | OverflowError.

(** [isinstance(e, Exception)] *)
Definition is_Exception (e : exn) : bool :=
  match e with
  | CancelledError => false
  | _ => true
  end.

Inductive outcome (A : Type) : Type :=
  | Return (a : A)
  | Raise (e : exn).
Arguments Return {A} a.
Arguments Raise {A} e.

(** [bool(v)] *)
Definition truthy (v : pyval) : bool :=
  match v with
  | VNone => false
  | VBool b => b
  | VInt z => negb (z =? 0)
  | VStr s => negb (String.eqb s "")
  | VList l => negb (Nat.eqb (length l) 0)
  | VDict d => negb (Nat.eqb (size d) 0)
  | VFloat (S754_zero _) _ => false
  | VFloat _ _ => true
  end.

(** [bool(s)] for an optional string ([None] or a [str]). *)
Definition truthy_ostr (o : option string) : bool :=
  match o with
  | None => false
  | Some s => negb (String.eqb s "")
  end.

(** [d.get(k)] and [d.get(k, default)] *)
Definition dict_get (d : gmap string pyval) (k : string) : pyval :=
  default VNone (d !! k).

Definition dict_get_or (d : gmap string pyval) (k : string) (dflt : pyval) : pyval :=
  default dflt (d !! k).

(** The integer a float is equal to, if any: its value is the mantissa
    times two to the exponent, with the sign. *)
Definition float_to_Z (f : spec_float) : option Z :=
  match f with
  | S754_zero _ => Some 0
  | S754_finite s m e =>
      let n := if s then Zneg m else Zpos m in
      if 0 <=? e then Some (n * 2 ^ e)
      else if n mod 2 ^ (- e) =? 0 then Some (n / 2 ^ (- e))
      else None
  | _ => None
  end.

(** The integer a value compares equal to: [bool] is a subclass of [int]
    in Python, [True == 1] and [False == 0]; a float equals the integer
    that has its value, [3.0 == 3]. *)
Definition as_int (v : pyval) : option Z :=
  match v with
  | VInt z => Some z
  | VBool b => Some (if b then 1 else 0)
  | VFloat f _ => float_to_Z f
  | _ => None
  end.

(** [v == z] for an integer [z]. *)
Definition eq_int (v : pyval) (z : Z) : bool :=
  match as_int v with
  | Some n => n =? z
  | None => false
  end.

(** [str(z)] for an integer. *)
Definition str_of_Z (z : Z) : string :=
  NilZero.string_of_int (Z.to_int z).

(** ** Arithmetic *)

(** An integer as the pair of a mantissa and the exponent 0. *)
Definition exact (a : Z) : spec_float :=
  match a with
  | Z0 => S754_zero false
  | Zpos p => S754_finite false p 0
  | Zneg p => S754_finite true p 0
  end.

(** [a / b] for two integers, [b] positive: the quotient of the two
    integers, rounded once to the nearest binary64 float, ties to even
    ([SFdiv] divides the mantissas whatever their size); a quotient beyond
    the floats raises [OverflowError]. *)
Definition int_true_div (a : Z) (b : positive) : outcome spec_float :=
  match SFdiv 53 1024 (exact a) (exact (Zpos b)) with
  | S754_infinity _ => Raise OverflowError
  | q => Return q
  end.

(** [float(b)] for a positive integer. *)
Definition float_of_pos (b : positive) : outcome spec_float :=
  match binary_normalize 53 1024 (Zpos b) 0 false with
  | S754_infinity _ => Raise OverflowError
  | f => Return f
  end.

(** [v / b] for a positive integer [b]: a number can be divided, nothing
    else can. *)
Definition true_div (v : pyval) (b : positive) : outcome spec_float :=
  match v with
  | VInt a => int_true_div a b
  | VBool a => int_true_div (if a then 1 else 0) b
  | VFloat f _ =>
      match float_of_pos b with
      | Return d => Return (SFdiv 53 1024 f d)
      | Raise e => Raise e
      end
  | _ => Raise TypeError
  end.

(** [math.ceil(f)]: an integer, computed exactly from the mantissa and
    the exponent. *)
Definition math_ceil (f : spec_float) : outcome Z :=
  match f with
  | S754_nan => Raise ValueError
  | S754_infinity _ => Raise OverflowError
  | S754_zero _ => Return 0
  | S754_finite s m e =>
      let n := if s then Zneg m else Zpos m in
      Return (if 0 <=? e then n * 2 ^ e else - ((- n) / 2 ^ (- e)))
  end.

(** [isinstance(v, (int, float))] *)
Definition is_number (v : pyval) : bool :=
  match v with
  | VBool _ | VInt _ | VFloat _ _ => true
  | _ => false
  end.


(** ** Strings *)

Definition chars (s : string) : list ascii := list_ascii_of_string s.
Definition str (l : list ascii) : string := string_of_list_ascii l.

(** [c.isspace()] for a code point below 256: TAB..CR, FS..US, SPACE,
    NEL (0x85) and NBSP (0xA0). *)
Definition is_space (c : ascii) : bool :=
  let n := nat_of_ascii c in
  ((9 <=? n) && (n <=? 13) || (28 <=? n) && (n <=? 32)
   || (n =? 133) || (n =? 160))%nat.

(** [\d] for a code point below 256: the ASCII digits. *)
Definition is_digit (c : ascii) : bool :=
  let n := nat_of_ascii c in ((48 <=? n) && (n <=? 57))%nat.

Fixpoint lstrip_chars (l : list ascii) : list ascii :=
  match l with
  | [] => []
  | c :: l' => if is_space c then lstrip_chars l' else l
  end.

Definition rstrip_chars (l : list ascii) : list ascii :=
  rev (lstrip_chars (rev l)).

(** [s.strip()] *)
Definition strip (s : string) : string :=
  str (rstrip_chars (lstrip_chars (chars s))).

(** [s.startswith(p)] *)
Fixpoint startswith (p s : list ascii) : bool :=
  match p, s with
  | [], _ => true
  | _ :: _, [] => false
  | a :: p', b :: s' => Ascii.eqb a b && startswith p' s'
  end.

(** [s.replace(old, "")] for a non-empty [old]: the non-overlapping
    occurrences of [old], found left to right, are deleted.  [skip] counts
    the characters of the occurrence being deleted that are still ahead. *)
Fixpoint delete_all (old : list ascii) (skip : nat) (s : list ascii)
  : list ascii :=
  match s with
  | [] => []
  | c :: s' =>
      match skip with
      | S k => delete_all old k s'
      | O =>
          if startswith old s
          then delete_all old (length old - 1) s'
          else c :: delete_all old 0 s'
      end
  end.

(** [str(v)].  The text of a float is the one it comes with.  The [repr]
    of a container is not computed (it depends on the order of insertion,
    which a [gmap] does not keep): an abbreviation stands for it. *)
Definition py_str (v : pyval) : string :=
  match v with
  | VNone => "None"
  | VBool true => "True"
  | VBool false => "False"
  | VInt z => str_of_Z z
  | VStr s => s
  | VList _ => "[...]"
  | VDict _ => "{...}"
  | VFloat _ repr => repr
  end.

(** [sep.join(l)]: every item must be a [str]. *)
Fixpoint join (sep : string) (l : list pyval) : outcome string :=
  match l with
  | [] => Return ""
  | [VStr s] => Return s
  | VStr s :: l' =>
      match join sep l' with
      | Return r => Return (s ++ sep ++ r)%string
      | Raise e => Raise e
      end
  | _ :: _ => Raise TypeError
  end.

(** [s.split(sep)] for a non-empty [sep]: the pieces between the
    non-overlapping occurrences of [sep], found left to right.  [cur] holds
    the piece being read, reversed; [skip] counts the characters of the
    occurrence just found that are still ahead. *)
Fixpoint split_go (sep : list ascii) (skip : nat) (cur : list ascii)
    (s : list ascii) : list (list ascii) :=
  match s with
  | [] => [rev cur]
  | c :: s' =>
      match skip with
      | S k => split_go sep k cur s'
      | O =>
          if startswith sep s
          then rev cur :: split_go sep (length sep - 1) [] s'
          else split_go sep 0 (c :: cur) s'
      end
  end.

Definition split (sep s : string) : list string :=
  str <$> split_go (chars sep) 0 [] (chars s).

(** ** Access *)

(** [v[k]] for a string key. *)
Definition subscript (v : pyval) (k : string) : outcome pyval :=
  match v with
  | VDict d =>
      match d !! k with
      | Some x => Return x
      | None => Raise (KeyError k)
      end
  | _ => Raise TypeError
  end.

(** [v.get(k, dflt)]: only a [dict] has the method. *)
Definition get (v : pyval) (k : string) (dflt : pyval) : outcome pyval :=
  match v with
  | VDict d => Return (default dflt (d !! k))
  | _ => Raise AttributeError
  end.

(** The items [for x in v] binds: the elements of a list, the keys of a
    dict, the characters of a string; other values are not iterable. *)
Definition iter (v : pyval) : outcome (list pyval) :=
  match v with
  | VList l => Return l
  | VDict d => Return (VStr <$> (map_to_list d).*1)
  | VStr s => Return ((fun c => VStr (String c EmptyString)) <$> chars s)
  | _ => Raise TypeError
  end.

(** An optional string as a value, and back (a pydantic 2 [Optional[str]]
    field rejects anything else with a [ValidationError], which is a
    [ValueError]). *)
Definition of_ostr (o : option string) : pyval :=
  match o with
  | Some s => VStr s
  | None => VNone
  end.

Definition to_ostr (v : pyval) : outcome (option string) :=
  match v with
  | VNone => Return None
  | VStr s => Return (Some s)
  | _ => Raise ValueError
  end.

(** ** Outcomes as a monad *)

#[global] Instance outcome_ret : MRet outcome := fun A a => Return a.

#[global] Instance outcome_bind : MBind outcome := fun A B k o =>
  match o with
  | Return a => k a
  | Raise e => Raise e
  end.

(** A comprehension [[f(x) for x in l]] whose body may raise. *)
Fixpoint each {A B} (f : A -> outcome B) (l : list A) : outcome (list B) :=
  match l with
  | [] => Return []
  | x :: l' => y ← f x; ys ← each f l'; Return (y :: ys)
  end.

(** [a or b] *)
Definition or_else (a b : pyval) : pyval := if truthy a then a else b.

(** [v == s] for a string [s]. *)
Definition eq_str (v : pyval) (s : string) : bool :=
  match v with
  | VStr t => String.eqb t s
  | _ => false
  end.

End Py.
Import Py.

(* ===================================================================== *)
(** * models/data_models.py *)
(* ===================================================================== *)

Module DataModels.

Inductive StageStatus : Type :=
  | TRYING_TO_CONTACT
  | TOOK_APP
  | REC_DOCS_LENDER_CALL
  | FINANCIAL_SCHED
  | COMPLIANCE_SCHED
  | PENDING_PAYMENT
  | PAID
  | SUBMITTED_TO_PROCESSING.

(** The members in definition order. *)
Definition members : list StageStatus :=
  [TRYING_TO_CONTACT; TOOK_APP; REC_DOCS_LENDER_CALL; FINANCIAL_SCHED;
   COMPLIANCE_SCHED; PENDING_PAYMENT; PAID; SUBMITTED_TO_PROCESSING].

(** [member.value] *)
Definition value (s : StageStatus) : Z :=
  match s with
  | TRYING_TO_CONTACT => 0
  | TOOK_APP => 1
  | REC_DOCS_LENDER_CALL => 2
  | FINANCIAL_SCHED => 3
  | COMPLIANCE_SCHED => 4
  | PENDING_PAYMENT => 5
  | PAID => 6
  | SUBMITTED_TO_PROCESSING => 7
  end.

(** The table inside the [description] property. *)
Definition descriptions : gmap Z string :=
  list_to_map
    [(0, "Trying to Contact");
     (1, "Took App");
     (2, "Rec Docs - Lender Call");
     (3, "Financial Sched");
     (4, "Compliance Shed");
     (5, "Pending Payment");
     (6, "PAID");
     (7, "Sub'd to Processing")].

(** [descriptions[self.value]]; the lookup raises [KeyError] on a miss,
    which [description_defined] below rules out. *)
Definition description_lookup (s : StageStatus) : outcome string :=
  match descriptions !! value s with
  | Some d => Return d
  | None => Raise (KeyError (str_of_Z (value s)))
  end.

Definition description (s : StageStatus) : string :=
  match description_lookup s with
  | Return d => d
  | Raise _ => ""
  end.

(** [cls(number)]: the enum's by-value lookup; a value equal to no
    member's value raises [ValueError]. *)
Definition from_number (number : pyval) : outcome StageStatus :=
  match List.find (fun m => eq_int number (value m)) members with
  | Some m => Return m
  | None => Raise ValueError
  end.

(** [to_dict] *)
Definition to_dict (s : StageStatus) : gmap string pyval :=
  <["value" := VInt (value s)]> (<["description" := VStr (description s)]> ∅).

(** [PersonInfo] and [DealInfo] *)
Record PersonInfo : Type := {
  pi_id : string;
  pi_benefit_id : option string;
  pi_phone_number : option string;
  pi_email : option string;
  pi_address : option string;
}.

Record DealInfo : Type := {
  di_id : string;
  di_person_id : string;
  di_stage_status : option StageStatus;
  di_status : string;
  di_assigned_to : option string;
  di_updated_at : option string;
  di_name : option string;
}.

End DataModels.

(* ===================================================================== *)
(** * utils/cleaning_data.py *)
(* ===================================================================== *)

Module Cleaning.

(** ** The fragment of [re] the module uses *)

(** Regular expressions, with the constructors Brzozowski derivatives
    need. *)
Inductive regex : Type :=
  | REmpty                      (* matches nothing *)
  | REps                        (* matches the empty string *)
  | RLit (c : ascii)            (* a literal character *)
  | RNot (c : ascii)            (* the class [[^c]] *)
  | RCat (r1 r2 : regex)
  | RAlt (r1 r2 : regex)
  | RStar (r : regex).

(** [r+] *)
Definition RPlus (r : regex) : regex := RCat r (RStar r).

Fixpoint nullable (r : regex) : bool :=
  match r with
  | REmpty => false
  | REps => true
  | RLit _ => false
  | RNot _ => false
  | RCat r1 r2 => nullable r1 && nullable r2
  | RAlt r1 r2 => nullable r1 || nullable r2
  | RStar _ => true
  end.

Fixpoint deriv (a : ascii) (r : regex) : regex :=
  match r with
  | REmpty => REmpty
  | REps => REmpty
  | RLit c => if Ascii.eqb a c then REps else REmpty
  | RNot c => if Ascii.eqb a c then REmpty else REps
  | RCat r1 r2 =>
      if nullable r1
      then RAlt (RCat (deriv a r1) r2) (deriv a r2)
      else RCat (deriv a r1) r2
  | RAlt r1 r2 => RAlt (deriv a r1) (deriv a r2)
  | RStar r1 => RCat (deriv a r1) (RStar r1)
  end.

(** [pattern.match(s) is not None]: some prefix of [s] is in the
    pattern's language ([match] anchors at the start only). *)
Fixpoint re_match (r : regex) (s : list ascii) : bool :=
  nullable r ||
  match s with
  | [] => false
  | a :: s' => re_match (deriv a r) s'
  end.

(** [re.compile(r"[^@]+@[^@]+\.[^@]+")] *)
Definition email_regex : regex :=
  RCat (RPlus (RNot "@"))
    (RCat (RLit "@")
       (RCat (RPlus (RNot "@"))
          (RCat (RLit ".") (RPlus (RNot "@"))))).

(** [re.sub(r"\D", "", s)]: every character that is no decimal digit is
    deleted.  Among the characters below code point 256, which are those
    of the strings here, the decimal digits are the ASCII digits; a string
    with other decimal digits (Arabic-Indic ones, say) is outside. *)
Definition sub_nondigits (l : list ascii) : list ascii :=
  List.filter is_digit l.

(** ** The three cleaners *)

(** [clean_phone]: an argument that is truthy but not a [str] makes
    [re.sub] raise [TypeError]. *)
Definition clean_phone (phone : pyval) : outcome (option string) :=
  if negb (truthy phone) then Return None
  else match phone with
       | VStr s =>
           let phone := sub_nondigits (chars s) in
           Return (if (10 <=? length phone)%nat then Some (str phone) else None)
       | _ => Raise TypeError
       end.

(** [clean_email]: an argument that is truthy but not a [str] has no
    [strip] method. *)
Definition clean_email (email : pyval) : outcome (option string) :=
  if negb (truthy email) then Return None
  else match email with
       | VStr s =>
           let email := strip s in
           Return (if re_match email_regex (chars email)
                   then Some email else None)
       | _ => Raise AttributeError
       end.

(** [clean_benefit_id], on a [str] argument (for which [str(benefit_id)]
    is the argument itself). *)
Definition clean_benefit_id (benefit_id : string) : string :=
  let benefit_id := strip benefit_id in
  if startswith (chars "PURL ") (chars benefit_id)
  then str (delete_all (chars "PURL ") 0 (chars benefit_id))
  else benefit_id.

(** ** Reference notions for the email pattern *)

(** The language of a pattern, against which the matcher is checked. *)
Inductive lang : regex -> list ascii -> Prop :=
  | lang_eps : lang REps []
  | lang_lit c : lang (RLit c) [c]
  | lang_not c a : a <> c -> lang (RNot c) [a]
  | lang_cat r1 r2 u v :
      lang r1 u -> lang r2 v -> lang (RCat r1 r2) (u ++ v)
  | lang_alt_l r1 r2 u : lang r1 u -> lang (RAlt r1 r2) u
  | lang_alt_r r1 r2 u : lang r2 u -> lang (RAlt r1 r2) u
  | lang_star_nil r : lang (RStar r) []
  | lang_star_cons r u v :
      lang r u -> lang (RStar r) v -> lang (RStar r) (u ++ v).

(** The shape [local@domain.tld] as the specification words it: one [@],
    a non-empty local part before it, and after it a dot with something
    on either side. *)
Definition local_at_domain_tld (t : list ascii) : Prop :=
  exists local domain tld : list ascii,
    t = (local ++ "@"%char :: domain ++ "."%char :: tld)%list
    /\ local <> [] /\ domain <> [] /\ tld <> []
    /\ ("@"%char ∉ local) /\ ("@"%char ∉ domain) /\ ("@"%char ∉ tld).

(** The string starts with such a shape; what follows is free. *)
Definition starts_with_local_at_domain_tld (t : list ascii) : Prop :=
  exists p q : list ascii, t = (p ++ q)%list /\ local_at_domain_tld p.

End Cleaning.

(* ===================================================================== *)
(** * The outside world: HTTP, the document store, the log, the clock *)
(* ===================================================================== *)

Module Effects.

Inductive level : Type := INFO | WARNING | ERROR.

(** What a GET produces: an exception raised by the client (a read timeout
    among them) or a response, whose body is JSON or not ([None]). *)
Inductive http_result : Type :=
  | HRaise (e : exn)
  | HResponse (status_code : Z) (json : option pyval).

(** What [collection.update_one] produces: an exception, or a result with
    its [upserted_id] ([None] when an existing document was matched). *)
Inductive db_result : Type :=
  | DbRaise (e : exn)
  | DbResult (upserted_id : pyval).

Inductive event : Type :=
  | EvLimiterWait
  | EvGet (url : string)
  | EvSleep (seconds : Z)
  | EvLog (lvl : level) (message : string)
  | EvUpdateOne (collection : string) (filter update : gmap string pyval)
  | EvFind (collection : string)
  | EvBatchGet (ranges : list string)
  | EvBatchUpdate (data : list (string * list string)).

(** The environment a run executes in.  Responses may differ from one
    request to the next, so both oracles take the number of requests
    (writes) made before. *)
Record env : Type := {
  env_http : nat -> string -> http_result;
  env_db : nat -> db_result;
  PERSONS_COLLECTION : string;
  DEALS_COLLECTION : string;
}.

Record world : Type := {
  w_requests : nat;
  w_writes : nat;
  w_trace : list event;
}.

Definition world0 : world :=
  {| w_requests := 0; w_writes := 0; w_trace := [] |}.

(** The URLs requested so far, the seconds slept so far. *)
Definition requested (w : world) : list string :=
  omap (fun ev => match ev with EvGet url => Some url | _ => None end)
       (w_trace w).

Definition slept (w : world) : list Z :=
  omap (fun ev => match ev with EvSleep s => Some s | _ => None end)
       (w_trace w).

(** Computations that may raise and that act on the world. *)
Definition M (A : Type) : Type := world -> outcome A * world.

#[global] Instance M_ret : MRet M := fun A a w => (Return a, w).

#[global] Instance M_bind : MBind M := fun A B k m w =>
  match m w with
  | (Return a, w') => k a w'
  | (Raise e, w') => (Raise e, w')
  end.

Definition raise {A} (e : exn) : M A := fun w => (Raise e, w).

(** Lift a pure outcome. *)
Definition lift {A} (o : outcome A) : M A := fun w => (o, w).

Definition emit (ev : event) : M unit := fun w =>
  (Return tt,
   {| w_requests := w_requests w; w_writes := w_writes w;
      w_trace := w_trace w ++ [ev] |}).

Definition log (lvl : level) (message : string) : M unit :=
  emit (EvLog lvl message).

(** [await LIMITER.wait()] *)
Definition limiter_wait : M unit := emit EvLimiterWait.

(** [client.get(url)] / [httpx.get(url)] *)
Definition http_get (E : env) (url : string) : M (Z * option pyval) := fun w =>
  let w' := {| w_requests := S (w_requests w); w_writes := w_writes w;
               w_trace := w_trace w ++ [EvGet url] |} in
  match env_http E (w_requests w) url with
  | HRaise e => (Raise e, w')
  | HResponse status body => (Return (status, body), w')
  end.

(** [response.raise_for_status()]: raises unless the status is 2xx. *)
Definition is_success (status_code : Z) : bool :=
  (200 <=? status_code) && (status_code <=? 299).

Definition raise_for_status (status_code : Z) : M unit :=
  if is_success status_code then mret tt
  else raise (HTTPStatusError status_code).

(** [response.json()] *)
Definition json (body : option pyval) : M pyval :=
  match body with
  | Some v => mret v
  | None => raise JSONDecodeError
  end.

(** [collection.update_one(filter, {"$set": update}, upsert=True)] *)
Definition update_one (E : env) (collection : string)
    (filter update : gmap string pyval) : M pyval := fun w =>
  let w' := {| w_requests := w_requests w; w_writes := S (w_writes w);
               w_trace := w_trace w ++ [EvUpdateOne collection filter update] |} in
  match env_db E (w_writes w) with
  | DbRaise e => (Raise e, w')
  | DbResult upserted_id => (Return upserted_id, w')
  end.

(** The document such a write leaves in the collection: the matched
    document with the fields of [update] set, or, when none matched, a new
    document made of the fields of the filter and of [update]. *)
Definition upserted (existing : option (gmap string pyval))
    (filter update : gmap string pyval) : gmap string pyval :=
  update ∪ default filter existing.

(** [try: body  except cls1: h1  except cls2: h2 ...]: a clause is the
    test [isinstance(e, cls)] with its handler; the first clause whose test
    holds runs, and an exception no clause handles propagates. *)
Fixpoint dispatch {A} (clauses : list ((exn -> bool) * (exn -> M A)))
    (e : exn) : M A :=
  match clauses with
  | [] => fun w => (Raise e, w)
  | (handles, handler) :: rest =>
      if handles e then handler e else dispatch rest e
  end.

Definition try_except {A} (body : M A)
    (clauses : list ((exn -> bool) * (exn -> M A))) : M A := fun w =>
  match body w with
  | (Return a, w') => (Return a, w')
  | (Raise e, w') => dispatch clauses e w'
  end.

Definition is_ReadTimeout (e : exn) : bool :=
  match e with ReadTimeout => true | _ => false end.

Definition is_DuplicateKeyError (e : exn) : bool :=
  match e with DuplicateKeyError => true | _ => false end.

(** [for x in l: body(x)] *)
Fixpoint for_each {A} (body : A -> M unit) (l : list A) : M unit :=
  match l with
  | [] => mret tt
  | x :: l' => body x;; for_each body l'
  end.

(** [for x in l: acc = body(acc, x)], for a loop that threads a value. *)
Fixpoint fold_each {A B} (body : B -> A -> M B) (l : list A) (acc : B) : M B :=
  match l with
  | [] => mret acc
  | x :: l' => acc' ← body acc x; fold_each body l' acc'
  end.

(** The same loop without the world, for a body that does not touch it. *)
Fixpoint fold_outcome {A B} (body : B -> A -> outcome B) (l : list A) (acc : B)
  : outcome B :=
  match l with
  | [] => Return acc
  | x :: l' => acc' ← body acc x; fold_outcome body l' acc'
  end.

(** The world once [ev] has happened. *)
Definition after (ev : event) (w : world) : world := (emit ev w).2.

(** The writes made to the store so far: collection, filter, update. *)
Definition store_writes (w : world)
  : list (string * gmap string pyval * gmap string pyval) :=
  omap (fun ev => match ev with
                  | EvUpdateOne c f u => Some (c, f, u)
                  | _ => None
                  end) (w_trace w).

(** What was done to the store and to the sheet so far: every event but
    the log lines. *)
Definition is_log (ev : event) : bool :=
  match ev with EvLog _ _ => true | _ => false end.

Definition effects (w : world) : list event :=
  List.filter (fun ev => negb (is_log ev)) (w_trace w).

End Effects.
Import Effects.

(* ===================================================================== *)
(** * db/data_access_layer.py *)
(* ===================================================================== *)

Module Dal.

Definition insert_or_update_document (E : env) (collection : string)
    (filter_dict update_dict : gmap string pyval) : M unit :=
  try_except
    (upserted_id ← update_one E collection filter_dict update_dict;
     if truthy upserted_id
     then log INFO ("Inserted new document in " ++ collection)
     else log INFO ("Updated existing document in " ++ collection))
    [(is_DuplicateKeyError,
      fun _ => log WARNING ("Duplicate key error for document in " ++ collection));
     (is_Exception,
      fun _ => log ERROR ("Error inserting/updating document in " ++ collection))].

(** The level of the one log line a write leaves. *)
Definition logged_level (r : db_result) : level :=
  match r with
  | DbResult _ => INFO
  | DbRaise DuplicateKeyError => WARNING
  | DbRaise _ => ERROR
  end.

End Dal.

(* ===================================================================== *)
(** * tenacity: the [@retry] decorator *)
(* ===================================================================== *)

Module Tenacity.

(** [stop_after_attempt(n)] *)
Definition stop_after_attempt (max_attempt_number : nat) (attempt_number : nat)
  : bool := (max_attempt_number <=? attempt_number)%nat.

(** [wait_fixed(seconds)] *)
Definition wait_fixed (seconds : Z) (attempt_number : nat) : Z := seconds.

(** The default [retry=retry_if_exception_type()]: retry on any instance
    of [Exception]. *)
Definition retry_if_exception_type (e : exn) : bool := is_Exception e.

(** What one decorated call did: its outcome, the world it left, and the
    decorator's own record of the attempts and of the sleeps between
    them. *)
Record retry_run (A : Type) : Type := {
  result : outcome A;
  final : world;
  attempts : list (outcome A);
  sleeps : list Z;
}.
Arguments result {A} _.
Arguments final {A} _.
Arguments attempts {A} _.
Arguments sleeps {A} _.

(** The retry loop.  An attempt that returns ends it with its value; an
    exception the retry predicate rejects is re-raised as it is; otherwise
    the stop condition decides between [RetryError] (the default
    [reraise=False]) and sleeping before the next attempt.  [fuel] bounds
    the attempts still to come; with [stop_after_attempt] it is never
    exhausted before the stop condition holds. *)
Fixpoint retrying {A} (fuel : nat) (stop : nat -> bool) (wait : nat -> Z)
    (fn : M A) (attempt_number : nat) (w : world) : retry_run A :=
  let '(o, w1) := fn w in
  match o with
  | Return a =>
      {| result := Return a; final := w1; attempts := [o]; sleeps := [] |}
  | Raise e =>
      if negb (retry_if_exception_type e) then
        {| result := Raise e; final := w1; attempts := [o]; sleeps := [] |}
      else if stop attempt_number then
        {| result := Raise (RetryError e); final := w1;
           attempts := [o]; sleeps := [] |}
      else
        match fuel with
        | O =>
            {| result := Raise (RetryError e); final := w1;
               attempts := [o]; sleeps := [] |}
        | S fuel' =>
            let seconds := wait attempt_number in
            let '(_, w2) := emit (EvSleep seconds) w1 in
            let r := retrying fuel' stop wait fn (S attempt_number) w2 in
            {| result := result r; final := final r;
               attempts := o :: attempts r; sleeps := seconds :: sleeps r |}
        end
  end.

(** [@retry(stop=stop_after_attempt(n), wait=wait_fixed(s))] applied to
    [fn], as a run with its record... *)
Definition retry_call {A} (max_attempt_number : nat) (seconds : Z) (fn : M A)
    (w : world) : retry_run A :=
  retrying max_attempt_number (stop_after_attempt max_attempt_number)
    (wait_fixed seconds) fn 1 w.

(** ... and as the decorated function. *)
Definition retry {A} (max_attempt_number : nat) (seconds : Z) (fn : M A) : M A :=
  fun w =>
    let r := retry_call max_attempt_number seconds fn w in
    (result r, final r).

(** What a run of the decorated function looks like under
    [stop_after_attempt(max)] and [wait_fixed(seconds)]: between one and
    [max] attempts, the same sleep between consecutive attempts, every
    attempt but the last one ended by an instance of [Exception] (of
    whatever class), and the last attempt deciding the result: its value,
    or its exception as it is when the retry predicate rejects it, or
    [RetryError] around its exception once [max] attempts are spent. *)
Definition retry_policy {A} (max_attempt_number : nat) (seconds : Z)
    (r : retry_run A) : Prop :=
  (1 <= length (attempts r) <= max_attempt_number)%nat
  /\ sleeps r = replicate (length (attempts r) - 1) seconds
  /\ (forall i o, (S i < length (attempts r))%nat ->
                 attempts r !! i = Some o ->
                 exists e, o = Raise e /\ is_Exception e = true)
  /\ match last (attempts r) with
     | Some (Return a) => result r = Return a
     | Some (Raise e) =>
         if is_Exception e
         then length (attempts r) = max_attempt_number
              /\ result r = Raise (RetryError e)
         else result r = Raise e
     | None => False
     end.

(** What such a run does in the world: every attempt is a run of [fn],
    the first one from the world of the call and each later one from the
    world the failed attempt before it left, once [seconds] were slept;
    the world of the last attempt is the world of the call's end. *)
Inductive retry_steps {A} (fn : M A) (seconds : Z)
  : world -> list (outcome A) -> world -> Prop :=
  | retry_steps_last (w w1 : world) (o : outcome A) :
      fn w = (o, w1) ->
      retry_steps fn seconds w [o] w1
  | retry_steps_again (w w1 w' : world) (e : exn) (os : list (outcome A)) :
      fn w = (Raise e, w1) ->
      retry_steps fn seconds (after (EvSleep seconds) w1) os w' ->
      retry_steps fn seconds w (Raise e :: os) w'.

End Tenacity.
Import Tenacity.

(* ===================================================================== *)
(** * extraction.py *)
(* ===================================================================== *)

Module Extraction.
Import DataModels Dal.


Definition page_url (start : Z) : string :=
  "https://shc2.pipedrive.com/api/v1/deals?start=" ++ str_of_Z start
  ++ "&limit=100".

(** [doc["additional_data"]["summary"]["total_count"]] *)
Definition summary_total_count (doc : pyval) : outcome pyval :=
  additional_data ← subscript doc "additional_data";
  summary ← subscript additional_data "summary";
  subscript summary "total_count".

Definition get_total_pages (E : env) (base_url : string) : M (list string) :=
  log INFO ("Processing " ++ base_url);;
  '(status_code, body) ← http_get E base_url;
  log INFO ("URL: " ++ base_url ++ " ==> Response: " ++ str_of_Z status_code);;
  (if negb (status_code =? 200)
   then log ERROR ("Error fetching data: " ++ str_of_Z status_code);;
        raise_for_status status_code
   else mret tt);;
  doc ← json body;
  total_count ← lift (summary_total_count doc);
  total_pages ← lift (quotient ← true_div total_count 100;
                      math_ceil quotient);
  mret ((fun p => page_url (Z.of_nat p * 100)) <$> seq 0 (Z.to_nat total_pages)).

(** [get_person_address] *)
Definition get_person_address (person_data : gmap string pyval) : outcome string :=
  let address_parts :=
    [dict_get_or person_data "2a556bd22d2c0374f609f6fafcca7949cf9b2ba2" (VStr "");
     dict_get_or person_data "c003c48faccbde63860456ee2f1a5a50f25529a5" (VStr "");
     dict_get_or person_data "14d2126d1386f43fdbd18ca803c3faab87315d46" (VStr "");
     dict_get_or person_data "2d762978f235765bbd5fc547c55beb173c0a7101" (VStr "")] in
  joined ← join " " (List.filter truthy address_parts);
  Return (strip joined).

(** The phone comprehension of [fetch_person_data]. *)
Definition phone_values (person_data : gmap string pyval) : outcome (list pyval) :=
  phones ← iter (dict_get_or person_data "phone" (VList []));
  each (fun ph =>
          v ← get ph "value" (VStr "");
          match v with
          | VStr s => Return (VStr (str (delete_all (chars "-") 0 (chars s))))
          | _ => Raise AttributeError
          end)
       (List.filter truthy phones).

(** The email comprehension of [fetch_person_data]. *)
Definition email_values (person_data : gmap string pyval) : outcome (list pyval) :=
  emails ← iter (dict_get_or person_data "email" (VList []));
  each (fun email => get email "value" (VStr "")) emails.

(** The part of [fetch_person_data] after the response: building the
    [PersonInfo]. *)
Definition build_person_info (person_id : pyval) (person_data : pyval)
  : outcome PersonInfo :=
  match person_data with
  | VDict person_data =>
      let benefit_id :=
        or_else (dict_get person_data "ca8fd59fb797a92665b29c4ee38a45524a6ad51b")
                (dict_get person_data "a1a2bdea3ec02b42cc9baa376fd5ac79a750813b") in
      phones ← phone_values person_data;
      phone_number ← join ", " phones;
      emails ← email_values person_data;
      email ← join ", " emails;
      address ← get_person_address person_data;
      benefit_id ← to_ostr benefit_id;
      Return {| pi_id := py_str person_id;
                pi_benefit_id := benefit_id;
                pi_phone_number := Some phone_number;
                pi_email := Some email;
                pi_address := Some address |}
  | _ => Raise AttributeError
  end.

(** The body of [fetch_person_data], one attempt. *)
Definition fetch_person_data_body (E : env) (data : pyval)
  : M (option PersonInfo) :=
  person_id ← lift (get data "person_id" VNone);
  if negb (truthy person_id) then
    deal ← lift (subscript data "id");
    log ERROR ("Person ID missing in deal data " ++ py_str deal);;
    mret None
  else
    person_id ← match person_id with
                | VDict d => mret (dict_get d "value")
                | _ => mret person_id
                end;
    if negb (truthy person_id) then
      deal ← lift (subscript data "id");
      log ERROR ("Invalid person ID format in deal data " ++ py_str deal);;
      mret None
    else
      let person_endpoint :=
        "https://api.pipedrive.com/v1/persons/" ++ py_str person_id in
      log INFO ("Fetching Person Data: " ++ person_endpoint);;
      try_except
        (limiter_wait;;
         '(_, body) ← http_get E person_endpoint;
         doc ← json body;
         person_data ← lift (get doc "data" (VDict ∅));
         if negb (truthy person_data) then
           log ERROR ("Failed to fetch person info for " ++ person_endpoint);;
           mret None
         else
           person_info ← lift (build_person_info person_id person_data);
           mret (Some person_info))
        [(is_ReadTimeout,
          fun e =>
            log WARNING ("ReadTimeout occurred while fetching person data for "
                         ++ py_str person_id ++ ". Retrying...");;
            raise e)].

Definition fetch_person_data (E : env) (data : pyval) : M (option PersonInfo) :=
  retry 3 300 (fetch_person_data_body E data).

(** The part of [fetch_deal_data] after the response: building the
    [DealInfo]. *)
Definition build_deal_info (deal_id : pyval) (deal_data : pyval)
  : outcome DealInfo :=
  stage_number ← get deal_data "stage_order_nr" VNone;
  stage_status ← from_number stage_number;
  person ← get deal_data "person_id" (VDict ∅);
  person_value ← get person "value" VNone;
  status ← get deal_data "status" VNone;
  user ← get deal_data "user_id" (VDict ∅);
  assigned_to ← get user "name" VNone;
  updated_at ← get deal_data "update_time" VNone;
  name ← get person "name" VNone;
  assigned_to ← to_ostr assigned_to;
  updated_at ← to_ostr updated_at;
  name ← to_ostr name;
  Return {| di_id := py_str deal_id;
            di_person_id := py_str person_value;
            di_stage_status := Some stage_status;
            di_status := if eq_str status "won" then "WON"
                         else if eq_str status "lost" then "LOST" else "";
            di_assigned_to := assigned_to;
            di_updated_at := updated_at;
            di_name := name |}.

(** The body of [fetch_deal_data], one attempt. *)
Definition fetch_deal_data_body (E : env) (deal_id : pyval)
  : M (option DealInfo) :=
  let deal_endpoint := "https://api.pipedrive.com/v1/deals/" ++ py_str deal_id in
  log INFO ("Fetching Deal Data: " ++ deal_endpoint);;
  try_except
    (limiter_wait;;
     '(_, body) ← http_get E deal_endpoint;
     doc ← json body;
     deal_data ← lift (get doc "data" (VDict ∅));
     if negb (truthy deal_data) then
       log ERROR ("Failed to fetch deal info for " ++ deal_endpoint);;
       mret None
     else
       deal_info ← lift (build_deal_info deal_id deal_data);
       mret (Some deal_info))
    [(is_ReadTimeout,
      fun e =>
        log WARNING ("ReadTimeout occurred while fetching deal data for "
                     ++ py_str deal_id ++ ". Retrying...");;
        raise e)].

Definition fetch_deal_data (E : env) (deal_id : pyval) : M (option DealInfo) :=
  retry 3 300 (fetch_deal_data_body E deal_id).

(** [stage_status.to_dict() if stage_status else None] *)
Definition stage_status_field (stage_status : option StageStatus) : pyval :=
  match stage_status with
  | Some s => VDict (to_dict s)
  | None => VNone
  end.

(** The [info] dictionary [save_data_to_mongodb] writes to the persons
    collection. *)
Definition person_fields (update_time : pyval) (person_info : PersonInfo)
    (deal_info : DealInfo) : gmap string pyval :=
  <["benefit_id" := of_ostr (pi_benefit_id person_info)]>
  (<["phone_number" := of_ostr (pi_phone_number person_info)]>
  (<["updated_at" := update_time]>
  (<["email" := of_ostr (pi_email person_info)]>
  (<["stage_status" := stage_status_field (di_stage_status deal_info)]>
  (<["won_lost" := VStr (di_status deal_info)]>
  (<["assigned_to" := of_ostr (di_assigned_to deal_info)]>
  (<["name" := of_ostr (di_name deal_info)]>
  (<["address" := of_ostr (pi_address person_info)]> ∅)))))))).

(** The [deal_data] dictionary it writes to the deals collection. *)
Definition deal_fields (person_info : PersonInfo) (deal_info : DealInfo)
  : gmap string pyval :=
  <["person_id" := VStr (pi_id person_info)]>
  (<["stage_status" := stage_status_field (di_stage_status deal_info)]>
  (<["status" := VStr (di_status deal_info)]>
  (<["assigned_to" := of_ostr (di_assigned_to deal_info)]>
  (<["updated_at" := of_ostr (di_updated_at deal_info)]>
  (<["name" := of_ostr (di_name deal_info)]> ∅))))).

Definition save_data_to_mongodb (E : env) (data : pyval)
    (person_info : PersonInfo) : M unit :=
  deal_id ← lift (subscript data "id");
  deal_info ← fetch_deal_data E deal_id;
  match deal_info with
  | Some deal_info =>
      update_time ← lift (get data "update_time" VNone);
      insert_or_update_document E (PERSONS_COLLECTION E)
        {[ "_id" := VStr (pi_id person_info) ]}
        (person_fields update_time person_info deal_info);;
      insert_or_update_document E (DEALS_COLLECTION E)
        {[ "_id" := deal_id ]}
        (deal_fields person_info deal_info)
  | None => mret tt
  end.

(** The documents extraction leaves in the persons collection: written by
    a first upsert under the person's id, or by a later upsert over a
    document extraction wrote before. *)
Inductive written_by_extraction : gmap string pyval -> Prop :=
  | written_new update_time person_info deal_info :
      written_by_extraction
        (upserted None {[ "_id" := VStr (pi_id person_info) ]}
           (person_fields update_time person_info deal_info))
  | written_again doc update_time person_info deal_info :
      written_by_extraction doc ->
      written_by_extraction
        (upserted (Some doc) {[ "_id" := VStr (pi_id person_info) ]}
           (person_fields update_time person_info deal_info)).

(** The body of [get_deals], one attempt.  The single [try] of the source
    is split where [data] gets bound: before the loop the handler's message
    reads an unbound local, inside the loop it reads the current record. *)
Definition get_deals_body (E : env) (deal_url : string) : M unit :=
  response_data ←
    try_except
      (limiter_wait;;
       '(status_code, body) ← http_get E deal_url;
       log INFO ("URL: " ++ deal_url ++ " ==> Response: " ++ str_of_Z status_code);;
       (if negb (status_code =? 200)
        then log ERROR ("Error fetching data: " ++ str_of_Z status_code);;
             raise_for_status status_code
        else mret tt);;
       doc ← json body;
       lift (get doc "data" (VList [])))
      [(is_ReadTimeout, fun _ => raise UnboundLocalError)];
  if negb (truthy response_data) then
    log ERROR ("No data found for " ++ deal_url)
  else
    records ← lift (iter response_data);
    for_each
      (fun data =>
         try_except
           (person_info ← fetch_person_data E data;
            match person_info with
            | Some person_info => save_data_to_mongodb E data person_info
            | None =>
                deal ← lift (get data "id" VNone);
                log WARNING ("Skipping deal " ++ py_str deal
                             ++ " due to missing person info")
            end)
           [(is_ReadTimeout,
             fun e =>
               deal ← lift (get data "id" VNone);
               log WARNING ("ReadTimeout occurred while fetching deals for "
                            ++ py_str deal ++ ". Retrying...");;
               raise e)])
      records.

Definition get_deals (E : env) (deal_url : string) : M unit :=
  retry 3 300 (get_deals_body E deal_url).

(** The two halves of the body of [get_deals], named: the request of the
    page, and the round of the loop for one record. *)
Definition get_deals_request (E : env) (deal_url : string) : M pyval :=
  try_except
    (limiter_wait;;
     '(status_code, body) ← http_get E deal_url;
     log INFO ("URL: " ++ deal_url ++ " ==> Response: " ++ str_of_Z status_code);;
     (if negb (status_code =? 200)
      then log ERROR ("Error fetching data: " ++ str_of_Z status_code);;
           raise_for_status status_code
      else mret tt);;
     doc ← json body;
     lift (get doc "data" (VList [])))
    [(is_ReadTimeout, fun _ => raise UnboundLocalError)].

Definition get_deals_record (E : env) (data : pyval) : M unit :=
  try_except
    (person_info ← fetch_person_data E data;
     match person_info with
     | Some person_info => save_data_to_mongodb E data person_info
     | None =>
         deal ← lift (get data "id" VNone);
         log WARNING ("Skipping deal " ++ py_str deal
                      ++ " due to missing person info")
     end)
    [(is_ReadTimeout,
      fun e =>
        deal ← lift (get data "id" VNone);
        log WARNING ("ReadTimeout occurred while fetching deals for "
                     ++ py_str deal ++ ". Retrying...");;
        raise e)].

(** The two detail endpoints, as the bodies above spell them. *)
Definition person_endpoint (person_id : pyval) : string :=
  "https://api.pipedrive.com/v1/persons/" ++ py_str person_id.

Definition deal_endpoint (deal_id : pyval) : string :=
  "https://api.pipedrive.com/v1/deals/" ++ py_str deal_id.

End Extraction.

(* ===================================================================== *)
(** * mailers.py *)
(* ===================================================================== *)

Module Mailers.

(** A [sheet_data] item: [{"row": i, "phone_number": phone}]. *)
Record sheet_row : Type := {
  row : Z;
  phone_number : string;
}.

Definition extract_description (value : pyval) : pyval :=
  match value with
  | VDict d =>
      match d !! "description" with
      | Some description => description
      | None => value
      end
  | _ => value
  end.

Definition matched (row_data : sheet_row) (doc : gmap string pyval)
  : gmap string pyval :=
  <["row" := VInt (row row_data)]>
  (<["benefit_id" := dict_get_or doc "benefit_id" (VStr "")]>
  (<["stage_status" := extract_description (dict_get_or doc "stage_status" (VStr ""))]>
  (<["won/lost" := extract_description (dict_get_or doc "won_lost" (VStr ""))]>
  (<["assigned_to" := dict_get_or doc "assigned_to" (VStr "")]>
  (<["name" := dict_get_or doc "name" (VStr "")]>
  (<["address" := dict_get_or doc "address" (VStr "")]>
  (<["email" := dict_get_or doc "email" (VStr "")]> ∅))))))).

Definition unmatched (row_data : sheet_row) : gmap string pyval :=
  <["row" := VInt (row row_data)]>
  (<["benefit_id" := VStr "N/A"]>
  (<["stage_status" := VStr "N/A"]>
  (<["won/lost" := VStr "N/A"]>
  (<["assigned_to" := VStr "N/A"]>
  (<["name" := VStr "N/A"]>
  (<["address" := VStr "N/A"]>
  (<["email" := VStr "N/A"]> ∅))))))).

(** One iteration of the loop of [search_data]: [match] is
    [phone_data.get(phone)], tested for truth. *)
Definition search_row (phone_data : gmap string (gmap string pyval))
    (row_data : sheet_row) : gmap string pyval :=
  match phone_data !! phone_number row_data with
  | Some doc => if truthy (VDict doc) then matched row_data doc
                else unmatched row_data
  | None => unmatched row_data
  end.

Definition search_data (sheet_data : list sheet_row)
    (phone_data : gmap string (gmap string pyval))
  : list (gmap string pyval) :=
  search_row phone_data <$> sheet_data.

(** [doc.get("phone_number", "").split(", ")]: only a [str] has the
    method. *)
Definition phone_numbers (doc : gmap string pyval) : outcome (list string) :=
  match dict_get_or doc "phone_number" (VStr "") with
  | VStr s => Return (split ", " s)
  | _ => Raise AttributeError
  end.

(** The inner loop of [load_mongodb_data], for one phone of [doc]. *)
Definition load_phone (doc : gmap string pyval)
    (phone_dict : gmap string (gmap string pyval)) (phone : string)
  : M (gmap string (gmap string pyval)) :=
  cleaned_phone ← lift (Cleaning.clean_phone (VStr phone));
  match cleaned_phone with
  | Some k =>
      if truthy_ostr cleaned_phone then
        let phone_dict := <[k := doc]> phone_dict in
        log INFO ("Loaded data for phone: " ++ k);;
        mret phone_dict
      else
        log WARNING ("Invalid phone number in document: " ++ phone);;
        mret phone_dict
  | None =>
      log WARNING ("Invalid phone number in document: " ++ phone);;
      mret phone_dict
  end.

(** The outer loop, for one document. *)
Definition load_document (phone_dict : gmap string (gmap string pyval))
    (doc : gmap string pyval) : M (gmap string (gmap string pyval)) :=
  phones ← lift (phone_numbers doc);
  fold_each (load_phone doc) phones phone_dict.

(** [load_mongodb_data], over the documents [collection.find()] gives. *)
Definition load_mongodb_data (PERSONS_COLLECTION : string)
    (find : list (gmap string pyval)) : M (gmap string (gmap string pyval)) :=
  emit (EvFind PERSONS_COLLECTION);;
  phone_dict ← fold_each load_document find ∅;
  log INFO ("Total loaded phone records: "
            ++ str_of_Z (Z.of_nat (size phone_dict)));;
  mret phone_dict.

(** The keys a document is filed under, in the order of its phones. *)
Definition phone_key (phone : string) : option string :=
  match Cleaning.clean_phone (VStr phone) with
  | Return (Some k) => if truthy_ostr (Some k) then Some k else None
  | _ => None
  end.

Definition phone_keys (doc : gmap string pyval) : list string :=
  match phone_numbers doc with
  | Return phones => omap phone_key phones
  | Raise _ => []
  end.

(** The loops without the log: what a phone of [doc], a document, the
    documents in order do to the index. *)
Definition file_phone (doc : gmap string pyval)
    (phone_dict : gmap string (gmap string pyval)) (phone : string)
  : gmap string (gmap string pyval) :=
  match phone_key phone with
  | Some k => <[k := doc]> phone_dict
  | None => phone_dict
  end.

Definition file_document (phone_dict : gmap string (gmap string pyval))
    (doc : gmap string pyval) : gmap string (gmap string pyval) :=
  match phone_numbers doc with
  | Return phones => foldl (file_phone doc) phone_dict phones
  | Raise _ => phone_dict
  end.

Definition index_of (docs : list (gmap string pyval))
    (phone_dict : gmap string (gmap string pyval))
  : gmap string (gmap string pyval) :=
  foldl file_document phone_dict docs.

End Mailers.

(* ===================================================================== *)
(** * purls.py *)
(* ===================================================================== *)

Module Purls.

(** A [sheet_data] item: [{"row": i, "benefit_id": benefit_id}]. *)
Record sheet_row : Type := {
  row : Z;
  benefit_id : string;
}.

Definition extract_description (value : pyval) : pyval :=
  match value with
  | VDict d =>
      match d !! "description" with
      | Some description => description
      | None => value
      end
  | _ => value
  end.

Definition matched (row_data : sheet_row) (doc : gmap string pyval)
  : gmap string pyval :=
  <["row" := VInt (row row_data)]>
  (<["phone_number" := dict_get_or doc "phone_number" (VStr "")]>
  (<["email" := dict_get_or doc "email" (VStr "")]>
  (<["stage_status" := extract_description (dict_get_or doc "stage_status" (VStr ""))]>
  (<["won/lost" := extract_description (dict_get_or doc "won/lost" (VStr ""))]>
  (<["assigned_to" := dict_get_or doc "assigned_to" (VStr "")]>
  (<["name" := dict_get_or doc "name" (VStr "")]>
  (<["address" := dict_get_or doc "address" (VStr "")]> ∅))))))).

Definition unmatched (row_data : sheet_row) : gmap string pyval :=
  <["row" := VInt (row row_data)]>
  (<["phone_number" := VStr "N/A"]>
  (<["email" := VStr "N/A"]>
  (<["stage_status" := VStr "N/A"]>
  (<["won/lost" := VStr "N/A"]>
  (<["assigned_to" := VStr "N/A"]>
  (<["name" := VStr "N/A"]>
  (<["address" := VStr "N/A"]> ∅))))))).

Definition search_row (benefit_data : gmap string (gmap string pyval))
    (row_data : sheet_row) : gmap string pyval :=
  match benefit_data !! benefit_id row_data with
  | Some doc => if truthy (VDict doc) then matched row_data doc
                else unmatched row_data
  | None => unmatched row_data
  end.

Definition search_data (sheet_data : list sheet_row)
    (benefit_data : gmap string (gmap string pyval))
  : list (gmap string pyval) :=
  search_row benefit_data <$> sheet_data.

(** The row of cells [update_sheet_with_results] writes for one result:
    the timestamp, then the fields, each through [str] ([None] becomes
    the empty string). *)
Definition cell (value : pyval) : string :=
  match value with
  | VNone => ""
  | _ => py_str value
  end.

Definition output_values (dt_string : string) (result : gmap string pyval)
  : list string :=
  [dt_string;
   cell (dict_get result "phone_number");
   cell (dict_get result "stage_status");
   cell (dict_get result "won/lost");
   cell (dict_get result "assigned_to");
   cell (dict_get result "name");
   cell (dict_get result "address");
   cell (dict_get result "email")].

End Purls.

(* ===================================================================== *)
(** * datetime *)
(* ===================================================================== *)

Module Datetime.

(** A naive [datetime] at whole seconds. *)
Record datetime : Type := {
  year : Z; month : Z; day : Z; hour : Z; minute : Z; second : Z;
}.

Definition fields (d : datetime) : list Z :=
  [year d; month d; day d; hour d; minute d; second d].

Fixpoint lex_compare (a b : list Z) : comparison :=
  match a, b with
  | [], [] => Eq
  | [], _ :: _ => Lt
  | _ :: _, [] => Gt
  | x :: a', y :: b' =>
      match x ?= y with
      | Eq => lex_compare a' b'
      | c => c
      end
  end.

(** [a > b] on datetimes: field by field, most significant first. *)
Definition gt (a b : datetime) : bool :=
  match lex_compare (fields a) (fields b) with
  | Gt => true
  | _ => false
  end.

(** The timestamps exactly in the format: the canonical spelling
    [YYYY-MM-DD HH:MM:SS] (19 characters, every field zero-padded, a date
    of the calendar), with the datetime each one names.  This is no model
    of [datetime.strptime], which accepts more (see [strptime] below): it
    says what "exactly in the format" means, and serves on timestamps
    spelled that way. *)
Definition digit (c : ascii) : option Z :=
  if is_digit c then Some (Z.of_nat (nat_of_ascii c) - 48) else None.

Fixpoint number (acc : Z) (l : list ascii) : option Z :=
  match l with
  | [] => Some acc
  | c :: l' => d ← digit c; number (10 * acc + d) l'
  end.

Definition in_range (lo hi : Z) (x : Z) : option Z :=
  if (lo <=? x) && (x <=? hi) then Some x else None.

Definition is_leap (y : Z) : bool :=
  ((y mod 4 =? 0) && negb (y mod 100 =? 0)) || (y mod 400 =? 0).

Definition days_in_month (y m : Z) : Z :=
  if m =? 2 then (if is_leap y then 29 else 28)
  else if (m =? 4) || (m =? 6) || (m =? 9) || (m =? 11) then 30
  else 31.

Definition strptime_canonical (s format : string) : outcome datetime :=
  let parsed :=
    if negb (String.eqb format "%Y-%m-%d %H:%M:%S") then None else
    match chars s with
    | [y1; y2; y3; y4; d1; m1; m2; d2; a1; a2; sp; h1; h2; c1; n1; n2; c2; s1; s2] =>
        if negb (forallb (fun p => Ascii.eqb (fst p) (snd p))
                   [(d1, "-"%char); (d2, "-"%char); (sp, " "%char);
                    (c1, ":"%char); (c2, ":"%char)])
        then None else
        y ← number 0 [y1; y2; y3; y4] ≫= in_range 1 9999;
        m ← number 0 [m1; m2] ≫= in_range 1 12;
        d ← number 0 [a1; a2] ≫= in_range 1 (days_in_month y m);
        h ← number 0 [h1; h2] ≫= in_range 0 23;
        mi ← number 0 [n1; n2] ≫= in_range 0 59;
        se ← number 0 [s1; s2] ≫= in_range 0 59;
        Some {| year := y; month := m; day := d;
                hour := h; minute := mi; second := se |}
    | _ => None
    end in
  match parsed with
  | Some d => Return d
  | None => Raise ValueError
  end.

(** [datetime.strptime(data_string, "%Y-%m-%d %H:%M:%S")], as the library
    parses: the format is turned into the pattern
    [(\d\d\d\d)-(1[0-2]|0[1-9]|[1-9])-(3[0-1]|[1-2]\d|0[1-9]|[1-9]| [1-9])\s+(2[0-3]|[0-1]\d|\d):([0-5]\d|\d):(6[0-1]|[0-5]\d|\d)],
    which must match the whole string, and the fields found must make a
    date of the calendar and a second below 60; anything else is a
    [ValueError].  So fields need not be padded and the blank may be any
    run of white space.

    A field is read as the pattern reads it: its two-character
    alternatives first, its one-character alternative otherwise.  (Where
    a two-character alternative matches, the one-character one cannot
    lead to a match: what follows a field, a separator or the end, would
    have to start at the second digit.) *)
Definition field (two : Z -> Z -> bool) (one : Z -> bool) (l : list ascii)
  : option (Z * list ascii) :=
  let single :=
    match l with
    | c :: rest =>
        match digit c with
        | Some a => if one a then Some (a, rest) else None
        | None => None
        end
    | [] => None
    end in
  match l with
  | c1 :: c2 :: rest =>
      match digit c1, digit c2 with
      | Some a, Some b => if two a b then Some (10 * a + b, rest) else single
      | _, _ => single
      end
  | _ => single
  end.

(** [1[0-2]|0[1-9]|[1-9]] *)
Definition month_field : list ascii -> option (Z * list ascii) :=
  field (fun a b => (a =? 1) && (b <=? 2) || (a =? 0) && (1 <=? b))
        (fun a => 1 <=? a).

(** [3[0-1]|[1-2]\d|0[1-9]|[1-9]| [1-9]] *)
Definition day_field (l : list ascii) : option (Z * list ascii) :=
  let digits :=
    field (fun a b => (a =? 3) && (b <=? 1) || (1 <=? a) && (a <=? 2)
                      || (a =? 0) && (1 <=? b))
          (fun a => 1 <=? a) l in
  match l with
  | blank :: c :: rest =>
      if Ascii.eqb blank " " then
        match digit c with
        | Some a => if 1 <=? a then Some (a, rest) else None
        | None => None
        end
      else digits
  | _ => digits
  end.

(** [2[0-3]|[0-1]\d|\d] *)
Definition hour_field : list ascii -> option (Z * list ascii) :=
  field (fun a b => (a =? 2) && (b <=? 3) || (a <=? 1)) (fun _ => true).

(** [[0-5]\d|\d] *)
Definition minute_field : list ascii -> option (Z * list ascii) :=
  field (fun a _ => a <=? 5) (fun _ => true).

(** [6[0-1]|[0-5]\d|\d] *)
Definition second_field : list ascii -> option (Z * list ascii) :=
  field (fun a b => (a =? 6) && (b <=? 1) || (a <=? 5)) (fun _ => true).

(** A separator, and [\s+]. *)
Definition literal (c : ascii) (l : list ascii) : option (list ascii) :=
  match l with
  | c' :: rest => if Ascii.eqb c c' then Some rest else None
  | [] => None
  end.

Definition white_space (l : list ascii) : option (list ascii) :=
  match l with
  | c :: rest => if is_space c then Some (lstrip_chars rest) else None
  | [] => None
  end.

Definition strptime (data_string format : string) : outcome datetime :=
  let parsed :=
    if negb (String.eqb format "%Y-%m-%d %H:%M:%S") then None else
    match chars data_string with
    | y1 :: y2 :: y3 :: y4 :: l =>
        y ← number 0 [y1; y2; y3; y4];
        l ← literal "-" l;
        '(m, l) ← month_field l;
        l ← literal "-" l;
        '(d, l) ← day_field l;
        l ← white_space l;
        '(h, l) ← hour_field l;
        l ← literal ":" l;
        '(mi, l) ← minute_field l;
        l ← literal ":" l;
        '(se, l) ← second_field l;
        match l with
        | [] =>
            y ← in_range 1 9999 y;
            d ← in_range 1 (days_in_month y m) d;
            se ← in_range 0 59 se;
            Some {| year := y; month := m; day := d;
                    hour := h; minute := mi; second := se |}
        | _ :: _ => None
        end
    | _ => None
    end in
  match parsed with
  | Some d => Return d
  | None => Raise ValueError
  end.

End Datetime.
Import Datetime.

(* ===================================================================== *)
(** * digisheet.py *)
(* ===================================================================== *)

Module Digisheet.
Import Cleaning.

(** What the script finds outside: the persons collection, the
    spreadsheet, the clock, and the names taken from the configuration. *)
Record sheet_env : Type := {
  find : list (gmap string pyval);        (* [collection.find()] *)
  sheet_id : option string;               (* the id [get_sheet_id] finds *)
  value_ranges : list (list (list string)); (* one grid per range read *)
  dt_string : string;                     (* [now.strftime(...)] *)
  PERSONS_COLLECTION : string;
  DIGISHEET_WORKSHEET_NAME : string;
}.

(** An index entry: [{"data": doc, "updated_at": updated_at}]. *)
Record entry : Type := {
  data : gmap string pyval;
  updated_at : datetime;
}.

(** A [sheet_data] item: [{"row": i, "email": email, "phone_number": phone}]. *)
Record sheet_row : Type := {
  row : Z;
  email : option string;
  phone_number : option string;
}.


Definition phone_key (doc : gmap string pyval) : option string :=
  match clean_phone (dict_get doc "phone_number") with
  | Return k => k
  | Raise _ => None
  end.


Section WithStrptime.

(** [datetime.strptime(s, format)]: the library's parser; a string the
    format rejects raises [ValueError]. *)
Variable strptime : string -> string -> outcome datetime.

(** [datetime.strptime(doc.get("updated_at", ""), "%Y-%m-%d %H:%M:%S")];
    an argument that is not a [str] raises [TypeError]. *)
Definition parse_updated_at (doc : gmap string pyval) : outcome datetime :=
  match dict_get_or doc "updated_at" (VStr "") with
  | VStr s => strptime s "%Y-%m-%d %H:%M:%S"
  | _ => Raise TypeError
  end.

(** [if key: if key not in index or updated_at > index[key]["updated_at"]:
         index[key] = {"data": doc, "updated_at": updated_at}] *)
Definition keep_latest (key : option string) (doc : gmap string pyval)
    (updated_at_ : datetime) (index : gmap string entry) : gmap string entry :=
  match key with
  | Some k =>
      if truthy_ostr key then
        match index !! k with
        | None => <[k := {| data := doc; updated_at := updated_at_ |}]> index
        | Some old =>
            if gt updated_at_ (updated_at old)
            then <[k := {| data := doc; updated_at := updated_at_ |}]> index
            else index
        end
      else index
  | None => index
  end.

(** The body of the loop of [load_mongodb_data]. *)
Definition load_document (dicts : gmap string entry * gmap string entry)
    (doc : gmap string pyval)
  : outcome (gmap string entry * gmap string entry) :=
  email ← clean_email (dict_get doc "email");
  phone ← clean_phone (dict_get doc "phone_number");
  updated_at_ ← parse_updated_at doc;
  Return (keep_latest email doc updated_at_ dicts.1,
          keep_latest phone doc updated_at_ dicts.2).

Fixpoint load_documents (docs : list (gmap string pyval))
    (dicts : gmap string entry * gmap string entry)
  : outcome (gmap string entry * gmap string entry) :=
  match docs with
  | [] => Return dicts
  | doc :: docs' =>
      dicts' ← load_document dicts doc;
      load_documents docs' dicts'
  end.

(** The loop seen from one index: what the documents, taken in order, do
    to the index filled under the key [key]. *)
Definition index_step (key : gmap string pyval -> option string)
    (index : gmap string entry) (doc : gmap string pyval) : gmap string entry :=
  match parse_updated_at doc with
  | Return updated_at_ => keep_latest (key doc) doc updated_at_ index
  | Raise _ => index
  end.

Fixpoint index_of (key : gmap string pyval -> option string)
    (docs : list (gmap string pyval)) (index : gmap string entry)
  : gmap string entry :=
  match docs with
  | [] => index
  | doc :: docs' => index_of key docs' (index_step key index doc)
  end.

Definition load_mongodb_data (S : sheet_env)
  : M (gmap string entry * gmap string entry) :=
  emit (EvFind (PERSONS_COLLECTION S));;
  dicts ← lift (load_documents (find S) (∅, ∅));
  log INFO "Loaded email records and phone records from MongoDB";;
  mret dicts.

Definition extract_description (value : pyval) : pyval :=
  match value with
  | VDict d => dict_get_or d "description" (VStr (py_str value))
  | VNone => VStr ""
  | _ => VStr (py_str value)
  end.

Definition matched (row_data : sheet_row) (doc : gmap string pyval)
  : gmap string pyval :=
  <["row" := VInt (row row_data)]>
  (<["stage_status" := extract_description (dict_get_or doc "stage_status" (VStr ""))]>
  (<["won/lost" := extract_description (dict_get_or doc "won_lost" (VStr ""))]>
  (<["assigned_to" := extract_description (dict_get_or doc "assigned_to" (VStr ""))]> ∅))).

Definition unmatched (row_data : sheet_row) : gmap string pyval :=
  <["row" := VInt (row row_data)]>
  (<["stage_status" := VStr "N/A"]>
  (<["won/lost" := VStr "N/A"]>
  (<["assigned_to" := VStr "N/A"]> ∅))).

(** [key and key in index], giving the entry found. *)
Definition find_key (key : option string) (index : gmap string entry)
  : option entry :=
  match key with
  | Some k => if truthy_ostr key then index !! k else None
  | None => None
  end.

(** The [match] of one iteration of [search_data]: by email first, by
    phone otherwise. *)
Definition find_match (email_data phone_data : gmap string entry)
    (row_data : sheet_row) : option (gmap string pyval) :=
  match find_key (email row_data) email_data with
  | Some e => Some (data e)
  | None =>
      match find_key (phone_number row_data) phone_data with
      | Some e => Some (data e)
      | None => None
      end
  end.

Definition search_row (email_data phone_data : gmap string entry)
    (row_data : sheet_row) : gmap string pyval :=
  match find_match email_data phone_data row_data with
  | Some doc => if truthy (VDict doc) then matched row_data doc
                else unmatched row_data
  | None => unmatched row_data
  end.

Definition search_data (sheet_data : list sheet_row)
    (email_data phone_data : gmap string entry) : list (gmap string pyval) :=
  search_row email_data phone_data <$> sheet_data.

(** One [batch_data] item of [update_sheet_with_results]. *)
Definition output_row (S : sheet_env) (result : gmap string pyval)
  : string * list string :=
  let row_index := py_str (dict_get result "row") in
  ("'" ++ DIGISHEET_WORKSHEET_NAME S ++ "'!A" ++ row_index ++ ":D" ++ row_index,
   [dt_string S;
    py_str (dict_get result "stage_status");
    py_str (dict_get result "won/lost");
    py_str (dict_get result "assigned_to")]).

Definition update_sheet_with_results (S : sheet_env)
    (results : list (gmap string pyval)) : M unit :=
  log INFO "Updating sheet with results";;
  let batch_data := output_row S <$> results in
  match batch_data with
  | _ :: _ =>
      emit (EvBatchUpdate batch_data);;
      log INFO "Updated rows with new data"
  | [] => log INFO "No updates to perform"
  end.

(** The sheet rows kept by [main]: rows of the two ranges zipped, numbered
    from 2, kept when the email or the phone cleans to something. *)
Fixpoint process_rows (i : Z) (emails phones : list (list string))
  : outcome (list sheet_row) :=
  match emails, phones with
  | email_row :: emails', phone_row :: phones' =>
      email ← match email_row !! 6%nat with
              | Some c => clean_email (VStr c)
              | None => Return None
              end;
      phone ← match phone_row with
              | c :: _ => clean_phone (VStr c)
              | [] => Return None
              end;
      rest ← process_rows (i + 1) emails' phones';
      Return (if truthy_ostr email || truthy_ostr phone
              then {| row := i; email := email; phone_number := phone |} :: rest
              else rest)
  | _, _ => Return []
  end.

Definition main (S : sheet_env) : M unit :=
  log INFO "Starting script execution";;
  _ ← match sheet_id S with
      | Some id => mret id
      | None => raise ValueError
      end;
  '(email_data, phone_data) ← load_mongodb_data S;
  let ranges := ["'" ++ DIGISHEET_WORKSHEET_NAME S ++ "'!A2:G";
                 "'" ++ DIGISHEET_WORKSHEET_NAME S ++ "'!K2:K"] in
  emit (EvBatchGet ranges);;
  sheet_data ← match value_ranges S with
               | emails :: phones :: _ => lift (process_rows 2 emails phones)
               | _ => mret []
               end;
  log INFO "Processed rows from the sheet";;
  update_sheet_with_results S (search_data sheet_data email_data phone_data);;
  log INFO "Script execution completed".

End WithStrptime.

(** The two ranges [main] reads, as it spells them. *)
Definition ranges (S : sheet_env) : list string :=
  ["'" ++ DIGISHEET_WORKSHEET_NAME S ++ "'!A2:G";
   "'" ++ DIGISHEET_WORKSHEET_NAME S ++ "'!K2:K"].

End Digisheet.

(* ===================================================================== *)
(** * Concrete environments and documents, to run the development on *)
(* ===================================================================== *)

Module Examples.


(** A server that answers every request with the same status and body,
    and a store that accepts every write. *)
Definition constant_env (status_code : Z) (body : option pyval) : env :=
  {| env_http := fun _ _ => HResponse status_code body;
     env_db := fun _ => DbResult VNone;
     Effects.PERSONS_COLLECTION := "persons";
     Effects.DEALS_COLLECTION := "deals" |}.

Definition summary_url : string :=
  "https://shc2.pipedrive.com/api/v1/deals?start=0&limit=100&get_summary=1".

(** A store whose every write raises [e]. *)
Definition failing_store_env (e : exn) : env :=
  {| env_http := fun _ _ => HResponse 200 None;
     env_db := fun _ => DbRaise e;
     Effects.PERSONS_COLLECTION := "persons";
     Effects.DEALS_COLLECTION := "deals" |}.

(** A server on which every request times out. *)
Definition timeout_env : env :=
  {| env_http := fun _ _ => HRaise ReadTimeout;
     env_db := fun _ => DbResult VNone;
     Effects.PERSONS_COLLECTION := "persons";
     Effects.DEALS_COLLECTION := "deals" |}.

Definition page_url_0 : string :=
  "https://shc2.pipedrive.com/api/v1/deals?start=0&limit=100".

(** A person and a won deal, as extraction builds them. *)
Definition a_person : DataModels.PersonInfo :=
  {| DataModels.pi_id := "17";
     DataModels.pi_benefit_id := Some "777";
     DataModels.pi_phone_number := Some "5551234567";
     DataModels.pi_email := Some "a@b.com";
     DataModels.pi_address := Some "1 Main St" |}.

Definition a_won_deal : DataModels.DealInfo :=
  {| DataModels.di_id := "42";
     DataModels.di_person_id := "17";
     DataModels.di_stage_status := Some DataModels.PAID;
     DataModels.di_status := "WON";
     DataModels.di_assigned_to := Some "Ann";
     DataModels.di_updated_at := Some "2024-05-01 10:00:00";
     DataModels.di_name := Some "Bob" |}.

(** The document extraction stores for them. *)
Definition a_stored_person : gmap string pyval :=
  upserted None {[ "_id" := VStr "17" ]}
    (Extraction.person_fields (VStr "2024-05-01 10:00:00") a_person a_won_deal).

(** Sheet rows of the three reconciliations. *)
Definition a_mailers_row : Mailers.sheet_row :=
  {| Mailers.row := 2; Mailers.phone_number := "5550000000" |}.

Definition a_purls_row : Purls.sheet_row :=
  {| Purls.row := 2; Purls.benefit_id := "777" |}.

Definition a_digisheet_row : Digisheet.sheet_row :=
  {| Digisheet.row := 2; Digisheet.email := Some "x@y.org";
     Digisheet.phone_number := None |}.

(** Indexes holding the stored person under a phone number, under the
    benefit id of the sheet row, and under another benefit id. *)
Definition a_phone_index : gmap string (gmap string pyval) :=
  {[ "5551234567" := a_stored_person ]}.

Definition a_benefit_index : gmap string (gmap string pyval) :=
  {[ "777" := a_stored_person ]}.

Definition another_benefit_index : gmap string (gmap string pyval) :=
  {[ "778" := a_stored_person ]}.

(** Two stored persons sharing an email and a phone, the second one
    updated later, and a third one with no usable timestamp. *)
Definition an_older_person : gmap string pyval :=
  {[ "_id" := VStr "1"; "email" := VStr "a@b.com";
     "phone_number" := VStr "555-123-4567";
     "updated_at" := VStr "2024-05-01 10:00:00";
     "won_lost" := VStr "LOST" ]}.

Definition a_newer_person : gmap string pyval :=
  {[ "_id" := VStr "2"; "email" := VStr " a@b.com";
     "phone_number" := VStr "(555) 123 4567";
     "updated_at" := VStr "2024-05-02 09:30:00";
     "won_lost" := VStr "WON" ]}.


Definition a_sheet (docs : list (gmap string pyval)) : Digisheet.sheet_env :=
  {| Digisheet.find := docs;
     Digisheet.sheet_id := Some "sheet-1";
     Digisheet.value_ranges := [[["";"";"";"";"";"";"a@b.com"]]; [["5551234567"]]];
     Digisheet.dt_string := "05/03/2024 08:00:00";
     Digisheet.PERSONS_COLLECTION := "persons";
     Digisheet.DIGISHEET_WORKSHEET_NAME := "Digi" |}.


Definition newer_entry : Digisheet.entry :=
  {| Digisheet.data := a_newer_person;
     Digisheet.updated_at := {| year := 2024; month := 5; day := 2;
                                hour := 9; minute := 30; second := 0 |} |}.


(** The run of a page fetch against a server that answers 500. *)
Definition page_fetch_on_500 : retry_run unit :=
  retry_call 3 300
    (Extraction.get_deals_body (constant_env 500 None) page_url_0) world0.

(** A deal whose stage number is none of the enumeration's, with the
    response that carries it, and a record of a page that names no
    person. *)
Definition an_unstaged_deal : gmap string pyval :=
  {[ "stage_order_nr" := VInt 9 ]}.

Definition an_unstaged_deal_doc : pyval :=
  VDict {[ "data" := VDict an_unstaged_deal ]}.

Definition a_personless_record : gmap string pyval :=
  {[ "id" := VInt 42; "person_id" := VNone ]}.

Definition a_personless_page : pyval :=
  VDict {[ "data" := VList [VDict a_personless_record] ]}.

(** A server that answers every request with a won deal in the stage
    PAID, before a store whose every write fails. *)
Definition a_won_deal_doc : pyval :=
  VDict {[ "data" :=
             VDict {[ "stage_order_nr" := VInt 6; "status" := VStr "won";
                      "person_id" := VDict {[ "value" := VInt 17;
                                              "name" := VStr "Bob" ]};
                      "user_id" := VDict {[ "name" := VStr "Ann" ]};
                      "update_time" := VStr "2024-05-01 10:00:00" ]} ]}.

Definition a_deal_record : pyval :=
  VDict {[ "id" := VInt 42; "update_time" := VStr "2024-05-01 10:00:00" ]}.

Definition deals_before_failing_store : env :=
  {| env_http := fun _ _ => HResponse 200 (Some a_won_deal_doc);
     env_db := fun _ => DbRaise PyMongoError;
     Effects.PERSONS_COLLECTION := "persons";
     Effects.DEALS_COLLECTION := "deals" |}.

(** Two stored persons listing the same phone, the second of them with
    the earlier timestamp, and a third one whose phone is no string. *)
Definition a_first_listed_person : gmap string pyval :=
  {[ "_id" := VStr "1"; "phone_number" := VStr "5551234567, 5559876543";
     "updated_at" := VStr "2024-05-02 09:30:00" ]}.

Definition a_last_listed_person : gmap string pyval :=
  {[ "_id" := VStr "2"; "phone_number" := VStr "5551234567";
     "updated_at" := VStr "2024-05-01 10:00:00" ]}.

Definition a_person_with_a_numeric_phone : gmap string pyval :=
  {[ "_id" := VStr "3"; "phone_number" := VInt 5551234567 ]}.

(** A person as the server describes them, with two phones, and what
    [fetch_person_data] makes of it. *)
Definition a_person_with_two_phones : gmap string pyval :=
  {[ "phone" := VList [VDict {[ "value" := VStr "555-123-4567" ]};
                       VDict {[ "value" := VStr "555-987-6543" ]}] ]}.

Definition a_two_phone_info : DataModels.PersonInfo :=
  {| DataModels.pi_id := "17";
     DataModels.pi_benefit_id := None;
     DataModels.pi_phone_number := Some "5551234567, 5559876543";
     DataModels.pi_email := Some "";
     DataModels.pi_address := Some "" |}.

(** The same server before a store on which the task is cancelled during
    a write. *)
Definition deals_before_cancelling_store : env :=
  {| env_http := fun _ _ => HResponse 200 (Some a_won_deal_doc);
     env_db := fun _ => DbRaise CancelledError;
     Effects.PERSONS_COLLECTION := "persons";
     Effects.DEALS_COLLECTION := "deals" |}.

(** A summary without its count. *)
Definition a_summary_without_count : pyval :=
  VDict {[ "additional_data" := VDict {[ "summary" := VDict ∅ ]} ]}.

(** The floats [3.0] and [2.5], with their texts. *)
Definition three : pyval := VFloat (S754_finite false 6755399441055744 (-51)) "3.0".

Definition two_and_a_half : pyval :=
  VFloat (S754_finite false 5629499534213120 (-51)) "2.5".



End Examples.

(* ===================================================================== *)
(* ===================================================================== *)
(** * Properties *)
(* ===================================================================== *)
(* ===================================================================== *)

(* ===================================================================== *)
(** * StageStatus *)
(* ===================================================================== *)

Module DataModelsProps.
Import DataModels.

Lemma value_range (s : StageStatus) : 0 <= value s <= 7.
Proof. destruct s; simpl; lia. Qed.

Lemma value_inj (s s' : StageStatus) : value s = value s' -> s = s'.
Proof. destruct s, s'; simpl; intros H; (reflexivity || discriminate H). Qed.

(** The table of [description] covers every member, so the property never
    raises. *)
Lemma description_defined (s : StageStatus) :
  description_lookup s = Return (description s).
Proof. destruct s; reflexivity. Qed.

Lemma from_number_member (s : StageStatus) :
  from_number (VInt (value s)) = Return s.
Proof. destruct s; reflexivity. Qed.

Lemma from_number_out_of_range (v : pyval) :
  (forall n, as_int v = Some n -> ~ 0 <= n <= 7) ->
  from_number v = Raise ValueError.
Proof.
  intros Hv. unfold from_number, eq_int.
  destruct (as_int v) as [n|] eqn:Hn; [|reflexivity].
  specialize (Hv n eq_refl). cbn.
  repeat match goal with
         | |- context [?a =? ?b] =>
             destruct (Z.eqb_spec a b) as [->|?]; [exfalso; apply Hv; lia|]
         end.
  reflexivity.
Qed.

(** What [from_number] answers is decided by the integer its argument
    compares equal to. *)
Lemma from_number_returns (v : pyval) (s : StageStatus) :
  from_number v = Return s <-> as_int v = Some (value s).
Proof.
  unfold from_number, eq_int. split.
  - destruct (as_int v) as [n|]; [|discriminate].
    destruct (List.find _ members) as [m|] eqn:Hfind; [|discriminate].
    intros [= ->]. apply List.find_some in Hfind as [_ Heq].
    apply Z.eqb_eq in Heq. now rewrite Heq.
  - intros ->. destruct s; reflexivity.
Qed.

Lemma from_number_total (v : pyval) :
  (exists s, from_number v = Return s) \/ from_number v = Raise ValueError.
Proof.
  unfold from_number. destruct (List.find _ members) as [m|]; eauto.
Qed.

(** C2, as stated, fails: [3.0] is no integer and [from_number] does not
    raise on it, since the enumeration looks its argument up by equality
    and [3.0 == 3]; no more does it raise on [True], which equals 1. *)
Lemma from_number_accepts_float_and_bool :
  from_number Examples.three = Return FINANCIAL_SCHED
  /\ from_number (VBool true) = Return TOOK_APP.
Proof. split; reflexivity. Qed.

(** C2, amended. [StageStatus.from_number] is total-or-error on every
    input.  On every integer [n] in 0..7 it yields the one member whose
    value is [n], whose label is the fixed one of the table.  In general
    it yields the member [s] exactly on the inputs that compare equal to
    the value of [s]: that integer, [True] and [False] for 1 and 0, a
    float with that value; on every other input it raises [ValueError],
    and it never does anything else; and the eight labels are the fixed
    ones. *)
Theorem from_number_total_or_error :
  (forall n : Z, 0 <= n <= 7 ->
     exists s, from_number (VInt n) = Return s
               /\ value s = n
               /\ (forall s', value s' = n -> s' = s)
               /\ descriptions !! n = Some (description s))
  /\ (forall (v : pyval) (s : StageStatus),
        from_number v = Return s <-> as_int v = Some (value s))
  /\ (forall v : pyval,
        (forall n, as_int v = Some n -> ~ 0 <= n <= 7) ->
        from_number v = Raise ValueError)
  /\ (forall v : pyval,
        (exists s, from_number v = Return s)
        \/ from_number v = Raise ValueError)
  /\ (fun s => (value s, description s)) <$> members
     = [(0, "Trying to Contact"); (1, "Took App");
        (2, "Rec Docs - Lender Call"); (3, "Financial Sched");
        (4, "Compliance Shed"); (5, "Pending Payment");
        (6, "PAID"); (7, "Sub'd to Processing")].
Proof.
  split; [|split; [exact from_number_returns
                  |split; [exact from_number_out_of_range
                          |split; [exact from_number_total | reflexivity]]]].
  intros n Hn.
  assert (Hs : exists s, value s = n).
  { assert (n = 0 \/ n = 1 \/ n = 2 \/ n = 3 \/ n = 4 \/ n = 5 \/ n = 6 \/ n = 7)
      as Hcases by lia.
    destruct Hcases as [->|[->|[->|[->|[->|[->|[->| ->]]]]]]];
      [exists TRYING_TO_CONTACT | exists TOOK_APP | exists REC_DOCS_LENDER_CALL
      | exists FINANCIAL_SCHED | exists COMPLIANCE_SCHED | exists PENDING_PAYMENT
      | exists PAID | exists SUBMITTED_TO_PROCESSING]; reflexivity. }
  destruct Hs as [s <-]. exists s. split; [apply from_number_member|].
  split; [reflexivity|]. split.
  - intros s' Hs'. now apply value_inj.
  - pose proof (description_defined s) as Hd. unfold description_lookup in Hd.
    destruct (descriptions !! value s); [congruence | discriminate Hd].
Qed.

Lemma from_number_total_or_error_witness :
  (0 <= 6 <= 7
   /\ exists s, from_number (VInt 6) = Return s /\ value s = 6
                /\ description s = "PAID")
  /\ (as_int Examples.three = Some (value FINANCIAL_SCHED)
      /\ from_number Examples.three = Return FINANCIAL_SCHED)
  /\ ((forall n, as_int (VInt 8) = Some n -> ~ 0 <= n <= 7)
      /\ from_number (VInt 8) = Raise ValueError)
  /\ ((forall n, as_int Examples.two_and_a_half = Some n -> ~ 0 <= n <= 7)
      /\ from_number Examples.two_and_a_half = Raise ValueError)
  /\ ((forall n, as_int VNone = Some n -> ~ 0 <= n <= 7)
      /\ from_number VNone = Raise ValueError).
Proof.
  destruct from_number_total_or_error as (Hin & Hiff & Hout & _).
  assert (H6 : 0 <= 6 <= 7) by lia.
  assert (H3 : as_int Examples.three = Some (value FINANCIAL_SCHED))
    by reflexivity.
  assert (H8 : forall n, as_int (VInt 8) = Some n -> ~ 0 <= n <= 7).
  { intros n [= <-]. lia. }
  assert (H25 : forall n, as_int Examples.two_and_a_half = Some n ->
                          ~ 0 <= n <= 7).
  { intros n Hn. vm_compute in Hn. discriminate Hn. }
  assert (HN : forall n, as_int VNone = Some n -> ~ 0 <= n <= 7).
  { intros n [=]. }
  split; [split; [exact H6|] | split; [split|split; [split|split; split]]].
  - destruct (Hin 6 H6) as (s & Hs & Hv & _ & Hd). exists s.
    split; [exact Hs | split; [exact Hv|]].
    rewrite (value_inj s PAID Hv). reflexivity.
  - exact H3.
  - exact (proj2 (Hiff Examples.three FINANCIAL_SCHED) H3).
  - exact H8.
  - exact (Hout (VInt 8) H8).
  - exact H25.
  - exact (Hout Examples.two_and_a_half H25).
  - exact HN.
  - exact (Hout VNone HN).
Defined.

End DataModelsProps.

(* ===================================================================== *)
(** * The cleaners *)
(* ===================================================================== *)

Module CleaningProps.
Import Cleaning.

Lemma chars_str (l : list ascii) : chars (str l) = l.
Proof. apply list_ascii_of_string_of_list_ascii. Qed.

Lemma str_chars (s : string) : str (chars s) = s.
Proof. apply string_of_list_ascii_of_string. Qed.

(** ** The matcher computes membership of a prefix in the language *)

Lemma lang_cat_inv (r1 r2 : regex) (w : list ascii) :
  lang (RCat r1 r2) w ->
  exists u v, w = (u ++ v)%list /\ lang r1 u /\ lang r2 v.
Proof. inversion 1; subst; eauto. Qed.

Lemma lang_alt_inv (r1 r2 : regex) (w : list ascii) :
  lang (RAlt r1 r2) w -> lang r1 w \/ lang r2 w.
Proof. inversion 1; subst; auto. Qed.

Lemma lang_lit_inv (c : ascii) (w : list ascii) : lang (RLit c) w -> w = [c].
Proof. inversion 1; subst; reflexivity. Qed.

Lemma lang_not_inv (c : ascii) (w : list ascii) :
  lang (RNot c) w -> exists a, w = [a] /\ a <> c.
Proof. inversion 1; subst; eauto. Qed.

Lemma nullable_lang (r : regex) : nullable r = true <-> lang r [].
Proof.
  induction r; simpl.
  - split; [discriminate | inversion 1].
  - split; [constructor | reflexivity].
  - split; [discriminate | inversion 1].
  - split; [discriminate | inversion 1].
  - rewrite andb_true_iff, IHr1, IHr2. split.
    + intros [H1 H2]. exact (lang_cat _ _ [] [] H1 H2).
    + intros H. apply lang_cat_inv in H as (u & v & Heq & Hu & Hv).
      symmetry in Heq. apply app_eq_nil in Heq as [-> ->]. now split.
  - rewrite orb_true_iff, IHr1, IHr2. split.
    + intros [H|H]; [now apply lang_alt_l | now apply lang_alt_r].
    + apply lang_alt_inv.
  - split; [constructor | reflexivity].
Qed.

(** A non-empty word of a starred language starts with a non-empty word
    of the language. *)
Lemma lang_star_cons_inv (r : regex) (a : ascii) (w : list ascii) :
  lang (RStar r) (a :: w) ->
  exists u v, w = (u ++ v)%list /\ lang r (a :: u) /\ lang (RStar r) v.
Proof.
  intros H. remember (RStar r) as r' eqn:Hr. remember (a :: w) as w' eqn:Hw.
  revert w Hw.
  induction H as [| | | | | | |r0 u v Hu _ Hv IHv]; intros w Hw;
    try discriminate.
  injection Hr as ->. destruct u as [|b u]; simpl in Hw.
  - apply IHv; [reflexivity | exact Hw].
  - injection Hw as -> <-. eauto.
Qed.

Lemma deriv_lang (a : ascii) (r : regex) (w : list ascii) :
  lang (deriv a r) w <-> lang r (a :: w).
Proof.
  revert w. induction r as [| |c|c|r1 IH1 r2 IH2|r1 IH1 r2 IH2|r IH];
    intros w; simpl.
  - split; inversion 1.
  - split; inversion 1.
  - destruct (Ascii.eqb_spec a c) as [->|Hne].
    + split; inversion 1; subst; constructor.
    + split; inversion 1; subst. congruence.
  - destruct (Ascii.eqb_spec a c) as [->|Hne].
    + split; inversion 1; subst. congruence.
    + split; inversion 1; subst; now constructor.
  - assert (Hcat : lang (RCat (deriv a r1) r2) w ->
                   lang (RCat r1 r2) (a :: w)).
    { intros H. apply lang_cat_inv in H as (u & v & -> & Hu & Hv).
      apply IH1 in Hu. exact (lang_cat _ _ (a :: u) v Hu Hv). }
    assert (Hinv : lang (RCat r1 r2) (a :: w) ->
                   lang (RCat (deriv a r1) r2) w
                   \/ (lang r1 [] /\ lang (deriv a r2) w)).
    { intros H. apply lang_cat_inv in H as (u & v & Heq & Hu & Hv).
      destruct u as [|b u]; simpl in Heq.
      - subst v. right. split; [exact Hu | now apply IH2].
      - injection Heq as <- ->. left.
        apply lang_cat; [now apply IH1 | exact Hv]. }
    destruct (nullable r1) eqn:Hn.
    + split.
      * intros H. apply lang_alt_inv in H as [H|H]; [now apply Hcat|].
        apply (lang_cat _ _ [] (a :: w)); [now apply nullable_lang | now apply IH2].
      * intros H. destruct (Hinv H) as [H1|[_ H2]];
          [now apply lang_alt_l | now apply lang_alt_r].
    + split; [exact Hcat|].
      intros H. destruct (Hinv H) as [H1|[H1 _]]; [exact H1|].
      apply nullable_lang in H1. congruence.
  - split; intros H; apply lang_alt_inv in H as [H|H];
      solve [apply lang_alt_l; now apply IH1 | apply lang_alt_r; now apply IH2].
  - split.
    + intros H. apply lang_cat_inv in H as (u & v & -> & Hu & Hv).
      apply IH in Hu. exact (lang_star_cons _ (a :: u) v Hu Hv).
    + intros H. apply lang_star_cons_inv in H as (u & v & -> & Hu & Hv).
      apply lang_cat; [now apply IH | exact Hv].
Qed.

Lemma re_match_lang (r : regex) (s : list ascii) :
  re_match r s = true <-> exists p q, s = (p ++ q)%list /\ lang r p.
Proof.
  revert r. induction s as [|a s IH]; intros r; simpl.
  - rewrite orb_false_r, nullable_lang. split.
    + intros H. now exists [], [].
    + intros (p & q & Heq & H). symmetry in Heq.
      apply app_eq_nil in Heq as [-> _]. exact H.
  - rewrite orb_true_iff, nullable_lang, IH. split.
    + intros [H|(p & q & -> & H)].
      * now exists [], (a :: s).
      * exists (a :: p), q. split; [reflexivity | now apply deriv_lang].
    + intros (p & q & Heq & H). destruct p as [|b p]; simpl in Heq.
      * now left.
      * injection Heq as -> ->. right. exists p, q.
        split; [reflexivity | now apply deriv_lang].
Qed.

(** ** The language of the email pattern *)

Lemma lang_star_not (c : ascii) (u : list ascii) :
  lang (RStar (RNot c)) u <-> c ∉ u.
Proof.
  split.
  - intros H. remember (RStar (RNot c)) as r eqn:Hr.
    induction H as [| | | | | | |r0 u v Hu _ Hv IHv]; try discriminate.
    + apply not_elem_of_nil.
    + injection Hr as ->. apply lang_not_inv in Hu as (a & -> & Hne). simpl.
      apply not_elem_of_cons. split; [congruence | now apply IHv].
  - induction u as [|a u IH]; intros H.
    + constructor.
    + apply not_elem_of_cons in H as [Hne Hu].
      apply (lang_star_cons _ [a] u); [constructor; congruence | now apply IH].
Qed.

Lemma lang_plus_not (c : ascii) (u : list ascii) :
  lang (RPlus (RNot c)) u <-> u <> [] /\ c ∉ u.
Proof.
  unfold RPlus. split.
  - intros H. apply lang_cat_inv in H as (x & y & -> & Hx & Hy).
    apply lang_not_inv in Hx as (a & -> & Hne). simpl. split; [discriminate|].
    apply not_elem_of_cons. split; [congruence | now apply lang_star_not].
  - intros [Hne H]. destruct u as [|a u]; [congruence|].
    apply not_elem_of_cons in H as [Ha Hu].
    apply (lang_cat _ _ [a] u); [constructor; congruence | now apply lang_star_not].
Qed.

Lemma lang_email_regex (t : list ascii) :
  lang email_regex t <-> local_at_domain_tld t.
Proof.
  unfold email_regex, local_at_domain_tld. split.
  - intros H.
    apply lang_cat_inv in H as (l & r1 & -> & Hl & H).
    apply lang_cat_inv in H as (a & r2 & -> & Ha & H).
    apply lang_cat_inv in H as (d & r3 & -> & Hd & H).
    apply lang_cat_inv in H as (o & e & -> & Ho & He).
    apply lang_lit_inv in Ha as ->. apply lang_lit_inv in Ho as ->.
    apply lang_plus_not in Hl as [? ?], Hd as [? ?], He as [? ?].
    exists l, d, e. simpl. auto 10.
  - intros (l & d & e & -> & ? & ? & ? & ? & ? & ?).
    apply lang_cat; [now apply lang_plus_not|].
    apply (lang_cat _ _ ["@"%char]); [constructor|].
    apply lang_cat; [now apply lang_plus_not|].
    apply (lang_cat _ _ ["."%char]); [constructor|].
    now apply lang_plus_not.
Qed.

(** [email_regex.match(t)] succeeds exactly on the strings that start
    with the shape. *)
Lemma re_match_email (t : list ascii) :
  re_match email_regex t = true <-> starts_with_local_at_domain_tld t.
Proof.
  rewrite re_match_lang. unfold starts_with_local_at_domain_tld.
  split; intros (p & q & Heq & H); exists p, q;
    (split; [exact Heq | now apply lang_email_regex]).
Qed.

(** The shape has exactly one [@]. *)
Lemma local_at_domain_tld_one_at (t : list ascii) :
  local_at_domain_tld t ->
  length (List.filter (Ascii.eqb "@") t) = 1%nat.
Proof.
  assert (Hnone : forall l : list ascii,
             "@"%char ∉ l -> List.filter (Ascii.eqb "@") l = []).
  { induction l as [|a l IH]; intros H; [reflexivity|].
    apply not_elem_of_cons in H as [Hne Hl]. cbn [List.filter].
    destruct (Ascii.eqb_spec "@" a) as [Heq|_]; [now destruct Hne | now apply IH]. }
  intros (l & d & e & -> & _ & _ & _ & Hl & Hd & He).
  rewrite List.filter_app. simpl. rewrite List.filter_app. simpl.
  now rewrite (Hnone l Hl), (Hnone d Hd), (Hnone e He).
Qed.

(** C6, as stated, fails: the pattern is matched at the start of the
    string only, so a string with a second [@] after a well-shaped start
    is returned although it has not the shape with one [@]. *)
Lemma clean_email_accepts_second_at :
  clean_email (VStr "a@b.c@d") = Return (Some (strip "a@b.c@d"))
  /\ ~ local_at_domain_tld (chars (strip "a@b.c@d")).
Proof.
  split; [reflexivity|].
  intros H. apply local_at_domain_tld_one_at in H. discriminate H.
Qed.

(** C6, amended. On every string [clean_email] returns, without raising,
    the trimmed input when the trimmed input starts with the shape
    [local@domain.tld] (whatever follows, further [@] included), and
    [None] otherwise; [" a@b.com "] gives ["a@b.com"] and
    ["not-an-email"] gives [None]. *)
Theorem clean_email_prefix_shape (s : string) :
  (starts_with_local_at_domain_tld (chars (strip s)) ->
   clean_email (VStr s) = Return (Some (strip s)))
  /\ (~ starts_with_local_at_domain_tld (chars (strip s)) ->
      clean_email (VStr s) = Return None)
  /\ (exists r, clean_email (VStr s) = Return r)
  /\ clean_email (VStr " a@b.com ") = Return (Some "a@b.com")
  /\ clean_email (VStr "not-an-email") = Return None.
Proof.
  assert (Hempty : ~ starts_with_local_at_domain_tld (chars (strip ""))).
  { intros H. apply re_match_email in H. discriminate H. }
  unfold clean_email. cbn [truthy]. rewrite negb_involutive.
  destruct (String.eqb_spec s "") as [->|Hs].
  - repeat split; try reflexivity; [intros H; now destruct Hempty | eauto].
  - repeat split; try reflexivity.
    + intros H. apply re_match_email in H. now rewrite H.
    + intros H. destruct (re_match email_regex (chars (strip s))) eqn:Hm;
        [|reflexivity].
      apply re_match_email in Hm. now destruct H.
    + eauto.
Qed.

Lemma clean_email_prefix_shape_witness :
  (starts_with_local_at_domain_tld (chars (strip "a@b.com, c@d.com"))
   /\ clean_email (VStr "a@b.com, c@d.com") = Return (Some "a@b.com, c@d.com"))
  /\ (~ starts_with_local_at_domain_tld (chars (strip "a@b"))
      /\ clean_email (VStr "a@b") = Return None).
Proof.
  assert (H1 : starts_with_local_at_domain_tld (chars (strip "a@b.com, c@d.com"))).
  { apply re_match_email. reflexivity. }
  assert (H2 : ~ starts_with_local_at_domain_tld (chars (strip "a@b"))).
  { intros H. apply re_match_email in H. discriminate H. }
  split; split.
  - exact H1.
  - exact (proj1 (clean_email_prefix_shape "a@b.com, c@d.com") H1).
  - exact H2.
  - exact (proj1 (proj2 (clean_email_prefix_shape "a@b")) H2).
Defined.

(** ** [clean_benefit_id] *)

Lemma clean_benefit_id_examples :
  clean_benefit_id "PURL 12345" = "12345" /\ clean_benefit_id " 999 " = "999".
Proof. split; reflexivity. Qed.

(** Without the prefix the result is the trimmed input. *)
Lemma clean_benefit_id_no_prefix (s : string) :
  startswith (chars "PURL ") (chars (strip s)) = false ->
  clean_benefit_id s = strip s.
Proof. unfold clean_benefit_id. now intros ->. Qed.

(** C7. On the input ["PURL 1 PURL 2"] the code returns ["1 2"]: with
    the prefix present, [replace] deletes every occurrence of ["PURL "],
    not the leading one only, so the remainder ["1 PURL 2"] is not left
    unchanged. *)
Theorem clean_benefit_id_deletes_every_occurrence :
  clean_benefit_id "PURL 1 PURL 2" = "1 2"
  /\ clean_benefit_id "PURL 1 PURL 2" <> "1 PURL 2".
Proof. split; [reflexivity | discriminate]. Qed.

End CleaningProps.

(* ===================================================================== *)
(** * Pagination *)
(* ===================================================================== *)

Module ExtractionProps.
Import Extraction.


Lemma requested_app (w : world) (evs : list event) (r wr : nat) :
  requested {| w_requests := r; w_writes := wr; w_trace := w_trace w ++ evs |}
  = (requested w ++ omap (fun ev => match ev with EvGet url => Some url | _ => None end) evs)%list.
Proof. unfold requested. simpl. apply omap_app. Qed.

(** ** The quotient, rounded to a float, and its ceiling *)






















End ExtractionProps.

(* ===================================================================== *)
(** * Store writes *)
(* ===================================================================== *)

Module DalProps.
Import Dal.

(** C8. [insert_or_update_document] returns normally whatever error the
    write raises: a duplicate-key error leaves a warning in the log, any
    other error an error line, and no exception reaches the caller. *)
Theorem insert_or_update_document_swallows (E : env) (collection : string)
    (filter_dict update_dict : gmap string pyval) (w : world) :
  (forall e, env_db E (w_writes w) = DbRaise e -> is_Exception e = true) ->
  exists w' message,
    insert_or_update_document E collection filter_dict update_dict w
    = (Return tt, w')
    /\ w_trace w'
       = (w_trace w ++ [EvUpdateOne collection filter_dict update_dict;
                        EvLog (logged_level (env_db E (w_writes w))) message])%list.
Proof.
  intros Hexn.
  unfold insert_or_update_document, try_except, mbind, M_bind, update_one, log,
    emit.
  destruct (env_db E (w_writes w)) as [e|upserted_id] eqn:Hdb; simpl.
  - specialize (Hexn e eq_refl).
    destruct e; try discriminate Hexn; simpl;
      (do 2 eexists; split; [reflexivity|]); simpl;
      now rewrite <- app_assoc.
  - destruct (truthy upserted_id); simpl;
      (do 2 eexists; split; [reflexivity|]); simpl;
      now rewrite <- app_assoc.
Qed.

Lemma insert_or_update_document_swallows_witness :
  (forall e, env_db (Examples.failing_store_env DuplicateKeyError)
               (w_writes world0) = DbRaise e -> is_Exception e = true)
  /\ exists w' message,
      insert_or_update_document (Examples.failing_store_env DuplicateKeyError)
        "persons" {[ "_id" := VStr "7" ]} ∅ world0
      = (Return tt, w')
      /\ w_trace w'
         = [EvUpdateOne "persons" {[ "_id" := VStr "7" ]} ∅;
            EvLog WARNING message].
Proof.
  assert (H : forall e, env_db (Examples.failing_store_env DuplicateKeyError)
                          (w_writes world0) = DbRaise e -> is_Exception e = true).
  { intros e [= <-]. reflexivity. }
  split; [exact H|].
  exact (insert_or_update_document_swallows
           (Examples.failing_store_env DuplicateKeyError)
           "persons" {[ "_id" := VStr "7" ]} ∅ world0 H).
Defined.

(** What [except Exception] does not catch passes through: a cancellation
    of the task during the write. *)
Lemma insert_or_update_document_cancelled (E : env) (collection : string)
    (filter_dict update_dict : gmap string pyval) (w : world) :
  env_db E (w_writes w) = DbRaise CancelledError ->
  (insert_or_update_document E collection filter_dict update_dict w).1
  = Raise CancelledError.
Proof.
  intros Hdb.
  unfold insert_or_update_document, try_except, mbind, M_bind, update_one.
  now rewrite Hdb.
Qed.

End DalProps.

(* ===================================================================== *)
(** * Retries *)
(* ===================================================================== *)

Module TenacityProps.
Import Extraction.

Section Policy.

Context {A : Type}.
Variable seconds : Z.

(** A run that stops after its first attempt. *)
Lemma retry_policy_one (n : nat) (o res : outcome A) (w : world) :
  (1 <= n)%nat ->
  match o with
  | Return a => res = Return a
  | Raise e => if is_Exception e
               then n = 1%nat /\ res = Raise (RetryError e)
               else res = Raise e
  end ->
  retry_policy n seconds
    {| result := res; final := w; attempts := [o]; sleeps := [] |}.
Proof.
  intros Hn Hres. unfold retry_policy. cbn.
  split; [lia|]. split; [reflexivity|]. split; [intros i o' Hi; lia|].
  destruct o as [a|e]; [exact Hres|].
  destruct (is_Exception e); [|exact Hres].
  destruct Hres as [-> ->]. now split.
Qed.

(** A failed attempt and a sleep put before a run. *)
Lemma retry_policy_cons (n : nat) (e : exn) (r : retry_run A) :
  is_Exception e = true ->
  retry_policy n seconds r ->
  retry_policy (S n) seconds
    {| result := result r; final := final r;
       attempts := Raise e :: attempts r; sleeps := seconds :: sleeps r |}.
Proof.
  intros He (Hlen & Hsl & Hmid & Hlast). unfold retry_policy. cbn.
  split; [lia|]. split; [|split].
  - rewrite Hsl, Nat.sub_0_r.
    destruct (length (attempts r)) as [|m]; [lia|].
    cbn. now rewrite Nat.sub_0_r.
  - intros [|i] o Hi Ho; cbn in Ho.
    + injection Ho as <-. eauto.
    + apply (Hmid i o); [lia | exact Ho].
  - destruct (attempts r) as [|o' l]; [cbn in Hlen; lia|].
    change (last (Raise e :: o' :: l)) with (last (o' :: l)).
    destruct (last (o' :: l)) as [[a|e']|]; [exact Hlast | | exact Hlast].
    destruct (is_Exception e'); [|exact Hlast].
    destruct Hlast as [<- ->]. now split.
Qed.

Variable max_attempt_number : nat.
Variable fn : M A.

(** The loop from attempt [k] on, with fuel for the attempts left. *)
Lemma retrying_policy (fuel : nat) :
  forall (k : nat) (w : world),
    (1 <= k <= max_attempt_number)%nat ->
    (max_attempt_number <= fuel + k)%nat ->
    retry_policy (max_attempt_number - k + 1) seconds
      (retrying fuel (stop_after_attempt max_attempt_number)
         (wait_fixed seconds) fn k w).
Proof.
  induction fuel as [|fuel IH]; intros k w Hk Hfuel;
    cbn [retrying]; destruct (fn w) as [[a|e] w1] eqn:Hfn;
    try (apply retry_policy_one; [lia | reflexivity]);
    unfold retry_if_exception_type;
    (destruct (is_Exception e) eqn:He; cbn [negb];
     [|apply retry_policy_one; [lia | now rewrite He]]);
    unfold stop_after_attempt;
    (destruct (Nat.leb_spec max_attempt_number k) as [Hstop|Hgo];
     [apply retry_policy_one; [lia | rewrite He; split; [lia | reflexivity]]|]).
  - lia.
  - cbn [emit]. unfold wait_fixed.
    replace (max_attempt_number - k + 1)%nat
      with (S (max_attempt_number - S k + 1)) by lia.
    apply retry_policy_cons; [exact He|].
    apply IH; lia.
Qed.

(** The decorator keeps its policy whatever the decorated function does. *)
Lemma retry_call_policy (w : world) :
  (1 <= max_attempt_number)%nat ->
  retry_policy max_attempt_number seconds
    (retry_call max_attempt_number seconds fn w).
Proof.
  intros Hmax. unfold retry_call.
  replace max_attempt_number
    with (max_attempt_number - 1 + 1)%nat at 1 by lia.
  apply retrying_policy; lia.
Qed.

End Policy.

(** C1, as stated, fails: a page fetch answered with status 500 raises
    [HTTPStatusError], which is no read timeout, and is attempted three
    times all the same, with the two sleeps; what reaches the caller is
    [RetryError], after the third attempt. *)
Lemma get_deals_retries_http_error :
  get_deals (Examples.constant_env 500 None) Examples.page_url_0 world0
  = (result Examples.page_fetch_on_500, final Examples.page_fetch_on_500)
  /\ attempts Examples.page_fetch_on_500
     = [Raise (HTTPStatusError 500); Raise (HTTPStatusError 500);
        Raise (HTTPStatusError 500)]
  /\ sleeps Examples.page_fetch_on_500 = [300; 300]
  /\ result Examples.page_fetch_on_500 = Raise (RetryError (HTTPStatusError 500))
  /\ requested (final Examples.page_fetch_on_500)
     = [Examples.page_url_0; Examples.page_url_0; Examples.page_url_0]
  /\ slept (final Examples.page_fetch_on_500) = [300; 300].
Proof. vm_compute. repeat split. Qed.

(** The attempts of a run are runs of the body in the world, with the
    sleeps between them. *)
Lemma retrying_steps {A} (fn : M A) (seconds : Z) (stop : nat -> bool)
    (fuel : nat) :
  forall (k : nat) (w : world),
    retry_steps fn seconds w
      (attempts (retrying fuel stop (wait_fixed seconds) fn k w))
      (final (retrying fuel stop (wait_fixed seconds) fn k w)).
Proof.
  induction fuel as [|fuel IH]; intros k w; cbn [retrying];
    destruct (fn w) as [[a|e] w1] eqn:Hfn;
    try (now apply retry_steps_last);
    destruct (negb (retry_if_exception_type e));
    try (now apply retry_steps_last);
    destruct (stop k); try (now apply retry_steps_last).
  cbn [emit attempts final].
  apply (retry_steps_again fn seconds w w1 _ e _ Hfn). apply IH.
Qed.

Lemma retry_call_steps {A} (fn : M A) (n : nat) (seconds : Z) (w : world) :
  retry_steps fn seconds w (attempts (retry_call n seconds fn w))
    (final (retry_call n seconds fn w)).
Proof. apply retrying_steps. Qed.

(** C1, amended. Each of the three decorated calls (page fetch, person
    fetch, deal fetch) makes between one and three attempts and sleeps 300
    seconds between consecutive attempts; an attempt is followed by
    another one whenever it raises an instance of [Exception], read
    timeout or not, and fewer than three attempts were made; the call
    returns the value of an attempt that succeeds, and raises [RetryError]
    once the third attempt has failed.  The attempts and the sleeps are
    those of the execution: each attempt runs the body in the world, the
    next one in the world the failed one left once 300 seconds were
    slept, and the call ends in the world of its last attempt. *)
Theorem retry_policy_of_wrapped_calls (E : env) (deal_url : string)
    (data deal_id : pyval) (w : world) :
  let page := retry_call 3 300 (get_deals_body E deal_url) w in
  let person := retry_call 3 300 (fetch_person_data_body E data) w in
  let deal := retry_call 3 300 (fetch_deal_data_body E deal_id) w in
  (get_deals E deal_url w = (result page, final page)
   /\ retry_policy 3 300 page
   /\ retry_steps (get_deals_body E deal_url) 300 w
        (attempts page) (final page))
  /\ (fetch_person_data E data w = (result person, final person)
      /\ retry_policy 3 300 person
      /\ retry_steps (fetch_person_data_body E data) 300 w
           (attempts person) (final person))
  /\ (fetch_deal_data E deal_id w = (result deal, final deal)
      /\ retry_policy 3 300 deal
      /\ retry_steps (fetch_deal_data_body E deal_id) 300 w
           (attempts deal) (final deal)).
Proof.
  cbv zeta.
  repeat split; try reflexivity; try apply retry_call_steps;
    apply retry_call_policy; lia.
Qed.

(** A read timeout of the page request itself does not reach the
    decorator as such: the handler's message reads the loop variable
    before the loop has bound it. *)
Lemma get_deals_timeout_unbound_local :
  attempts (retry_call 3 300
              (get_deals_body Examples.timeout_env Examples.page_url_0) world0)
  = [Raise UnboundLocalError; Raise UnboundLocalError; Raise UnboundLocalError].
Proof. reflexivity. Qed.

(** Three timeouts of the deal request end in [RetryError]. *)
Lemma fetch_deal_data_timeouts :
  let r := retry_call 3 300
             (fetch_deal_data_body Examples.timeout_env (VInt 42)) world0 in
  attempts r = [Raise ReadTimeout; Raise ReadTimeout; Raise ReadTimeout]
  /\ sleeps r = [300; 300]
  /\ result r = Raise (RetryError ReadTimeout).
Proof. vm_compute. repeat split. Qed.

End TenacityProps.

(* ===================================================================== *)
(** * Reconciliation: misses and the won/lost column *)
(* ===================================================================== *)

Module ReconciliationProps.
Import Extraction.

(** A dictionary with an entry is truthy. *)
Lemma truthy_dict (d : gmap string pyval) (k : string) (v : pyval) :
  d !! k = Some v -> truthy (VDict d) = true.
Proof.
  intros Hk. cbn. destruct (Nat.eqb_spec (size d) 0) as [Hz|]; [|reflexivity].
  apply map_size_empty_iff in Hz. subst d. now rewrite lookup_empty in Hk.
Qed.

(** Read a lookup in a chain of inserts under concrete keys: each key is
    either the one looked up, which gives the value, or not. *)
Ltac na_field H :=
  repeat (rewrite lookup_insert in H;
          destruct (decide _) as [<-|?];
          [first [congruence | now injection H as <-]|]);
  now rewrite lookup_empty in H.

Lemma mailers_unmatched_fields (row_data : Mailers.sheet_row) :
  dom (Mailers.unmatched row_data)
  = list_to_set ["row"; "benefit_id"; "stage_status"; "won/lost";
                 "assigned_to"; "name"; "address"; "email"]
  /\ Mailers.unmatched row_data !! "row" = Some (VInt (Mailers.row row_data))
  /\ forall k v, k <> "row" -> Mailers.unmatched row_data !! k = Some v ->
                 v = VStr "N/A".
Proof.
  split; [|split].
  - unfold Mailers.unmatched. rewrite !dom_insert_L, dom_empty_L. set_solver.
  - reflexivity.
  - intros k v Hk H. unfold Mailers.unmatched in H. na_field H.
Qed.

Lemma purls_unmatched_fields (row_data : Purls.sheet_row) :
  dom (Purls.unmatched row_data)
  = list_to_set ["row"; "phone_number"; "email"; "stage_status"; "won/lost";
                 "assigned_to"; "name"; "address"]
  /\ Purls.unmatched row_data !! "row" = Some (VInt (Purls.row row_data))
  /\ forall k v, k <> "row" -> Purls.unmatched row_data !! k = Some v ->
                 v = VStr "N/A".
Proof.
  split; [|split].
  - unfold Purls.unmatched. rewrite !dom_insert_L, dom_empty_L. set_solver.
  - reflexivity.
  - intros k v Hk H. unfold Purls.unmatched in H. na_field H.
Qed.

Lemma digisheet_unmatched_fields (row_data : Digisheet.sheet_row) :
  dom (Digisheet.unmatched row_data)
  = list_to_set ["row"; "stage_status"; "won/lost"; "assigned_to"]
  /\ Digisheet.unmatched row_data !! "row"
     = Some (VInt (Digisheet.row row_data))
  /\ forall k v, k <> "row" -> Digisheet.unmatched row_data !! k = Some v ->
                 v = VStr "N/A".
Proof.
  split; [|split].
  - unfold Digisheet.unmatched. rewrite !dom_insert_L, dom_empty_L. set_solver.
  - reflexivity.
  - intros k v Hk H. unfold Digisheet.unmatched in H. na_field H.
Qed.

Lemma digisheet_find_key_miss (key : option string)
    (index : gmap string Digisheet.entry) :
  (forall k, key = Some k -> index !! k = None) ->
  Digisheet.find_key key index = None.
Proof.
  intros H. unfold Digisheet.find_key. destruct key as [k|]; [|reflexivity].
  rewrite (H k eq_refl). now destruct (truthy_ostr (Some k)).
Qed.

(** C4. In each of the three reconciliations, a sheet row whose key is in
    no entry of the index gives a result that carries the row's index and
    whose every other field is the string ["N/A"]. *)
Theorem unmatched_rows_are_NA :
  (forall (sheet_data : list Mailers.sheet_row)
          (phone_data : gmap string (gmap string pyval))
          (i : nat) (row_data : Mailers.sheet_row),
      sheet_data !! i = Some row_data ->
      phone_data !! Mailers.phone_number row_data = None ->
      exists r,
        Mailers.search_data sheet_data phone_data !! i = Some r
        /\ dom r = list_to_set ["row"; "benefit_id"; "stage_status"; "won/lost";
                                "assigned_to"; "name"; "address"; "email"]
        /\ r !! "row" = Some (VInt (Mailers.row row_data))
        /\ forall k v, k <> "row" -> r !! k = Some v -> v = VStr "N/A")
  /\ (forall (sheet_data : list Purls.sheet_row)
             (benefit_data : gmap string (gmap string pyval))
             (i : nat) (row_data : Purls.sheet_row),
      sheet_data !! i = Some row_data ->
      benefit_data !! Purls.benefit_id row_data = None ->
      exists r,
        Purls.search_data sheet_data benefit_data !! i = Some r
        /\ dom r = list_to_set ["row"; "phone_number"; "email"; "stage_status";
                                "won/lost"; "assigned_to"; "name"; "address"]
        /\ r !! "row" = Some (VInt (Purls.row row_data))
        /\ forall k v, k <> "row" -> r !! k = Some v -> v = VStr "N/A")
  /\ (forall (sheet_data : list Digisheet.sheet_row)
             (email_data phone_data : gmap string Digisheet.entry)
             (i : nat) (row_data : Digisheet.sheet_row),
      sheet_data !! i = Some row_data ->
      (forall e, Digisheet.email row_data = Some e -> email_data !! e = None) ->
      (forall p, Digisheet.phone_number row_data = Some p ->
                 phone_data !! p = None) ->
      exists r,
        Digisheet.search_data sheet_data email_data phone_data !! i = Some r
        /\ dom r = list_to_set ["row"; "stage_status"; "won/lost"; "assigned_to"]
        /\ r !! "row" = Some (VInt (Digisheet.row row_data))
        /\ forall k v, k <> "row" -> r !! k = Some v -> v = VStr "N/A").
Proof.
  split; [|split].
  - intros sheet_data phone_data i row_data Hi Hmiss.
    exists (Mailers.unmatched row_data). split.
    + unfold Mailers.search_data. rewrite list_lookup_fmap, Hi. cbn.
      unfold Mailers.search_row. now rewrite Hmiss.
    + apply mailers_unmatched_fields.
  - intros sheet_data benefit_data i row_data Hi Hmiss.
    exists (Purls.unmatched row_data). split.
    + unfold Purls.search_data. rewrite list_lookup_fmap, Hi. cbn.
      unfold Purls.search_row. now rewrite Hmiss.
    + apply purls_unmatched_fields.
  - intros sheet_data email_data phone_data i row_data Hi He Hp.
    exists (Digisheet.unmatched row_data). split.
    + unfold Digisheet.search_data. rewrite list_lookup_fmap, Hi. cbn.
      unfold Digisheet.search_row, Digisheet.find_match.
      now rewrite (digisheet_find_key_miss _ _ He),
                  (digisheet_find_key_miss _ _ Hp).
    + apply digisheet_unmatched_fields.
Qed.

Lemma unmatched_rows_are_NA_witness :
  (exists r,
      Mailers.search_data [Examples.a_mailers_row] Examples.a_phone_index
        !! 0%nat = Some r
      /\ r !! "benefit_id" = Some (VStr "N/A"))
  /\ (exists r,
      Purls.search_data [Examples.a_purls_row] Examples.another_benefit_index
        !! 0%nat = Some r
      /\ r !! "phone_number" = Some (VStr "N/A"))
  /\ (exists r,
      Digisheet.search_data [Examples.a_digisheet_row] ∅ ∅ !! 0%nat = Some r
      /\ r !! "stage_status" = Some (VStr "N/A")).
Proof.
  destruct unmatched_rows_are_NA as (Hm & Hp & Hd).
  assert (H1 : Examples.a_phone_index
               !! Mailers.phone_number Examples.a_mailers_row = None)
    by (vm_compute; reflexivity).
  assert (H2 : Examples.another_benefit_index
               !! Purls.benefit_id Examples.a_purls_row = None)
    by (vm_compute; reflexivity).
  split; [|split].
  - destruct (Hm [Examples.a_mailers_row] Examples.a_phone_index
                0%nat Examples.a_mailers_row eq_refl H1)
      as (r & Hr & _ & _ & Hna).
    exists r. split; [exact Hr|].
    injection Hr as <-. vm_compute. reflexivity.
  - destruct (Hp [Examples.a_purls_row] Examples.another_benefit_index
                0%nat Examples.a_purls_row eq_refl H2)
      as (r & Hr & _ & _ & Hna).
    exists r. split; [exact Hr|].
    injection Hr as <-. vm_compute. reflexivity.
  - destruct (Hd [Examples.a_digisheet_row] ∅ ∅ 0%nat Examples.a_digisheet_row
                eq_refl (fun e _ => lookup_empty e) (fun p _ => lookup_empty p))
      as (r & Hr & _ & _ & Hna).
    exists r. split; [exact Hr|].
    injection Hr as <-. vm_compute. reflexivity.
Defined.

(** ** What extraction writes to the persons collection *)

(** A write records its [update_one] first, whatever the store answers. *)
Lemma insert_or_update_document_trace (E : env) (collection : string)
    (filter_dict update_dict : gmap string pyval) (w : world) :
  exists evs,
    w_trace (Dal.insert_or_update_document E collection filter_dict update_dict w).2
    = (w_trace w ++ EvUpdateOne collection filter_dict update_dict :: evs)%list.
Proof.
  unfold Dal.insert_or_update_document, try_except, mbind, M_bind, update_one,
    log, emit.
  destruct (env_db E (w_writes w)) as [e|upserted_id]; simpl.
  - destruct e; simpl; eexists; rewrite <- ?app_assoc; reflexivity.
  - destruct (truthy upserted_id); simpl; eexists; rewrite <- app_assoc;
      reflexivity.
Qed.

(** Once the deal is fetched, [save_data_to_mongodb] writes to the persons
    collection, under the person's id, the fields of [person_fields]: the
    outcome goes under ["won_lost"]. *)
Lemma save_data_to_mongodb_person_write (E : env) (data deal_id : pyval)
    (person_info : DataModels.PersonInfo) (deal_info : DataModels.DealInfo)
    (w w1 : world) :
  subscript data "id" = Return deal_id ->
  fetch_deal_data E deal_id w = (Return (Some deal_info), w1) ->
  exists update_time evs,
    get data "update_time" VNone = Return update_time
    /\ w_trace (save_data_to_mongodb E data person_info w).2
       = (w_trace w1
          ++ EvUpdateOne (Effects.PERSONS_COLLECTION E)
               {[ "_id" := VStr (DataModels.pi_id person_info) ]}
               (person_fields update_time person_info deal_info) :: evs)%list.
Proof.
  intros Hid Hfetch.
  destruct data as [| | | | |d|]; try discriminate Hid.
  exists (default VNone (d !! "update_time")).
  unfold save_data_to_mongodb, mbind, M_bind, lift. rewrite Hid, Hfetch. cbn.
  destruct (insert_or_update_document_trace E (Effects.PERSONS_COLLECTION E)
              {[ "_id" := VStr (DataModels.pi_id person_info) ]}
              (person_fields (default VNone (d !! "update_time"))
                 person_info deal_info) w1) as [evs1 Hevs1].
  destruct (Dal.insert_or_update_document E (Effects.PERSONS_COLLECTION E) _ _ w1)
    as [[[]|e] w2] eqn:Hfirst; cbn in Hevs1.
  - destruct (insert_or_update_document_trace E (Effects.DEALS_COLLECTION E)
                {[ "_id" := deal_id ]} (deal_fields person_info deal_info) w2)
      as [evs2 Hevs2].
    eexists. split; [reflexivity|]. rewrite Hevs2, Hevs1, <- app_assoc.
    reflexivity.
  - eexists. split; [reflexivity|]. exact Hevs1.
Qed.

(** ** The won/lost column of the purls report *)

(** Every document extraction writes has the outcome under ["won_lost"]
    and nothing under ["won/lost"]. *)
Lemma written_by_extraction_keys (doc : gmap string pyval) :
  written_by_extraction doc ->
  doc !! "won/lost" = None
  /\ exists status, doc !! "won_lost" = Some (VStr status).
Proof.
  assert (Hfields : forall update_time person_info deal_info,
             person_fields update_time person_info deal_info !! "won/lost" = None
             /\ person_fields update_time person_info deal_info !! "won_lost"
                = Some (VStr (DataModels.di_status deal_info))).
  { intros. split; reflexivity. }
  induction 1 as [update_time person_info deal_info
                 |doc update_time person_info deal_info _ [IH _]];
    destruct (Hfields update_time person_info deal_info) as [Hno Hyes];
    unfold upserted; cbn [default]; split.
  - apply lookup_union_None. split; [exact Hno | reflexivity].
  - exists (DataModels.di_status deal_info).
    now apply lookup_union_Some_l.
  - apply lookup_union_None. split; [exact Hno | exact IH].
  - exists (DataModels.di_status deal_info).
    now apply lookup_union_Some_l.
Qed.

(** C9. In the purls reconciliation, a sheet row matched by a document
    that extraction wrote gives a result whose won/lost field, and the
    cell written for it, is the empty string: the document holds the
    outcome under ["won_lost"], and [search_data] reads ["won/lost"]. *)
Theorem purls_never_emits_won_lost
    (sheet_data : list Purls.sheet_row)
    (benefit_data : gmap string (gmap string pyval))
    (i : nat) (row_data : Purls.sheet_row) (doc : gmap string pyval)
    (dt_string : string) :
  sheet_data !! i = Some row_data ->
  benefit_data !! Purls.benefit_id row_data = Some doc ->
  written_by_extraction doc ->
  (exists status, doc !! "won_lost" = Some (VStr status))
  /\ Purls.search_data sheet_data benefit_data !! i
     = Some (Purls.matched row_data doc)
  /\ Purls.matched row_data doc !! "won/lost" = Some (VStr "")
  /\ Purls.output_values dt_string (Purls.matched row_data doc) !! 3%nat
     = Some "".
Proof.
  intros Hi Hdoc Hw.
  destruct (written_by_extraction_keys doc Hw) as [Hno [status Hyes]].
  assert (Hwl : Purls.matched row_data doc !! "won/lost" = Some (VStr "")).
  { unfold Purls.matched.
    do 4 (rewrite lookup_insert_ne by discriminate).
    rewrite lookup_insert_eq. unfold dict_get_or. now rewrite Hno. }
  split; [eauto|]. split; [|split].
  - unfold Purls.search_data. rewrite list_lookup_fmap, Hi. cbn.
    unfold Purls.search_row. rewrite Hdoc.
    now rewrite (truthy_dict doc "won_lost" (VStr status) Hyes).
  - exact Hwl.
  - unfold Purls.output_values. cbn [lookup list_lookup].
    unfold dict_get. now rewrite Hwl.
Qed.

Lemma purls_never_emits_won_lost_witness :
  Examples.a_stored_person !! "won_lost" = Some (VStr "WON")
  /\ Purls.search_data [Examples.a_purls_row] Examples.a_benefit_index !! 0%nat
     = Some (Purls.matched Examples.a_purls_row Examples.a_stored_person)
  /\ Purls.matched Examples.a_purls_row Examples.a_stored_person !! "won/lost"
     = Some (VStr "")
  /\ Purls.matched Examples.a_purls_row Examples.a_stored_person !! "phone_number"
     = Some (VStr "5551234567").
Proof.
  assert (H : Examples.a_benefit_index !! Purls.benefit_id Examples.a_purls_row
              = Some Examples.a_stored_person)
    by (vm_compute; reflexivity).
  destruct (purls_never_emits_won_lost [Examples.a_purls_row]
              Examples.a_benefit_index 0%nat
              Examples.a_purls_row Examples.a_stored_person ""
              eq_refl H
              (written_new (VStr "2024-05-01 10:00:00")
                 Examples.a_person Examples.a_won_deal))
    as (_ & Hrun & Hwl & _).
  split; [vm_compute; reflexivity|]. split; [exact Hrun|].
  split; [exact Hwl | vm_compute; reflexivity].
Defined.

End ReconciliationProps.

(* ===================================================================== *)
(** * The order on datetimes *)
(* ===================================================================== *)

Module DatetimeProps.


Lemma lex_compare_antisym (a b : list Z) :
  lex_compare b a = CompOpp (lex_compare a b).
Proof.
  revert b. induction a as [|x a IH]; intros [|y b]; try reflexivity. cbn.
  rewrite (Z.compare_antisym x y).
  destruct (x ?= y); cbn; [apply IH | reflexivity | reflexivity].
Qed.





Lemma lex_compare_Eq (a b : list Z) : lex_compare a b = Eq -> a = b.
Proof.
  revert b. induction a as [|x a IH]; intros [|y b]; cbn; try discriminate;
    [reflexivity|].
  destruct (Z.compare_spec x y) as [->|_|_]; try discriminate.
  intros H. now rewrite (IH b H).
Qed.

(** Two datetimes that differ are ordered, one way or the other. *)
Lemma gt_total (a b : datetime) : a <> b -> gt a b = true \/ gt b a = true.
Proof.
  intros Hne. unfold gt.
  rewrite (lex_compare_antisym (fields a) (fields b)).
  destruct (lex_compare (fields a) (fields b)) eqn:Hc; cbn; auto.
  apply lex_compare_Eq in Hc. destruct a, b. cbn in Hc.
  injection Hc as -> -> -> -> -> ->. now destruct Hne.
Qed.

End DatetimeProps.

(* ===================================================================== *)
(** * digisheet: the index keeps the latest document; a bad timestamp
      aborts the run *)
(* ===================================================================== *)

Module DigisheetProps.
Import Cleaning CleaningProps DatetimeProps Digisheet.

(** ** One step of an index *)




(** ** The keys are never empty *)



Section WithStrptime.

Variable strptime : string -> string -> outcome datetime.

(** ** A whole index *)

Section Index.

Variable key : gmap string pyval -> option string.




End Index.

(** ** The loop of [load_mongodb_data] *)




(** ** A timestamp that does not parse *)



End WithStrptime.

(** ** On concrete documents *)


(** ** The parser of the library *)













End DigisheetProps.

(* ===================================================================== *)
(** * More on the cleaners: what their results look like *)
(* ===================================================================== *)

Module CleaningLaws.
Import Cleaning CleaningProps.

(** ** [strip] *)

Lemma lstrip_chars_idem (l : list ascii) :
  lstrip_chars (lstrip_chars l) = lstrip_chars l.
Proof.
  induction l as [|c l IH]; [reflexivity|]. cbn.
  destruct (is_space c) eqn:Hc; [exact IH|]. cbn. now rewrite Hc.
Qed.

(** What [lstrip] leaves starts with no whitespace. *)
Lemma lstrip_chars_head (l : list ascii) (c : ascii) (m : list ascii) :
  lstrip_chars l = c :: m -> is_space c = false.
Proof.
  induction l as [|a l IH]; [discriminate|]. cbn.
  destruct (is_space a) eqn:Ha; [exact IH|]. now intros [= <- _].
Qed.

(** [lstrip] never removes a last character that is no whitespace. *)
Lemma lstrip_chars_snoc (l : list ascii) (c : ascii) :
  is_space c = false ->
  exists m, lstrip_chars (l ++ [c]) = (m ++ [c])%list.
Proof.
  intros Hc. induction l as [|a l IH]; cbn.
  - rewrite Hc. now exists [].
  - destruct (is_space a); [exact IH|]. now exists (a :: l).
Qed.

Lemma lstrip_chars_fixed (c : ascii) (m : list ascii) :
  is_space c = false -> lstrip_chars (c :: m) = c :: m.
Proof. intros Hc. cbn. now rewrite Hc. Qed.

(** Trimming on the right leaves the left end as it is. *)
Lemma lstrip_rstrip_lstrip (l : list ascii) :
  lstrip_chars (rstrip_chars (lstrip_chars l)) = rstrip_chars (lstrip_chars l).
Proof.
  destruct (lstrip_chars l) as [|c m] eqn:Hl; [reflexivity|].
  pose proof (lstrip_chars_head _ _ _ Hl) as Hc.
  unfold rstrip_chars. cbn [rev].
  destruct (lstrip_chars_snoc (rev m) c Hc) as [x Hx]. rewrite Hx.
  rewrite rev_app_distr. cbn. now rewrite Hc.
Qed.

Lemma strip_idem (s : string) : strip (strip s) = strip s.
Proof.
  unfold strip. rewrite chars_str. f_equal.
  rewrite lstrip_rstrip_lstrip. unfold rstrip_chars.
  now rewrite rev_involutive, lstrip_chars_idem.
Qed.

(** ** [clean_phone] *)

Lemma filter_is_digit_idem (l : list ascii) :
  sub_nondigits (sub_nondigits l) = sub_nondigits l.
Proof.
  unfold sub_nondigits. induction l as [|c l IH]; [reflexivity|]. cbn.
  destruct (is_digit c) eqn:Hc; [|exact IH]. cbn. now rewrite Hc, IH.
Qed.

Lemma str_nonempty (l : list ascii) : l <> [] -> String.eqb (str l) "" = false.
Proof.
  intros Hl. destruct (String.eqb_spec (str l) "") as [He|]; [|reflexivity].
  apply (f_equal chars) in He. rewrite chars_str in He. now destruct Hl.
Qed.

(** X1. On a string of characters below code point 256 (the strings of
    this development, among which the decimal digits are the ASCII digits),
    [clean_phone] never raises.  It answers [None] exactly when the string
    holds fewer than ten digits; otherwise its answer is the digits of the
    string, in order and nothing else, at least ten of them, and cleaning
    that answer again gives it back. *)
Theorem clean_phone_digits (s : string) :
  (exists r, clean_phone (VStr s) = Return r)
  /\ (clean_phone (VStr s) = Return None
      <-> (length (List.filter is_digit (chars s)) < 10)%nat)
  /\ (forall p, clean_phone (VStr s) = Return (Some p) ->
        chars p = List.filter is_digit (chars s)
        /\ Forall (fun c => is_digit c = true) (chars p)
        /\ (10 <= length (chars p))%nat
        /\ clean_phone (VStr p) = Return (Some p)).
Proof.
  unfold clean_phone. cbn [truthy]. rewrite negb_involutive.
  destruct (String.eqb_spec s "") as [->|Hs].
  - split; [eauto|]. split; [cbn; split; [lia | reflexivity] | discriminate].
  - fold (sub_nondigits (chars s)).
    destruct (Nat.leb_spec 10 (length (sub_nondigits (chars s)))) as [Hlen|Hlen].
    + split; [eauto|]. split; [split; [discriminate | lia]|].
      intros p [= <-]. rewrite chars_str.
      split; [reflexivity|]. split; [|split; [exact Hlen|]].
      * unfold sub_nondigits. apply Forall_forall. intros c Hc.
        apply list_elem_of_In, List.filter_In in Hc. tauto.
      * rewrite str_nonempty; [cbn [negb] | intros He; rewrite He in Hlen; cbn in Hlen; lia].
        rewrite filter_is_digit_idem.
        destruct (Nat.leb_spec 10 (length (sub_nondigits (chars s)))); [reflexivity | lia].
    + split; [eauto|]. split; [split; [lia | reflexivity] | discriminate].
Qed.

Lemma clean_phone_digits_witness :
  clean_phone (VStr "(555) 123-4567") = Return (Some "5551234567")
  /\ clean_phone (VStr "5551234567") = Return (Some "5551234567").
Proof.
  assert (H : clean_phone (VStr "(555) 123-4567") = Return (Some "5551234567"))
    by reflexivity.
  split; [exact H|].
  destruct (proj2 (proj2 (clean_phone_digits "(555) 123-4567")) _ H)
    as (_ & _ & _ & Hidem).
  exact Hidem.
Defined.

(** ** [clean_email] *)

(** X2. What [clean_email] answers for a string is trimmed, not empty, and a
    fixed point: cleaning it again gives it back. *)
Theorem clean_email_idempotent (s e : string) :
  clean_email (VStr s) = Return (Some e) ->
  e = strip s
  /\ strip e = e
  /\ e <> ""
  /\ clean_email (VStr e) = Return (Some e).
Proof.
  unfold clean_email. cbn [truthy]. rewrite negb_involutive.
  destruct (String.eqb s ""); [discriminate|].
  destruct (re_match email_regex (chars (strip s))) eqn:Hm; [|discriminate].
  intros [= <-].
  assert (Hne : strip s <> "").
  { intros He. rewrite He in Hm. discriminate Hm. }
  split; [reflexivity|]. split; [apply strip_idem|]. split; [exact Hne|].
  destruct (String.eqb_spec (strip s) "") as [He|_]; [now destruct Hne|].
  now rewrite strip_idem, Hm.
Qed.

Lemma clean_email_idempotent_witness :
  clean_email (VStr "  a@b.com, c@d.com ") = Return (Some "a@b.com, c@d.com")
  /\ clean_email (VStr "a@b.com, c@d.com") = Return (Some "a@b.com, c@d.com").
Proof.
  assert (H : clean_email (VStr "  a@b.com, c@d.com ")
              = Return (Some "a@b.com, c@d.com")) by reflexivity.
  split; [exact H|].
  exact (proj2 (proj2 (proj2 (clean_email_idempotent _ _ H)))).
Defined.

(** ** Arguments that are no strings *)

(** X3. Both cleaners answer [None] for every falsy argument ([None], [0],
    [False], the empty string, list or dictionary) and raise for an
    argument that is truthy and no string: [clean_phone] a [TypeError],
    [clean_email] an [AttributeError]. *)
Theorem cleaners_on_non_strings (v : pyval) :
  (truthy v = false ->
   clean_phone v = Return None /\ clean_email v = Return None)
  /\ (truthy v = true -> (forall s, v <> VStr s) ->
      clean_phone v = Raise TypeError /\ clean_email v = Raise AttributeError).
Proof.
  unfold clean_phone, clean_email. split.
  - intros ->. now split.
  - intros -> Hv. cbn [negb].
    destruct v as [| | |s| | |]; try (now split). now destruct (Hv s).
Qed.

Lemma cleaners_on_non_strings_witness :
  (clean_phone (VList []) = Return None /\ clean_email (VList []) = Return None)
  /\ (clean_phone (VInt 5551234567) = Raise TypeError
      /\ clean_email (VInt 5551234567) = Raise AttributeError).
Proof.
  split.
  - exact (proj1 (cleaners_on_non_strings (VList [])) eq_refl).
  - apply (proj2 (cleaners_on_non_strings (VInt 5551234567)) eq_refl).
    intros s. discriminate.
Defined.

(** ** [clean_benefit_id] *)

Lemma startswith_cons (a b : ascii) (p s : list ascii) :
  startswith (a :: p) (b :: s) = Ascii.eqb a b && startswith p s.
Proof. reflexivity. Qed.

Lemma delete_all_no_P (rest : list ascii) :
  "P"%char ∉ rest -> delete_all (chars "PURL ") 0 rest = rest.
Proof.
  induction rest as [|c rest IH]; intros H; [reflexivity|].
  apply not_elem_of_cons in H as [Hc Hrest].
  cbn [delete_all].
  change (chars "PURL ") with ("P" :: chars "URL ")%char at 1.
  rewrite startswith_cons.
  destruct (Ascii.eqb_spec "P" c) as [He|_]; [now destruct Hc|].
  cbn [andb]. now rewrite (IH Hrest).
Qed.

(** X4. When the trimmed argument is ["PURL "] followed by a remainder without
    a capital [P] (a number, say), the answer is that remainder, as it is;
    when the trimmed argument does not start with ["PURL "], the answer is
    the trimmed argument. *)
Theorem clean_benefit_id_prefix (s : string) :
  (forall rest : list ascii,
      chars (strip s) = (chars "PURL " ++ rest)%list ->
      "P"%char ∉ rest ->
      clean_benefit_id s = str rest)
  /\ (startswith (chars "PURL ") (chars (strip s)) = false ->
      clean_benefit_id s = strip s).
Proof.
  unfold clean_benefit_id. split.
  - intros rest Hs Hrest. rewrite Hs.
    assert (Hsw : startswith (chars "PURL ") (chars "PURL " ++ rest) = true)
      by reflexivity.
    assert (Hdel : delete_all (chars "PURL ") 0 (chars "PURL " ++ rest)
                   = delete_all (chars "PURL ") 0 rest) by reflexivity.
    now rewrite Hsw, Hdel, delete_all_no_P.
  - now intros ->.
Qed.

Lemma clean_benefit_id_prefix_witness :
  clean_benefit_id "  PURL 12-345 x " = "12-345 x"
  /\ clean_benefit_id " 999 " = "999".
Proof.
  split.
  - apply (proj1 (clean_benefit_id_prefix "  PURL 12-345 x ") (chars "12-345 x")).
    + reflexivity.
    + vm_compute. repeat (apply not_elem_of_cons; split; [discriminate|]).
      apply not_elem_of_nil.
  - exact (proj2 (clean_benefit_id_prefix " 999 ") eq_refl).
Defined.

End CleaningLaws.

(* ===================================================================== *)
(** * More on extraction *)
(* ===================================================================== *)

Module ExtractionLaws.
Import DataModels Extraction DataModelsProps.

(** ** The decorator *)

(** Runs of bodies that agree on every world agree. *)
Lemma retrying_ext {A} (fn gn : M A) (stop : nat -> bool) (wait : nat -> Z) :
  (forall w, fn w = gn w) ->
  forall fuel k w, retrying fuel stop wait fn k w = retrying fuel stop wait gn k w.
Proof.
  intros Heq. induction fuel as [|fuel IH]; intros k w; cbn [retrying];
    rewrite (Heq w); destruct (gn w) as [[a|e] w1]; try reflexivity.
  destruct (negb (retry_if_exception_type e)); [reflexivity|].
  destruct (stop k); [reflexivity|]. cbn [emit]. now rewrite IH.
Qed.

(** A body that returns at once is run once. *)
Lemma retry_returns {A} (fn : M A) (n : nat) (seconds : Z) (w w1 : world) (a : A) :
  fn w = (Return a, w1) -> retry n seconds fn w = (Return a, w1).
Proof.
  intros Hfn. unfold retry, retry_call. destruct n; cbn [retrying];
    now rewrite Hfn.
Qed.

(** A body that fails the same way three times in a row: the decorator
    gives up with [RetryError] after the two sleeps. *)
Lemma retry_raises_thrice {A} (fn : M A) (e : exn) (seconds : Z)
    (w w1 w2 w3 : world) :
  is_Exception e = true ->
  fn w = (Raise e, w1) ->
  fn (after (EvSleep seconds) w1) = (Raise e, w2) ->
  fn (after (EvSleep seconds) w2) = (Raise e, w3) ->
  retry_call 3 seconds fn w
  = {| result := Raise (RetryError e); final := w3;
       attempts := [Raise e; Raise e; Raise e];
       sleeps := [seconds; seconds] |}.
Proof.
  intros He H1 H2 H3.
  unfold retry_call, after, emit, retry_if_exception_type, wait_fixed in *.
  cbn in *. unfold retry_if_exception_type.
  rewrite H1, He. cbn. rewrite H2, He. cbn. rewrite H3, He.
  reflexivity.
Qed.

Lemma requested_after_sleep (seconds : Z) (w : world) :
  requested (after (EvSleep seconds) w) = requested w.
Proof.
  unfold requested, after. cbn. rewrite omap_app. cbn. apply app_nil_r.
Qed.

Lemma slept_after_sleep (seconds : Z) (w : world) :
  slept (after (EvSleep seconds) w) = (slept w ++ [seconds])%list.
Proof. unfold slept, after. cbn. now rewrite omap_app. Qed.

(** ** [fetch_deal_data] on a stage number that is no stage *)

(** One attempt on such a deal: the request is made and [from_number]
    raises. *)
Lemma fetch_deal_data_body_unmapped (E : env) (deal_id : pyval) (status : Z)
    (doc : pyval) (deal : gmap string pyval) (w : world) :
  env_http E (w_requests w) (deal_endpoint deal_id)
  = HResponse status (Some doc) ->
  get doc "data" (VDict ∅) = Return (VDict deal) ->
  truthy (VDict deal) = true ->
  (forall n, as_int (dict_get deal "stage_order_nr") = Some n -> ~ 0 <= n <= 7) ->
  exists w1,
    fetch_deal_data_body E deal_id w = (Raise ValueError, w1)
    /\ w_requests w1 = S (w_requests w)
    /\ requested w1
       = (requested w ++ [deal_endpoint deal_id])%list
    /\ slept w1 = slept w.
Proof.
  intros Hhttp Hdata Htruthy Hstage. unfold deal_endpoint in *.
  unfold fetch_deal_data_body, try_except, mbind, M_bind, log, limiter_wait,
    emit, http_get, json, lift. cbn -[truthy String.append].
  rewrite Hhttp. cbn -[truthy String.append]. rewrite Hdata.
  cbn -[truthy String.append]. rewrite Htruthy. cbn -[truthy String.append].
  unfold build_deal_info, mbind, outcome_bind. cbn [get].
  fold (dict_get deal "stage_order_nr").
  rewrite (from_number_out_of_range _ Hstage). cbn -[truthy String.append].
  eexists. split; [reflexivity|]. cbn. split; [reflexivity|].
  unfold requested, slept. cbn. rewrite !omap_app. cbn.
  now rewrite !app_nil_r.
Qed.

(** X5. A deal whose stage number is missing or is none of 0..7 is no
    transient failure, and yet it is fetched three times, 300 seconds
    apart, before the call gives up with [RetryError] around the
    [ValueError]. *)
Theorem fetch_deal_data_unmapped_stage (E : env) (deal_id : pyval) (status : Z)
    (doc : pyval) (deal : gmap string pyval) (w : world) :
  (forall n, env_http E n (deal_endpoint deal_id)
             = HResponse status (Some doc)) ->
  get doc "data" (VDict ∅) = Return (VDict deal) ->
  truthy (VDict deal) = true ->
  (forall n, as_int (dict_get deal "stage_order_nr") = Some n -> ~ 0 <= n <= 7) ->
  exists w',
    fetch_deal_data E deal_id w = (Raise (RetryError ValueError), w')
    /\ requested w'
       = (requested w ++ [deal_endpoint deal_id;
                          deal_endpoint deal_id;
                          deal_endpoint deal_id])%list
    /\ slept w' = (slept w ++ [300; 300])%list.
Proof.
  intros Hhttp Hdata Htruthy Hstage.
  destruct (fetch_deal_data_body_unmapped E deal_id status doc deal w
              (Hhttp _) Hdata Htruthy Hstage) as (w1 & H1 & _ & Hr1 & Hs1).
  destruct (fetch_deal_data_body_unmapped E deal_id status doc deal
              (after (EvSleep 300) w1) (Hhttp _) Hdata Htruthy Hstage)
    as (w2 & H2 & _ & Hr2 & Hs2).
  destruct (fetch_deal_data_body_unmapped E deal_id status doc deal
              (after (EvSleep 300) w2) (Hhttp _) Hdata Htruthy Hstage)
    as (w3 & H3 & _ & Hr3 & Hs3).
  exists w3. unfold fetch_deal_data, retry.
  rewrite (retry_raises_thrice _ ValueError 300 w w1 w2 w3 eq_refl H1 H2 H3).
  cbn [result final]. split; [reflexivity|].
  rewrite requested_after_sleep in Hr2, Hr3.
  rewrite slept_after_sleep in Hs2, Hs3.
  split.
  - rewrite Hr3, Hr2, Hr1, <- !app_assoc. reflexivity.
  - rewrite Hs3, Hs2, Hs1, <- !app_assoc. reflexivity.
Qed.

Lemma fetch_deal_data_unmapped_stage_witness :
  exists w',
    fetch_deal_data (Examples.constant_env 200 (Some Examples.an_unstaged_deal_doc))
      (VInt 42) world0
    = (Raise (RetryError ValueError), w')
    /\ requested w'
       = [deal_endpoint (VInt 42); deal_endpoint (VInt 42);
          deal_endpoint (VInt 42)]
    /\ slept w' = [300; 300].
Proof.
  apply (fetch_deal_data_unmapped_stage
           (Examples.constant_env 200 (Some Examples.an_unstaged_deal_doc))
           (VInt 42) 200 Examples.an_unstaged_deal_doc
           Examples.an_unstaged_deal world0).
  - reflexivity.
  - vm_compute. reflexivity.
  - vm_compute. reflexivity.
  - intros n Hn. assert (n = 9) as -> by (vm_compute in Hn; congruence). lia.
Defined.

(** ** Running the monad *)

Ltac run_M :=
  unfold try_except, mbind, M_bind, mret, M_ret, log, limiter_wait, after,
    emit, http_get, json, lift, raise;
  cbn -[truthy String.append].

Lemma effects_after_log (lvl : level) (message : string) (w : world) :
  effects (after (EvLog lvl message) w) = effects w.
Proof.
  unfold effects, after. cbn. rewrite List.filter_app. cbn. apply app_nil_r.
Qed.

Lemma requested_after_log (lvl : level) (message : string) (w : world) :
  requested (after (EvLog lvl message) w) = requested w.
Proof. unfold requested, after. cbn. rewrite omap_app. cbn. apply app_nil_r. Qed.

(** ** [fetch_person_data] on a record without a person *)

Lemma fetch_person_data_absent (E : env) (d : gmap string pyval)
    (i : pyval) (w : world) :
  d !! "id" = Some i ->
  truthy (dict_get d "person_id") = false ->
  fetch_person_data E (VDict d) w
  = (Return None,
     after (EvLog ERROR ("Person ID missing in deal data " ++ py_str i)) w).
Proof.
  intros Hid Hfalsy. unfold fetch_person_data. apply retry_returns.
  unfold fetch_person_data_body. run_M.
  fold (dict_get d "person_id"). rewrite Hfalsy, Hid. reflexivity.
Qed.

(** X6. A record that has an id but no usable person reference (the field is
    missing, [None], empty, or a wrapper whose [value] is missing or
    falsy) gives [None] at once: one error line in the log, no request, no
    retry. *)
Theorem fetch_person_data_without_person (E : env) (d : gmap string pyval)
    (i : pyval) (w : world) :
  d !! "id" = Some i ->
  (truthy (dict_get d "person_id") = false
   \/ exists wrapper,
       dict_get d "person_id" = VDict wrapper
       /\ truthy (VDict wrapper) = true
       /\ truthy (dict_get wrapper "value") = false) ->
  exists message,
    fetch_person_data E (VDict d) w = (Return None, after (EvLog ERROR message) w).
Proof.
  intros Hid Hperson.
  destruct Hperson as [Hfalsy|(wrapper & Hwrap & Htruthy & Hfalsy)].
  - eexists. exact (fetch_person_data_absent E d i w Hid Hfalsy).
  - eexists. unfold fetch_person_data. apply retry_returns.
    unfold fetch_person_data_body. run_M.
    fold (dict_get d "person_id"). rewrite Hwrap, Htruthy.
    cbn -[truthy String.append]. rewrite Hfalsy, Hid. reflexivity.
Qed.

Lemma fetch_person_data_without_person_witness :
  exists message,
    fetch_person_data Examples.timeout_env
      (VDict {[ "id" := VInt 42; "person_id" := VNone ]}) world0
    = (Return None, after (EvLog ERROR message) world0).
Proof.
  apply (fetch_person_data_without_person Examples.timeout_env
           {[ "id" := VInt 42; "person_id" := VNone ]} (VInt 42) world0).
  - vm_compute. reflexivity.
  - left. vm_compute. reflexivity.
Defined.

(** ** The two spellings of a person reference *)

(** X7. A person reference wrapped as [{"value": id, ...}] and the bare [id]
    are fetched alike: the same requests, the same result, the same log. *)
Theorem fetch_person_data_wrapper (E : env) (d wrapper : gmap string pyval)
    (v : pyval) (w : world) :
  wrapper !! "value" = Some v ->
  truthy v = true ->
  (forall x, v <> VDict x) ->
  fetch_person_data E (VDict (<["person_id" := VDict wrapper]> d)) w
  = fetch_person_data E (VDict (<["person_id" := v]> d)) w.
Proof.
  intros Hvalue Htruthy Hbare.
  unfold fetch_person_data, retry, retry_call.
  rewrite (retrying_ext
             (fetch_person_data_body E (VDict (<["person_id" := VDict wrapper]> d)))
             (fetch_person_data_body E (VDict (<["person_id" := v]> d))));
    [reflexivity|].
  intros w0. unfold fetch_person_data_body. run_M.
  rewrite !lookup_insert_eq. cbn -[truthy String.append].
  rewrite (ReconciliationProps.truthy_dict wrapper "value" v Hvalue).
  unfold dict_get. rewrite Hvalue. cbn -[truthy String.append].
  rewrite Htruthy. cbn -[truthy String.append].
  destruct v as [|b|z|t|l|x|f r];
    [discriminate Htruthy| | | | |now destruct (Hbare x)|];
    cbn -[truthy String.append]; rewrite Htruthy; reflexivity.
Qed.

Lemma fetch_person_data_wrapper_witness :
  fetch_person_data (Examples.constant_env 200 None)
    (VDict (<["person_id" := VDict {[ "value" := VInt 17; "name" := VStr "Bob" ]}]>
              {[ "id" := VInt 42 ]})) world0
  = fetch_person_data (Examples.constant_env 200 None)
      (VDict (<["person_id" := VInt 17]> {[ "id" := VInt 42 ]})) world0.
Proof.
  apply (fetch_person_data_wrapper (Examples.constant_env 200 None)
           {[ "id" := VInt 42 ]} {[ "value" := VInt 17; "name" := VStr "Bob" ]}
           (VInt 17) world0).
  - vm_compute. reflexivity.
  - reflexivity.
  - intros x. discriminate.
Defined.

(** ** A page with nothing to store *)

Lemma effects_app (w : world) (r wr : nat) (evs : list event) :
  effects {| w_requests := r; w_writes := wr; w_trace := w_trace w ++ evs |}
  = (effects w ++ List.filter (fun ev => negb (is_log ev)) evs)%list.
Proof. unfold effects. cbn. apply List.filter_app. Qed.

(** A loop whose every round only writes to the log only writes to the
    log. *)
Lemma for_each_quiet {A} (body : A -> M unit) (P : A -> Prop) (l : list A) :
  (forall x w, P x ->
     exists w', body x w = (Return tt, w') /\ effects w' = effects w) ->
  Forall P l ->
  forall w, exists w', for_each body l w = (Return tt, w') /\ effects w' = effects w.
Proof.
  intros Hbody Hall. induction Hall as [|x l Hx _ IH]; intros w; cbn [for_each].
  - now exists w.
  - destruct (Hbody x w Hx) as (w1 & Hrun & Heff).
    destruct (IH w1) as (w2 & Hrest & Heff2).
    exists w2. unfold mbind, M_bind. rewrite Hrun. split; [exact Hrest|].
    congruence.
Qed.

Lemma get_deals_body_halves (E : env) (deal_url : string) :
  get_deals_body E deal_url
  = (response_data ← get_deals_request E deal_url;
     if negb (truthy response_data) then
       log ERROR ("No data found for " ++ deal_url)
     else
       records ← lift (iter response_data);
       for_each (get_deals_record E) records).
Proof. reflexivity. Qed.

(** The request of a page that answers with a success. *)
Lemma get_deals_request_success (E : env) (deal_url : string) (status : Z)
    (doc v : pyval) (w : world) :
  env_http E (w_requests w) deal_url = HResponse status (Some doc) ->
  is_success status = true ->
  get doc "data" (VList []) = Return v ->
  exists w1,
    get_deals_request E deal_url w = (Return v, w1)
    /\ effects w1 = (effects w ++ [EvLimiterWait; EvGet deal_url])%list.
Proof.
  intros Hhttp Hok Hdata. unfold get_deals_request. run_M. rewrite Hhttp.
  cbn -[truthy String.append].
  destruct (status =? 200); cbn -[truthy String.append];
    unfold raise_for_status; rewrite ?Hok; run_M; rewrite Hdata;
    (eexists; split; [reflexivity|]);
    unfold effects; cbn; rewrite !List.filter_app; cbn;
    now rewrite !app_nil_r, <- app_assoc.
Qed.

(** X8. A page that lists no record (an empty or missing [data]) is no
    failure: the call returns after its one request, with nothing
    written, nothing slept, nothing retried. *)
Theorem get_deals_empty_page (E : env) (deal_url : string) (status : Z)
    (doc v : pyval) (w : world) :
  env_http E (w_requests w) deal_url = HResponse status (Some doc) ->
  is_success status = true ->
  get doc "data" (VList []) = Return v ->
  truthy v = false ->
  exists w',
    get_deals E deal_url w = (Return tt, w')
    /\ effects w' = (effects w ++ [EvLimiterWait; EvGet deal_url])%list.
Proof.
  intros Hhttp Hok Hdata Hfalsy.
  destruct (get_deals_request_success E deal_url status doc v w Hhttp Hok Hdata)
    as (w1 & Hrun & Heff).
  exists (after (EvLog ERROR ("No data found for " ++ deal_url)) w1). split.
  - unfold get_deals. apply retry_returns. rewrite get_deals_body_halves.
    unfold mbind at 1, M_bind. rewrite Hrun, Hfalsy. reflexivity.
  - now rewrite effects_after_log.
Qed.

Lemma get_deals_empty_page_witness :
  exists w',
    get_deals (Examples.constant_env 200 (Some (VDict {[ "data" := VList [] ]})))
      Examples.page_url_0 world0 = (Return tt, w')
    /\ effects w' = [EvLimiterWait; EvGet Examples.page_url_0].
Proof.
  apply (get_deals_empty_page
           (Examples.constant_env 200 (Some (VDict {[ "data" := VList [] ]})))
           Examples.page_url_0 200 (VDict {[ "data" := VList [] ]}) (VList [])
           world0); reflexivity.
Defined.

(** One round of the loop on a record without a person: a line in the
    log, and on to the next record. *)
Lemma get_deals_record_skipped (E : env) (d : gmap string pyval) (w : world) :
  is_Some (d !! "id") ->
  truthy (dict_get d "person_id") = false ->
  exists w', get_deals_record E (VDict d) w = (Return tt, w')
             /\ effects w' = effects w.
Proof.
  intros [i Hid] Hfalsy.
  unfold get_deals_record, try_except. unfold mbind at 1, M_bind.
  rewrite (fetch_person_data_absent E d i w Hid Hfalsy). run_M. eexists. split; [reflexivity|].
  unfold effects. cbn. rewrite !List.filter_app. cbn. now rewrite !app_nil_r.
Qed.

(** X9. Records without a person are skipped, not failed: a page whose
    records all have an id and no person reference is fetched with its one
    request and the call returns, with nothing written and nothing
    retried. *)
Theorem get_deals_skips_records_without_person (E : env) (deal_url : string)
    (status : Z) (doc : pyval) (records : list pyval) (w : world) :
  env_http E (w_requests w) deal_url = HResponse status (Some doc) ->
  is_success status = true ->
  get doc "data" (VList []) = Return (VList records) ->
  Forall (fun data => exists d, data = VDict d /\ is_Some (d !! "id")
                                /\ truthy (dict_get d "person_id") = false)
         records ->
  exists w',
    get_deals E deal_url w = (Return tt, w')
    /\ effects w' = (effects w ++ [EvLimiterWait; EvGet deal_url])%list.
Proof.
  intros Hhttp Hok Hdata Hrecords.
  destruct (get_deals_request_success E deal_url status doc (VList records) w
              Hhttp Hok Hdata) as (w1 & Hrun & Heff).
  destruct records as [|r records].
  - exists (after (EvLog ERROR ("No data found for " ++ deal_url)) w1). split.
    + unfold get_deals. apply retry_returns. rewrite get_deals_body_halves.
      unfold mbind at 1, M_bind. rewrite Hrun. reflexivity.
    + now rewrite effects_after_log.
  - destruct (for_each_quiet (get_deals_record E) _ (r :: records)
                (fun data w0 '(ex_intro _ d (conj Hd (conj Hid Hp))) =>
                   eq_ind_r (fun x => exists w', get_deals_record E x w0
                                                 = (Return tt, w')
                                                 /\ effects w' = effects w0)
                            (get_deals_record_skipped E d w0 Hid Hp) Hd)
                Hrecords w1) as (w2 & Hloop & Heff2).
    exists w2. split; [|congruence].
    unfold get_deals. apply retry_returns. rewrite get_deals_body_halves.
    unfold mbind at 1, M_bind. rewrite Hrun.
    cbn -[for_each String.append]. exact Hloop.
Qed.

Lemma get_deals_skips_records_without_person_witness :
  exists w',
    get_deals (Examples.constant_env 200 (Some Examples.a_personless_page))
      Examples.page_url_0 world0 = (Return tt, w')
    /\ effects w' = [EvLimiterWait; EvGet Examples.page_url_0].
Proof.
  apply (get_deals_skips_records_without_person
           (Examples.constant_env 200 (Some Examples.a_personless_page))
           Examples.page_url_0 200 Examples.a_personless_page
           [VDict Examples.a_personless_record] world0).
  - reflexivity.
  - reflexivity.
  - vm_compute. reflexivity.
  - constructor; [|constructor].
    exists Examples.a_personless_record. split; [reflexivity|].
    split; [exists (VInt 42)|]; vm_compute; reflexivity.
Defined.

(** ** A page request that times out *)

Lemma get_deals_body_timeout (E : env) (deal_url : string) (w : world) :
  env_http E (w_requests w) deal_url = HRaise ReadTimeout ->
  get_deals_body E deal_url w
  = (Raise UnboundLocalError,
     {| w_requests := S (w_requests w); w_writes := w_writes w;
        w_trace := w_trace w ++ [EvLimiterWait; EvGet deal_url] |}).
Proof.
  intros Hhttp. rewrite get_deals_body_halves. unfold get_deals_request.
  run_M. rewrite Hhttp. cbn. now rewrite <- app_assoc.
Qed.

(** X10. A read timeout of the page request never reaches the caller, or the
    log, as a timeout: the handler's message reads the loop variable before
    the loop has bound it, so each attempt ends in [UnboundLocalError]; the
    page is requested three times, 300 seconds apart, no line is logged,
    and the call gives up with [RetryError] around the
    [UnboundLocalError]. *)
Theorem get_deals_page_timeout (E : env) (deal_url : string) (w : world) :
  (forall n, env_http E n deal_url = HRaise ReadTimeout) ->
  exists w',
    get_deals E deal_url w = (Raise (RetryError UnboundLocalError), w')
    /\ w_trace w'
       = (w_trace w ++ [EvLimiterWait; EvGet deal_url; EvSleep 300;
                        EvLimiterWait; EvGet deal_url; EvSleep 300;
                        EvLimiterWait; EvGet deal_url])%list.
Proof.
  intros Hhttp. eexists. unfold get_deals, retry.
  rewrite (retry_raises_thrice _ UnboundLocalError 300 w _ _ _ eq_refl
             (get_deals_body_timeout E deal_url _ (Hhttp _))
             (get_deals_body_timeout E deal_url _ (Hhttp _))
             (get_deals_body_timeout E deal_url _ (Hhttp _))).
  cbn. split; [reflexivity|]. now rewrite <- !app_assoc.
Qed.

Lemma get_deals_page_timeout_witness :
  exists w',
    get_deals Examples.timeout_env Examples.page_url_0 world0
    = (Raise (RetryError UnboundLocalError), w')
    /\ w_trace w'
       = [EvLimiterWait; EvGet Examples.page_url_0; EvSleep 300;
          EvLimiterWait; EvGet Examples.page_url_0; EvSleep 300;
          EvLimiterWait; EvGet Examples.page_url_0].
Proof.
  apply (get_deals_page_timeout Examples.timeout_env Examples.page_url_0 world0).
  reflexivity.
Defined.

(** ** The two writes of [save_data_to_mongodb] *)

Lemma store_writes_app (w : world) (r wr : nat) (evs : list event) :
  store_writes {| w_requests := r; w_writes := wr; w_trace := w_trace w ++ evs |}
  = (store_writes w
     ++ omap (fun ev => match ev with
                        | EvUpdateOne c f u => Some (c, f, u)
                        | _ => None
                        end) evs)%list.
Proof. unfold store_writes. cbn. apply omap_app. Qed.

(** One write against a store that answers, or fails with an instance of
    [Exception]. *)
Lemma insert_or_update_document_run (E : env) (collection : string)
    (filter_dict update_dict : gmap string pyval) (w : world) :
  (forall e, env_db E (w_writes w) = DbRaise e -> is_Exception e = true) ->
  exists w',
    Dal.insert_or_update_document E collection filter_dict update_dict w
    = (Return tt, w')
    /\ store_writes w'
       = (store_writes w ++ [(collection, filter_dict, update_dict)])%list.
Proof.
  intros Hexn. unfold Dal.insert_or_update_document, try_except, update_one,
    mbind, M_bind, log, emit.
  destruct (env_db E (w_writes w)) as [e|upserted_id] eqn:Hdb.
  - specialize (Hexn e eq_refl). cbn -[String.append].
    destruct (is_DuplicateKeyError e); cbn -[String.append];
      [|rewrite Hexn; cbn -[String.append]];
      (eexists; split; [reflexivity|]);
      rewrite <- app_assoc; rewrite store_writes_app; reflexivity.
  - cbn -[String.append truthy]. destruct (truthy upserted_id);
      cbn -[String.append];
      (eexists; split; [reflexivity|]);
      rewrite <- app_assoc; rewrite store_writes_app; reflexivity.
Qed.

(** X11. Once the deal is fetched, [save_data_to_mongodb] makes its two writes,
    to the persons collection under the person's id and then to the deals
    collection under the deal's id, and returns; a store that fails the
    first write, or both, with whatever instance of [Exception], changes
    nothing to that. *)
Theorem save_data_to_mongodb_writes_both (E : env) (data deal_id : pyval)
    (person_info : PersonInfo) (deal_info : DealInfo) (w w1 : world) :
  subscript data "id" = Return deal_id ->
  fetch_deal_data E deal_id w = (Return (Some deal_info), w1) ->
  (forall n e, env_db E n = DbRaise e -> is_Exception e = true) ->
  exists update_time w',
    get data "update_time" VNone = Return update_time
    /\ save_data_to_mongodb E data person_info w = (Return tt, w')
    /\ store_writes w'
       = (store_writes w1
          ++ [(Effects.PERSONS_COLLECTION E,
               {[ "_id" := VStr (pi_id person_info) ]},
               person_fields update_time person_info deal_info);
              (Effects.DEALS_COLLECTION E,
               {[ "_id" := deal_id ]},
               deal_fields person_info deal_info)])%list.
Proof.
  intros Hid Hfetch Hstore.
  destruct data as [| | | | |d|]; try discriminate Hid.
  exists (default VNone (d !! "update_time")).
  destruct (insert_or_update_document_run E (Effects.PERSONS_COLLECTION E)
              {[ "_id" := VStr (pi_id person_info) ]}
              (person_fields (default VNone (d !! "update_time"))
                 person_info deal_info) w1 (Hstore _))
    as (w2 & Hrun2 & Hw2).
  destruct (insert_or_update_document_run E (Effects.DEALS_COLLECTION E)
              {[ "_id" := deal_id ]} (deal_fields person_info deal_info)
              w2 (Hstore _))
    as (w3 & Hrun3 & Hw3).
  exists w3. split; [reflexivity|]. split.
  - unfold save_data_to_mongodb, mbind, M_bind, lift. rewrite Hid, Hfetch.
    cbn [get]. rewrite Hrun2. exact Hrun3.
  - rewrite Hw3, Hw2, <- app_assoc. reflexivity.
Qed.

Lemma save_data_to_mongodb_writes_both_witness :
  exists update_time w',
    get Examples.a_deal_record "update_time" VNone = Return update_time
    /\ save_data_to_mongodb Examples.deals_before_failing_store
         Examples.a_deal_record Examples.a_person world0 = (Return tt, w')
    /\ store_writes w'
       = (store_writes
            (fetch_deal_data Examples.deals_before_failing_store (VInt 42)
               world0).2
          ++ [("persons", {[ "_id" := VStr "17" ]},
               person_fields update_time Examples.a_person Examples.a_won_deal);
              ("deals", {[ "_id" := VInt 42 ]},
               deal_fields Examples.a_person Examples.a_won_deal)])%list.
Proof.
  apply (save_data_to_mongodb_writes_both Examples.deals_before_failing_store
           Examples.a_deal_record (VInt 42) Examples.a_person
           Examples.a_won_deal world0
           (fetch_deal_data Examples.deals_before_failing_store (VInt 42)
              world0).2).
  - vm_compute. reflexivity.
  - vm_compute. reflexivity.
  - intros n e He. injection He as <-. reflexivity.
Defined.

(** X12. A cancellation of the task during the persons write is not swallowed
    like a failure of the store: it ends [save_data_to_mongodb] there, and
    the deals write is not attempted. *)
Theorem save_data_to_mongodb_cancelled (E : env) (data deal_id : pyval)
    (person_info : PersonInfo) (deal_info : DealInfo) (w w1 : world) :
  subscript data "id" = Return deal_id ->
  fetch_deal_data E deal_id w = (Return (Some deal_info), w1) ->
  env_db E (w_writes w1) = DbRaise CancelledError ->
  exists update_time w',
    get data "update_time" VNone = Return update_time
    /\ save_data_to_mongodb E data person_info w = (Raise CancelledError, w')
    /\ store_writes w'
       = (store_writes w1
          ++ [(Effects.PERSONS_COLLECTION E,
               {[ "_id" := VStr (pi_id person_info) ]},
               person_fields update_time person_info deal_info)])%list.
Proof.
  intros Hid Hfetch Hdb.
  destruct data as [| | | | |d|]; try discriminate Hid.
  exists (default VNone (d !! "update_time")). eexists.
  split; [reflexivity|].
  unfold save_data_to_mongodb, mbind, M_bind, lift. rewrite Hid, Hfetch.
  cbn [get].
  unfold Dal.insert_or_update_document, try_except, update_one, mbind, M_bind.
  rewrite Hdb. cbn. split; [reflexivity|]. now rewrite store_writes_app.
Qed.

Lemma save_data_to_mongodb_cancelled_witness :
  exists update_time w',
    get Examples.a_deal_record "update_time" VNone = Return update_time
    /\ save_data_to_mongodb Examples.deals_before_cancelling_store
         Examples.a_deal_record Examples.a_person world0
       = (Raise CancelledError, w')
    /\ store_writes w'
       = (store_writes
            (fetch_deal_data Examples.deals_before_cancelling_store (VInt 42)
               world0).2
          ++ [("persons", {[ "_id" := VStr "17" ]},
               person_fields update_time Examples.a_person
                 Examples.a_won_deal)])%list.
Proof.
  apply (save_data_to_mongodb_cancelled Examples.deals_before_cancelling_store
           Examples.a_deal_record (VInt 42) Examples.a_person
           Examples.a_won_deal world0
           (fetch_deal_data Examples.deals_before_cancelling_store (VInt 42)
              world0).2).
  - vm_compute. reflexivity.
  - vm_compute. reflexivity.
  - reflexivity.
Defined.

(** ** [get_total_pages] on a success without the count *)

(** X13. A success whose body does not carry the count is an error, not an
    empty list of pages: a body that is no JSON raises [JSONDecodeError], a
    document without the path to the count raises what the subscript
    raises, and a count that is no number raises [TypeError]. *)
Theorem get_total_pages_malformed (E : env) (base_url : string) (status : Z)
    (w : world) :
  is_success status = true ->
  (env_http E (w_requests w) base_url = HResponse status None ->
   exists w', get_total_pages E base_url w = (Raise JSONDecodeError, w'))
  /\ (forall doc e,
        env_http E (w_requests w) base_url = HResponse status (Some doc) ->
        summary_total_count doc = Raise e ->
        exists w', get_total_pages E base_url w = (Raise e, w'))
  /\ (forall doc v,
        env_http E (w_requests w) base_url = HResponse status (Some doc) ->
        summary_total_count doc = Return v ->
        is_number v = false ->
        exists w', get_total_pages E base_url w = (Raise TypeError, w')).
Proof.
  intros Hok. unfold get_total_pages. repeat split.
  - intros Hhttp. run_M. rewrite Hhttp. cbn -[truthy String.append].
    destruct (status =? 200); cbn -[truthy String.append];
      unfold raise_for_status; rewrite ?Hok; run_M; eauto.
  - intros doc e Hhttp Hcount. run_M. rewrite Hhttp.
    cbn -[truthy String.append].
    destruct (status =? 200); cbn -[truthy String.append];
      unfold raise_for_status; rewrite ?Hok; run_M; rewrite Hcount; eauto.
  - intros doc v Hhttp Hcount Hnum.
    assert (Hdiv : true_div v 100 = Raise TypeError)
      by (destruct v; try discriminate Hnum; reflexivity).
    run_M. rewrite Hhttp. cbn -[truthy String.append true_div].
    destruct (status =? 200); cbn -[truthy String.append true_div];
      unfold raise_for_status; rewrite ?Hok; run_M; rewrite Hcount;
      cbn -[truthy String.append true_div]; rewrite Hdiv; eauto.
Qed.

Lemma get_total_pages_malformed_witness :
  (exists w',
      get_total_pages (Examples.constant_env 200 None) Examples.summary_url
        world0 = (Raise JSONDecodeError, w'))
  /\ (exists w',
      get_total_pages
        (Examples.constant_env 200 (Some Examples.a_summary_without_count))
        Examples.summary_url world0 = (Raise (KeyError "total_count"), w')).
Proof.
  split.
  - apply (proj1 (get_total_pages_malformed (Examples.constant_env 200 None)
                    Examples.summary_url 200 world0 eq_refl)).
    reflexivity.
  - apply (proj1 (proj2 (get_total_pages_malformed
                           (Examples.constant_env 200
                              (Some Examples.a_summary_without_count))
                           Examples.summary_url 200 world0 eq_refl))
             Examples.a_summary_without_count).
    + reflexivity.
    + vm_compute. reflexivity.
Defined.

End ExtractionLaws.

(* ===================================================================== *)
(** * From the store to the reports *)
(* ===================================================================== *)

Module ReportLaws.
Import DataModels Extraction.

(** The fields of the last write are the fields of the document. *)
Lemma upserted_field (existing : option (gmap string pyval))
    (filter update : gmap string pyval) (k : string) (v : pyval) :
  update !! k = Some v -> upserted existing filter update !! k = Some v.
Proof. intros Hk. unfold upserted. now apply lookup_union_Some_l. Qed.






End ReportLaws.

(* ===================================================================== *)
(** * mailers: the phone index *)
(* ===================================================================== *)

Module MailersLaws.
Import Cleaning Mailers.

(** ** The loops *)

Lemma clean_phone_str (s : string) : exists r, clean_phone (VStr s) = Return r.
Proof. unfold clean_phone. destruct (negb (truthy (VStr s))); eauto. Qed.

Lemma effects_log (lvl : level) (message : string) (w : world) :
  effects (log lvl message w).2 = effects w.
Proof.
  unfold effects, log, emit. cbn. rewrite List.filter_app. cbn.
  apply app_nil_r.
Qed.

Lemma load_phone_run (doc : gmap string pyval)
    (phone_dict : gmap string (gmap string pyval)) (phone : string) (w : world) :
  exists w',
    load_phone doc phone_dict phone w
    = (Return (file_phone doc phone_dict phone), w')
    /\ effects w' = effects w.
Proof.
  unfold load_phone, file_phone, phone_key, mbind, M_bind, lift.
  destruct (clean_phone_str phone) as [[k|] ->].
  - destruct (truthy_ostr (Some k));
      (eexists; split; [reflexivity|]); apply effects_log.
  - eexists; split; [reflexivity|]. apply effects_log.
Qed.

Lemma load_phones_run (doc : gmap string pyval) (phones : list string) :
  forall (phone_dict : gmap string (gmap string pyval)) (w : world),
    exists w',
      fold_each (load_phone doc) phones phone_dict w
      = (Return (foldl (file_phone doc) phone_dict phones), w')
      /\ effects w' = effects w.
Proof.
  induction phones as [|phone phones IH]; intros phone_dict w; cbn [fold_each foldl].
  - now exists w.
  - destruct (load_phone_run doc phone_dict phone w) as (w1 & Hrun & Heff).
    destruct (IH (file_phone doc phone_dict phone) w1) as (w2 & Hrest & Heff2).
    exists w2. unfold mbind, M_bind. rewrite Hrun. split; [exact Hrest|].
    congruence.
Qed.

Lemma phone_numbers_raises (doc : gmap string pyval) (e : exn) :
  phone_numbers doc = Raise e ->
  e = AttributeError
  /\ exists v, doc !! "phone_number" = Some v /\ forall s, v <> VStr s.
Proof.
  unfold phone_numbers, dict_get_or.
  destruct (doc !! "phone_number") as [v|]; cbn; [|discriminate].
  destruct v; intros [= <-]; (split; [reflexivity|]); eexists;
    (split; [reflexivity|]); discriminate.
Qed.

Lemma phone_numbers_non_string (doc : gmap string pyval) (v : pyval) :
  doc !! "phone_number" = Some v -> (forall s, v <> VStr s) ->
  phone_numbers doc = Raise AttributeError.
Proof.
  intros Hv Hns. unfold phone_numbers, dict_get_or. rewrite Hv. cbn.
  destruct v; try reflexivity. now destruct (Hns s).
Qed.

Lemma load_document_run (phone_dict : gmap string (gmap string pyval))
    (doc : gmap string pyval) (w : world) :
  match phone_numbers doc with
  | Return _ =>
      exists w', load_document phone_dict doc w
                 = (Return (file_document phone_dict doc), w')
                 /\ effects w' = effects w
  | Raise e => load_document phone_dict doc w = (Raise e, w)
  end.
Proof.
  unfold load_document, file_document, mbind, M_bind, lift.
  destruct (phone_numbers doc) as [phones|e]; [|reflexivity].
  apply load_phones_run.
Qed.

(** The outer loop: it returns the index of the documents when every
    document has its phones, and raises at the first one that has not. *)
Lemma load_documents_run (docs : list (gmap string pyval)) :
  forall (phone_dict : gmap string (gmap string pyval)) (w : world),
    exists w',
      effects w' = effects w
      /\ (fold_each load_document docs phone_dict w
          = (Return (index_of docs phone_dict), w')
          /\ Forall (fun doc => exists phones, phone_numbers doc = Return phones)
               docs
          \/ fold_each load_document docs phone_dict w = (Raise AttributeError, w')
             /\ Exists (fun doc => phone_numbers doc = Raise AttributeError) docs).
Proof.
  induction docs as [|doc docs IH]; intros phone_dict w;
    cbn [fold_each foldl index_of].
  - exists w. split; [reflexivity|]. left. now split.
  - pose proof (load_document_run phone_dict doc w) as Hdoc.
    destruct (phone_numbers doc) as [phones|e] eqn:Hphones.
    + destruct Hdoc as (w1 & Hrun & Heff).
      destruct (IH (file_document phone_dict doc) w1)
        as (w2 & Heff2 & [[Hrest Hall]|[Hrest Hex]]);
        exists w2; (split; [congruence|]); unfold mbind, M_bind; rewrite Hrun.
      * left. split; [exact Hrest|]. constructor; eauto.
      * right. split; [exact Hrest|]. now apply Exists_cons_tl.
    + exists w. split; [reflexivity|]. right.
      destruct (phone_numbers_raises doc e Hphones) as [-> _].
      unfold mbind, M_bind. rewrite Hdoc. split; [reflexivity|].
      now apply Exists_cons_hd.
Qed.

Lemma effects_find (collection : string) (w : world) :
  effects (emit (EvFind collection) w).2
  = (effects w ++ [EvFind collection])%list.
Proof. unfold effects, emit. cbn. now rewrite List.filter_app. Qed.

(** What [load_mongodb_data] returns is the index of the documents. *)
Lemma load_mongodb_data_returns (collection : string)
    (docs : list (gmap string pyval))
    (phone_dict : gmap string (gmap string pyval)) (w w' : world) :
  load_mongodb_data collection docs w = (Return phone_dict, w') ->
  phone_dict = index_of docs ∅.
Proof.
  unfold load_mongodb_data, mbind, M_bind. cbn [emit].
  destruct (load_documents_run docs ∅ (emit (EvFind collection) w).2)
    as (w1 & _ & [[Hrun _]|[Hrun _]]); cbn [emit snd] in Hrun; rewrite Hrun;
    cbn -[String.append]; unfold mret, M_ret; intros [= <- _] || discriminate;
    reflexivity.
Qed.

(** ** The index *)

Lemma phone_key_spec (phone k : string) :
  phone_key phone = Some k <-> clean_phone (VStr phone) = Return (Some k).
Proof.
  unfold phone_key. split.
  - destruct (clean_phone (VStr phone)) as [[k'|]|]; try discriminate.
    destruct (truthy_ostr (Some k')); [congruence | discriminate].
  - intros Hk. rewrite Hk.
    assert (Hne : truthy_ostr (Some k) = true); [|now rewrite Hne].
    unfold clean_phone in Hk. destruct (negb (truthy (VStr phone)));
      [discriminate|].
    destruct (10 <=? length (sub_nondigits (chars phone)))%nat eqn:Hlen;
      [|discriminate].
    injection Hk as <-. cbn [truthy_ostr].
    rewrite CleaningLaws.str_nonempty; [reflexivity|].
    intros He. rewrite He in Hlen. discriminate Hlen.
Qed.

Lemma phone_keys_spec (doc : gmap string pyval) (k : string) :
  k ∈ phone_keys doc ->
  exists s phone,
    doc !! "phone_number" = Some (VStr s)
    /\ phone ∈ split ", " s
    /\ clean_phone (VStr phone) = Return (Some k).
Proof.
  unfold phone_keys, phone_numbers, dict_get_or.
  destruct (doc !! "phone_number") as [v|]; cbn.
  - destruct v as [| | |s| | |]; try (intros H; now apply elem_of_nil in H).
    intros Hk. apply list_elem_of_omap in Hk as (phone & Hphone & Hkey).
    exists s, phone. split; [reflexivity|]. split; [exact Hphone|].
    now apply phone_key_spec.
  - intros Hk. now apply elem_of_nil in Hk.
Qed.

Lemma file_phones_keep (doc : gmap string pyval) (k : string)
    (phones : list string) :
  forall phone_dict,
    phone_dict !! k = Some doc ->
    foldl (file_phone doc) phone_dict phones !! k = Some doc.
Proof.
  induction phones as [|phone phones IH]; intros phone_dict Hk; cbn [foldl];
    [exact Hk|].
  apply IH. unfold file_phone. destruct (phone_key phone) as [k'|]; [|exact Hk].
  destruct (decide (k' = k)) as [->|Hne];
    [apply lookup_insert_eq | now rewrite lookup_insert_ne].
Qed.

Lemma file_phones_hit (doc : gmap string pyval) (k : string)
    (phones : list string) :
  forall phone_dict,
    k ∈ omap phone_key phones ->
    foldl (file_phone doc) phone_dict phones !! k = Some doc.
Proof.
  induction phones as [|phone phones IH]; intros phone_dict Hk;
    cbn [foldl omap list_omap] in *.
  - now apply elem_of_nil in Hk.
  - destruct (phone_key phone) as [k'|] eqn:Hkey; [|now apply IH].
    apply elem_of_cons in Hk as [->|Hk]; [|now apply IH].
    apply file_phones_keep. unfold file_phone. rewrite Hkey.
    apply lookup_insert_eq.
Qed.

Lemma file_phones_miss (doc : gmap string pyval) (k : string)
    (phones : list string) :
  forall phone_dict,
    k ∉ omap phone_key phones ->
    foldl (file_phone doc) phone_dict phones !! k = phone_dict !! k.
Proof.
  induction phones as [|phone phones IH]; intros phone_dict Hk;
    cbn [foldl omap list_omap] in *; [reflexivity|].
  unfold file_phone at 2.
  destruct (phone_key phone) as [k'|] eqn:Hkey; [|now apply IH].
  apply not_elem_of_cons in Hk as [Hne Hk].
  rewrite (IH _ Hk). now rewrite lookup_insert_ne.
Qed.

Lemma file_document_hit (phone_dict : gmap string (gmap string pyval))
    (doc : gmap string pyval) (k : string) :
  k ∈ phone_keys doc -> file_document phone_dict doc !! k = Some doc.
Proof.
  unfold phone_keys, file_document.
  destruct (phone_numbers doc) as [phones|e].
  - apply file_phones_hit.
  - intros Hk. now apply elem_of_nil in Hk.
Qed.

Lemma file_document_miss (phone_dict : gmap string (gmap string pyval))
    (doc : gmap string pyval) (k : string) :
  k ∉ phone_keys doc -> file_document phone_dict doc !! k = phone_dict !! k.
Proof.
  unfold phone_keys, file_document.
  destruct (phone_numbers doc) as [phones|e]; [|reflexivity].
  apply file_phones_miss.
Qed.

Lemma phone_index_miss (docs : list (gmap string pyval)) (k : string) :
  forall phone_dict,
    Forall (fun doc => k ∉ phone_keys doc) docs ->
    index_of docs phone_dict !! k = phone_dict !! k.
Proof.
  unfold index_of.
  induction docs as [|doc docs IH]; intros phone_dict Hall; cbn [foldl];
    [reflexivity|].
  apply Forall_cons in Hall as [Hdoc Hall].
  rewrite (IH _ Hall). now apply file_document_miss.
Qed.

Lemma phone_index_origin (docs : list (gmap string pyval)) (k : string)
    (doc : gmap string pyval) :
  forall phone_dict,
    index_of docs phone_dict !! k = Some doc ->
    phone_dict !! k = Some doc \/ (doc ∈ docs /\ k ∈ phone_keys doc).
Proof.
  unfold index_of.
  induction docs as [|d docs IH]; intros phone_dict Hk; cbn [foldl] in Hk;
    [now left|].
  destruct (IH _ Hk) as [Hd|[Hin Hkey]].
  - destruct (decide (k ∈ phone_keys d)) as [Hhit|Hmiss].
    + rewrite (file_document_hit _ _ _ Hhit) in Hd. injection Hd as <-.
      right. split; [apply list_elem_of_here | exact Hhit].
    + rewrite (file_document_miss _ _ _ Hmiss) in Hd. now left.
  - right. split; [now apply list_elem_of_further | exact Hkey].
Qed.

(** ** [load_mongodb_data] *)

(** X15. Every entry of the index comes from the collection: the document under
    a key is one of the documents read, its [phone_number] is a string, and
    one of the pieces that string has between [", "] cleans to the key. *)
Theorem mailers_index_origin (collection : string)
    (docs : list (gmap string pyval))
    (phone_dict : gmap string (gmap string pyval)) (w w' : world)
    (k : string) (doc : gmap string pyval) :
  load_mongodb_data collection docs w = (Return phone_dict, w') ->
  phone_dict !! k = Some doc ->
  doc ∈ docs
  /\ exists s phone,
      doc !! "phone_number" = Some (VStr s)
      /\ phone ∈ split ", " s
      /\ clean_phone (VStr phone) = Return (Some k).
Proof.
  intros Hload Hk. apply load_mongodb_data_returns in Hload as ->.
  destruct (phone_index_origin docs k doc ∅ Hk) as [Hempty|[Hin Hkey]].
  - now rewrite lookup_empty in Hempty.
  - split; [exact Hin|]. now apply phone_keys_spec.
Qed.

(** X16. Among the documents that list a phone, the one read last is the one
    the index holds under it; the [updated_at] of the documents plays no
    part (where the digisheet index keeps the latest). *)
Theorem mailers_index_last_wins (collection : string)
    (before later : list (gmap string pyval)) (doc : gmap string pyval)
    (phone_dict : gmap string (gmap string pyval)) (w w' : world)
    (k : string) :
  load_mongodb_data collection (before ++ doc :: later) w
  = (Return phone_dict, w') ->
  k ∈ phone_keys doc ->
  Forall (fun d => k ∉ phone_keys d) later ->
  phone_dict !! k = Some doc.
Proof.
  intros Hload Hk Hlater. apply load_mongodb_data_returns in Hload as ->.
  unfold index_of. rewrite foldl_app. cbn [foldl].
  fold (index_of later (file_document (foldl file_document ∅ before) doc)).
  rewrite (phone_index_miss later k _ Hlater). now apply file_document_hit.
Qed.

(** X17. The load returns when the [phone_number] of every document is a string
    or is missing, and aborts with [AttributeError] as soon as one document
    holds something else there ([None] included); either way the store was
    read once and nothing else was done. *)
Theorem mailers_load_needs_string_phones (collection : string)
    (docs : list (gmap string pyval)) (w : world) :
  (Forall (fun doc => forall v, doc !! "phone_number" = Some v ->
                                exists s, v = VStr s) docs ->
   exists w',
     load_mongodb_data collection docs w = (Return (index_of docs ∅), w')
     /\ effects w' = (effects w ++ [EvFind collection])%list)
  /\ (forall doc v,
        doc ∈ docs -> doc !! "phone_number" = Some v ->
        (forall s, v <> VStr s) ->
        exists w',
          load_mongodb_data collection docs w = (Raise AttributeError, w')
          /\ effects w' = (effects w ++ [EvFind collection])%list).
Proof.
  unfold load_mongodb_data, mbind, M_bind.
  destruct (load_documents_run docs ∅ (emit (EvFind collection) w).2)
    as (w1 & Heff & Hrun).
  rewrite effects_find in Heff.
  split.
  - intros Hall.
    destruct Hrun as [[Hrun _]|[_ Hex]].
    + cbn [emit snd] in Hrun. cbn [emit]. rewrite Hrun.
      eexists. split; [reflexivity|].
      etransitivity; [apply effects_log | exact Heff].
    + exfalso. apply Exists_exists in Hex as (doc & Hin & Hraise).
      rewrite Forall_forall in Hall.
      destruct (phone_numbers_raises doc _ Hraise) as (_ & v & Hv & Hns).
      destruct (Hall doc Hin v Hv) as [s ->]. now destruct (Hns s).
  - intros doc v Hin Hv Hns.
    destruct Hrun as [[_ Hall]|[Hrun _]].
    + exfalso. rewrite Forall_forall in Hall.
      destruct (Hall doc Hin) as [phones Hphones].
      rewrite (phone_numbers_non_string doc v Hv Hns) in Hphones.
      discriminate Hphones.
    + cbn [emit snd] in Hrun. cbn [emit]. rewrite Hrun.
      exists w1. split; [reflexivity | exact Heff].
Qed.

Lemma mailers_index_origin_witness :
  Examples.a_first_listed_person
    ∈ [Examples.a_first_listed_person; Examples.a_last_listed_person]
  /\ exists s phone,
      Examples.a_first_listed_person !! "phone_number" = Some (VStr s)
      /\ phone ∈ split ", " s
      /\ clean_phone (VStr phone) = Return (Some "5559876543").
Proof.
  apply (mailers_index_origin "persons"
           [Examples.a_first_listed_person; Examples.a_last_listed_person]
           (index_of [Examples.a_first_listed_person;
                      Examples.a_last_listed_person] ∅)
           world0
           (load_mongodb_data "persons"
              [Examples.a_first_listed_person; Examples.a_last_listed_person]
              world0).2).
  - vm_compute. reflexivity.
  - vm_compute. reflexivity.
Defined.

Lemma mailers_index_last_wins_witness :
  index_of [Examples.a_first_listed_person; Examples.a_last_listed_person] ∅
    !! "5551234567" = Some Examples.a_last_listed_person.
Proof.
  apply (mailers_index_last_wins "persons" [Examples.a_first_listed_person] []
           Examples.a_last_listed_person
           (index_of [Examples.a_first_listed_person;
                      Examples.a_last_listed_person] ∅)
           world0
           (load_mongodb_data "persons"
              [Examples.a_first_listed_person; Examples.a_last_listed_person]
              world0).2).
  - vm_compute. reflexivity.
  - assert (Hkeys : phone_keys Examples.a_last_listed_person = ["5551234567"])
      by (vm_compute; reflexivity).
    rewrite Hkeys. apply list_elem_of_here.
  - constructor.
Defined.

Lemma mailers_load_needs_string_phones_witness :
  (exists w',
      load_mongodb_data "persons"
        [Examples.a_first_listed_person; Examples.a_last_listed_person] world0
      = (Return (index_of [Examples.a_first_listed_person;
                           Examples.a_last_listed_person] ∅), w')
      /\ effects w' = [EvFind "persons"])
  /\ (exists w',
      load_mongodb_data "persons"
        [Examples.a_first_listed_person;
         Examples.a_person_with_a_numeric_phone] world0
      = (Raise AttributeError, w')
      /\ effects w' = [EvFind "persons"]).
Proof.
  split.
  - apply (proj1 (mailers_load_needs_string_phones "persons"
                    [Examples.a_first_listed_person;
                     Examples.a_last_listed_person] world0)).
    repeat constructor; intros v Hv; vm_compute in Hv; injection Hv as <-;
      eauto.
  - apply (proj2 (mailers_load_needs_string_phones "persons"
                    [Examples.a_first_listed_person;
                     Examples.a_person_with_a_numeric_phone] world0)
             Examples.a_person_with_a_numeric_phone (VInt 5551234567)).
    + apply list_elem_of_further, list_elem_of_here.
    + vm_compute. reflexivity.
    + intros s. discriminate.
Defined.

(** ** From [fetch_person_data] to the index *)

Lemma chars_app (s t : string) : chars (s ++ t) = (chars s ++ chars t)%list.
Proof.
  unfold chars. induction s as [|c s IH]; [reflexivity|].
  change (c :: list_ascii_of_string (s ++ t)
          = c :: (list_ascii_of_string s ++ list_ascii_of_string t)%list).
  now rewrite IH.
Qed.

Lemma split_go_piece (e r : list ascii) :
  ","%char ∉ e ->
  forall cur,
    split_go (chars ", ") 0 cur (e ++ chars ", " ++ r)
    = (rev cur ++ e)%list :: split_go (chars ", ") 0 [] r.
Proof.
  induction e as [|c e IH]; intros Hcomma cur.
  - cbn. now rewrite app_nil_r.
  - apply not_elem_of_cons in Hcomma as [Hc Hcomma].
    cbn [app split_go].
    change (chars ", ") with [","%char; " "%char] at 1.
    cbn [startswith].
    destruct (Ascii.eqb_spec ","%char c) as [Heq|_]; [now destruct (Hc Heq)|].
    cbn [andb]. rewrite (IH Hcomma). cbn [rev]. now rewrite <- app_assoc.
Qed.

Lemma split_go_last (e : list ascii) :
  ","%char ∉ e ->
  forall cur, split_go (chars ", ") 0 cur e = [(rev cur ++ e)%list].
Proof.
  induction e as [|c e IH]; intros Hcomma cur.
  - cbn. now rewrite app_nil_r.
  - apply not_elem_of_cons in Hcomma as [Hc Hcomma].
    cbn [split_go].
    change (chars ", ") with [","%char; " "%char] at 1.
    cbn [startswith].
    destruct (Ascii.eqb_spec ","%char c) as [Heq|_]; [now destruct (Hc Heq)|].
    cbn [andb]. rewrite (IH Hcomma). cbn [rev]. now rewrite <- app_assoc.
Qed.

(** [", ".join(l).split(", ")] gives [l] back, for a list that is not
    empty and whose strings hold no comma. *)
Lemma split_join (l : list string) :
  l <> [] ->
  Forall (fun p => ","%char ∉ chars p) l ->
  exists r, join ", " (VStr <$> l) = Return r /\ split ", " r = l.
Proof.
  intros Hne Hall. unfold split.
  induction Hall as [|p l Hp Hall IH]; [now destruct Hne|].
  destruct l as [|q l].
  - exists p. split; [reflexivity|].
    rewrite (split_go_last _ Hp). cbn. now rewrite CleaningProps.str_chars.
  - destruct IH as (r & Hjoin & Hsplit); [discriminate|].
    exists (p ++ ", " ++ r). split.
    + cbn [fmap list_fmap join] in *. now rewrite Hjoin.
    + rewrite !chars_app, (split_go_piece _ _ Hp). cbn [fmap list_fmap rev app].
      rewrite CleaningProps.str_chars. f_equal. exact Hsplit.
Qed.

(** X18. The phones [fetch_person_data] found for a person are the phones the
    mailers load reads back from the stored document, one by one and in
    order, as long as there is at least one and none holds a comma. *)
Theorem mailers_reads_back_stored_phones (person_id : pyval)
    (person_data : gmap string pyval) (person_info : DataModels.PersonInfo)
    (phones : list string) (existing : option (gmap string pyval))
    (update_time : pyval) (deal_info : DataModels.DealInfo) :
  Extraction.build_person_info person_id (VDict person_data)
  = Return person_info ->
  Extraction.phone_values person_data = Return (VStr <$> phones) ->
  phones <> [] ->
  Forall (fun p => ","%char ∉ chars p) phones ->
  phone_numbers
    (upserted existing {[ "_id" := VStr (DataModels.pi_id person_info) ]}
       (Extraction.person_fields update_time person_info deal_info))
  = Return phones.
Proof.
  intros Hbuild Hphones Hne Hcomma.
  destruct (split_join phones Hne Hcomma) as (r & Hjoin & Hsplit).
  assert (Hfield : DataModels.pi_phone_number person_info = Some r).
  { unfold Extraction.build_person_info in Hbuild.
    rewrite Hphones in Hbuild. cbn [mbind outcome_bind] in Hbuild.
    rewrite Hjoin in Hbuild.
    destruct (Extraction.email_values person_data) as [emails|];
      [cbn [mbind outcome_bind] in Hbuild | discriminate Hbuild].
    destruct (join ", " emails) as [email|];
      [cbn [mbind outcome_bind] in Hbuild | discriminate Hbuild].
    destruct (Extraction.get_person_address person_data) as [address|];
      [cbn [mbind outcome_bind] in Hbuild | discriminate Hbuild].
    destruct (to_ostr _) as [benefit_id|];
      [cbn [mbind outcome_bind] in Hbuild | discriminate Hbuild].
    now injection Hbuild as <-. }
  unfold phone_numbers, dict_get_or.
  rewrite (ReportLaws.upserted_field existing _ _ "phone_number" (VStr r)).
  - cbn. now rewrite Hsplit.
  - unfold Extraction.person_fields. rewrite lookup_insert_ne by discriminate.
    rewrite lookup_insert_eq, Hfield. reflexivity.
Qed.

Lemma mailers_reads_back_stored_phones_witness :
  phone_numbers
    (upserted None {[ "_id" := VStr "17" ]}
       (Extraction.person_fields (VStr "2024-05-01 10:00:00")
          Examples.a_two_phone_info Examples.a_won_deal))
  = Return ["5551234567"; "5559876543"].
Proof.
  apply (mailers_reads_back_stored_phones (VInt 17)
           Examples.a_person_with_two_phones Examples.a_two_phone_info
           ["5551234567"; "5559876543"] None (VStr "2024-05-01 10:00:00")
           Examples.a_won_deal).
  - vm_compute. reflexivity.
  - vm_compute. reflexivity.
  - discriminate.
  - repeat constructor; intros Hin; vm_compute in Hin;
      repeat (apply elem_of_cons in Hin as [Hin|Hin]; [discriminate Hin|]);
      now apply elem_of_nil in Hin.
Defined.

End MailersLaws.

(* ===================================================================== *)
(** * digisheet: the rows read and the rows written *)
(* ===================================================================== *)

Module DigisheetLaws.
Import Cleaning Digisheet.

Lemma clean_email_str (s : string) : exists r, clean_email (VStr s) = Return r.
Proof. unfold clean_email. destruct (negb (truthy (VStr s))); eauto. Qed.

(** X19. The rows [main] keeps from the two ranges it read.  The loop never
    raises; every row kept stands for a line present in both ranges (a
    line past the end of the shorter range is dropped, whatever it holds),
    carries the number of that line in the sheet, counted from [i], and has
    an email or a phone; and the numbers go up strictly, so no line is kept
    twice. *)
Theorem digisheet_rows_kept (emails phones : list (list string)) (i : Z) :
  exists rows,
    process_rows i emails phones = Return rows
    /\ (forall r, r ∈ rows ->
          exists n email_row phone_row,
            emails !! n = Some email_row
            /\ phones !! n = Some phone_row
            /\ row r = i + Z.of_nat n
            /\ truthy_ostr (email r) || truthy_ostr (phone_number r) = true)
    /\ (forall j1 j2 r1 r2,
          (j1 < j2)%nat -> rows !! j1 = Some r1 -> rows !! j2 = Some r2 ->
          row r1 < row r2).
Proof.
  revert phones i.
  induction emails as [|email_row emails IH]; intros phones i.
  { exists []. split; [reflexivity|]. split.
    - intros r Hr. now apply elem_of_nil in Hr.
    - intros j1 j2 r1 r2 _ Hr1. discriminate Hr1. }
  destruct phones as [|phone_row phones].
  { exists []. split; [reflexivity|]. split.
    - intros r Hr. now apply elem_of_nil in Hr.
    - intros j1 j2 r1 r2 _ Hr1. discriminate Hr1. }
  destruct (IH phones (i + 1)) as (rest & Hrest & Hin & Hsorted).
  assert (Hlater : forall r, r ∈ rest ->
            exists n email_row0 phone_row0,
              (email_row :: emails) !! n = Some email_row0
              /\ (phone_row :: phones) !! n = Some phone_row0
              /\ row r = i + Z.of_nat n
              /\ truthy_ostr (email r) || truthy_ostr (phone_number r) = true).
  { intros r Hr. destruct (Hin r Hr) as (n & er & pr & He & Hp & Hrow & Hkey).
    exists (S n), er, pr. repeat split; try assumption. lia. }
  assert (Hemail : exists e,
            match email_row !! 6%nat with
            | Some c => clean_email (VStr c)
            | None => Return None
            end = Return e).
  { destruct (email_row !! 6%nat) as [c|]; [apply clean_email_str | eauto]. }
  assert (Hphone : exists p,
            match phone_row with
            | c :: _ => clean_phone (VStr c)
            | [] => Return None
            end = Return p).
  { destruct phone_row as [|c ?]; [eauto | apply MailersLaws.clean_phone_str]. }
  destruct Hemail as [e He]. destruct Hphone as [p Hp].
  cbn [process_rows]. rewrite He, Hp, Hrest. cbn [mbind outcome_bind].
  destruct (truthy_ostr e || truthy_ostr p) eqn:Hkey.
  - eexists. split; [reflexivity|]. split.
    + intros r Hr. apply elem_of_cons in Hr as [->|Hr]; [|now apply Hlater].
      exists 0%nat, email_row, phone_row. cbn. repeat split; [lia|exact Hkey].
    + intros [|j1] [|j2] r1 r2 Hlt Hr1 Hr2; try lia; cbn in Hr1, Hr2.
      * injection Hr1 as <-. cbn [row].
        apply list_elem_of_lookup_2 in Hr2.
        destruct (Hin r2 Hr2) as (n & _ & _ & _ & _ & Hrow & _). lia.
      * apply (Hsorted j1 j2); [lia | assumption | assumption].
  - exists rest. split; [reflexivity|]. split; [exact Hlater | exact Hsorted].
Qed.

Lemma digisheet_rows_kept_witness :
  exists rows,
    process_rows 2 [["";"";"";"";"";"";"a@b.com"]; []; ["x"]]
      [["5551234567"]; ["555-987-6543"]] = Return rows
    /\ (forall r, r ∈ rows ->
          exists n email_row phone_row,
            [["";"";"";"";"";"";"a@b.com"]; []; ["x"]] !! n = Some email_row
            /\ [["5551234567"]; ["555-987-6543"]] !! n = Some phone_row
            /\ row r = 2 + Z.of_nat n
            /\ truthy_ostr (email r) || truthy_ostr (phone_number r) = true)
    /\ (forall j1 j2 r1 r2,
          (j1 < j2)%nat -> rows !! j1 = Some r1 -> rows !! j2 = Some r2 ->
          row r1 < row r2).
Proof.
  exact (digisheet_rows_kept [["";"";"";"";"";"";"a@b.com"]; []; ["x"]]
           [["5551234567"]; ["555-987-6543"]] 2).
Defined.

Section Main.

Variable strptime : string -> string -> outcome datetime.

Lemma effects_after (ev : event) (w : world) :
  effects (emit ev w).2
  = (effects w ++ (if is_log ev then [] else [ev]))%list.
Proof.
  unfold effects, emit. cbn. rewrite List.filter_app. cbn.
  now destruct (is_log ev).
Qed.

(** X20. A run of [main] that finds the spreadsheet, loads the collection and
    reads the two ranges does three things, in this order: it reads the
    collection, it reads the ranges, and it writes one batch with one range
    per row kept, found in the store or not; with no row kept it writes
    nothing. *)
Theorem digisheet_main_writes_one_batch (S : sheet_env) (id : string)
    (email_data phone_data : gmap string entry)
    (emails phones : list (list string)) (more : list (list (list string)))
    (sheet_data : list sheet_row) (w : world) :
  sheet_id S = Some id ->
  load_documents strptime (find S) (∅, ∅) = Return (email_data, phone_data) ->
  value_ranges S = emails :: phones :: more ->
  process_rows 2 emails phones = Return sheet_data ->
  exists w',
    main strptime S w = (Return tt, w')
    /\ effects w'
       = (effects w
          ++ [EvFind (PERSONS_COLLECTION S);
              EvBatchGet (ranges S)]
          ++ match sheet_data with
             | [] => []
             | _ :: _ =>
                 [EvBatchUpdate
                    (output_row S
                       <$> search_data sheet_data email_data phone_data)]
             end)%list.
Proof.
  intros Hid Hload Hranges Hrows.
  unfold main, load_mongodb_data, update_sheet_with_results, ranges.
  rewrite Hid, Hranges. unfold mbind, M_bind, mret, M_ret, lift, log.
  rewrite Hload, Hrows.
  destruct sheet_data as [|r sheet_data]; cbn -[String.append];
    (eexists; split; [reflexivity|]);
    unfold effects; cbn -[String.append];
    rewrite !List.filter_app; cbn -[String.append];
    rewrite ?app_nil_r, <- ?app_assoc; reflexivity.
Qed.

End Main.

Lemma digisheet_main_writes_one_batch_witness :
  exists w' batch,
    main strptime_canonical
      (Examples.a_sheet [Examples.an_older_person; Examples.a_newer_person])
      world0 = (Return tt, w')
    /\ effects w'
       = [EvFind "persons"; EvBatchGet ["'Digi'!A2:G"; "'Digi'!K2:K"];
          EvBatchUpdate [batch]].
Proof.
  destruct (digisheet_main_writes_one_batch strptime_canonical
              (Examples.a_sheet [Examples.an_older_person;
                                 Examples.a_newer_person])
              "sheet-1"
              {[ "a@b.com" := Examples.newer_entry ]}
              {[ "5551234567" := Examples.newer_entry ]}
              [["";"";"";"";"";"";"a@b.com"]] [["5551234567"]] []
              [{| row := 2; email := Some "a@b.com";
                  phone_number := Some "5551234567" |}]
              world0)
    as (w' & Hrun & Heff).
  - reflexivity.
  - vm_compute. reflexivity.
  - reflexivity.
  - vm_compute. reflexivity.
  - exists w'. eexists. split; [exact Hrun|]. rewrite Heff. reflexivity.
Defined.

End DigisheetLaws.
